(** * MarketSentinel: decision and fund-allocation engine

    A shallow embedding of the Go packages [calculator], [strategy], [model]
    and [fund] of MarketSentinel, and the properties of its specification
    proved (or refuted) over that embedding.

    Numbers.  Go's [float64] quantities (prices, scores, balances) are
    modelled by exact rationals [Q]: comparison, addition, subtraction and
    multiplication are the exact ones, [==] on floats is [Qeq].  Rounding,
    infinities and NaN are outside this model; the one division the code
    does not guard against a zero divisor is kept apart ([strategy.near]).
    Where a property turns on rounding, the source function is given a
    second time over the machine's binary64 numbers ([Binary64]), each
    operation rounded on its own.  Go's [int] is a 64-bit signed integer,
    modelled by [Z] with its wrap-around written out ([int_add],
    [int_sub]).

    Memory.  A Go slice is a header (pointer, offset, length, capacity) over
    a backing array that several headers may share; the fund manager's
    [RecentScores] window is modelled that way, over an explicit store of
    backing arrays. *)

From Stdlib Require Import QArith Qabs ZArith Lia Lqa Bool String.
From Stdlib Require Import PrimFloat.
From Stdlib Require Uint63 DecimalString DecimalZ DecimalPos.
From stdpp Require Import list.

#[local] Open Scope Q_scope.

(** ** Go numerics *)

Module GoNum.

(** [a < b], [a <= b], [a > b], [a >= b], [a == b] on [float64]. *)
Definition ltb (a b : Q) : bool := negb (Qle_bool b a).
Definition leb (a b : Q) : bool := Qle_bool a b.
Definition gtb (a b : Q) : bool := ltb b a.
Definition geb (a b : Q) : bool := leb b a.
Definition eqb (a b : Q) : bool := Qeq_bool a b.

(** 64-bit signed [int]. *)
Definition int_min : Z := (- 2 ^ 63)%Z.
Definition int_max : Z := (2 ^ 63 - 1)%Z.
Definition wrap (z : Z) : Z := ((z + 2 ^ 63) mod 2 ^ 64 - 2 ^ 63)%Z.
Definition int_add (a b : Z) : Z := wrap (a + b).
Definition int_sub (a b : Z) : Z := wrap (a - b).

(** [float64(n)] for an [int] [n]. *)
Definition float64_of_int (n : Z) : Q := inject_Z n.

(** The outcome of running a Go function: it returns, or it panics (index
    out of range).  [OutOfFuel] is the model's own: a loop of the model
    given too little fuel; it is shown not to occur. *)
Inductive outcome (A : Type) : Type :=
| Returns (a : A)
| Panics
| OutOfFuel.
Arguments Returns {A} a.
Arguments Panics {A}.
Arguments OutOfFuel {A}.

Definition bind {A B} (o : outcome A) (k : A -> outcome B) : outcome B :=
  match o with
  | Returns a => k a
  | Panics => Panics
  | OutOfFuel => OutOfFuel
  end.

(** Go's [error]: [nil] or a message. *)
Definition error : Type := option string.

(** [l[i]] for an [int] index: [None] is the index-out-of-range panic. *)
Definition index {A} (l : list A) (i : Z) : option A :=
  if (i <? 0)%Z then None else l !! Z.to_nat i.

(** [len(l)] as an [int]. *)
Definition len {A} (l : list A) : Z := Z.of_nat (length l).

End GoNum.

Import GoNum.

Declare Scope go_scope.
Delimit Scope go_scope with go.
Infix "<?" := ltb (at level 70, no associativity) : go_scope.
Infix "<=?" := leb (at level 70, no associativity) : go_scope.
Infix ">?" := gtb (at level 70, no associativity) : go_scope.
Infix ">=?" := geb (at level 70, no associativity) : go_scope.
Infix "=?" := eqb (at level 70, no associativity) : go_scope.
Notation "o >>= k" := (bind o k) (at level 50, left associativity) : go_scope.
#[local] Open Scope go_scope.

(** ** Go slices over shared backing arrays *)

Module GoSlice.

(** The store of backing arrays of [float64], addressed by allocation
    number. *)
Abbreviation store := (list (list Q)).

(** A slice header: the backing array it points into, the offset of its
    first element there, its length and its capacity. *)
Record slice : Type := mkSlice {
  ptr : nat;
  off : nat;
  slen : nat;
  scap : nat
}.

(** The nil slice: no array, length and capacity zero. *)
Definition nil_slice : slice := mkSlice 0 0 0 0.

Definition backing (h : store) (s : slice) : list Q := h !!! ptr s.

(** The elements a holder of header [s] sees in store [h]. *)
Definition elems (h : store) (s : slice) : list Q :=
  take (slen s) (drop (off s) (backing h s)).

(** A header is well formed in a store when its capacity lies within its
    backing array (a header of capacity zero needs no array). *)
Definition wf_slice (h : store) (s : slice) : Prop :=
  (slen s <= scap s)%nat /\ (off s + scap s <= length (backing h s))%nat.

(** [append(s, x)].  With spare capacity the element is written in place,
    into the shared backing array just past the slice's end.  Otherwise
    the runtime allocates a new array, copies the elements and writes [x]
    after them; how much spare room the new array gets is the runtime's
    choice, [slack] of the old capacity. *)
Definition append (slack : nat -> nat) (h : store) (s : slice) (x : Q)
    : store * slice :=
  if (slen s <? scap s)%nat then
    (<[ptr s := <[(off s + slen s)%nat := x]> (backing h s)]> h,
     mkSlice (ptr s) (off s) (S (slen s)) (scap s))
  else
    (h ++ [elems h s ++ x :: replicate (slack (scap s)) 0],
     mkSlice (length h) 0 (S (slen s)) (S (slen s) + slack (scap s))).

(** [s[k:]], for [k <= len(s)]. *)
Definition slice_from (s : slice) (k : nat) : slice :=
  mkSlice (ptr s) (off s + k) (slen s - k) (scap s - k).

(** A fresh slice holding [l], as a decoder allocates it, with [extra]
    spare capacity. *)
Definition alloc (h : store) (l : list Q) (extra : nat) : store * slice :=
  match l with
  | [] => (h, nil_slice)
  | _ => (h ++ [l ++ replicate extra 0],
          mkSlice (length h) 0 (length l) (length l + extra))
  end.

End GoSlice.

Import GoSlice.

(** ** internal/model *)

Module model.

(** internal/model: OHLCV, a single candlestick bar. *)
Record OHLCV : Type := mkOHLCV {
  Time : Z;
  Open : Q;
  High : Q;
  Low : Q;
  Close : Q;
  Volume : Q
}.

(** internal/model/indicators.go: MarketIndicators. *)
Record MarketIndicators : Type := mkIndicators {
  CurrentPrice : Q;
  MA200 : Q;
  MA20w : Q;
  MA50w : Q;
  WeeklyRSI : Q;
  DailyRSI : Q;
  High52w : Q;
  Low52w : Q;
  High30d : Q;
  Low30d : Q;
  Position52w : Q
}.

Inductive TriggerType : Type :=
| TriggerUnset
| TriggerWeekly
| TriggerBottomFish
| TriggerTakeProfit
| TriggerMonthly
| TriggerQuarterly
| TriggerManual.

Record FactorScore : Type := mkFactorScore {
  Name : string;
  RawScore : Q;
  Weight : Q;
  Weighted : Q;
  Commentary : string
}.

Record InvestmentTier : Type := mkTier {
  Label : string;
  Multiplier : Q;
  UseReserve : Q
}.

Record TradeSignal : Type := mkSignal {
  Factors : list FactorScore;
  TotalScore : Q;
  Tier : InvestmentTier;
  BaseAmount : Q;
  FinalAmount : Q;
  ReserveUsed : Q;
  Trigger : TriggerType;
  WarningMsg : string
}.

(** internal/model: FundState, the dual-pool fund status.  [W] is what
    holds the recent scores: a slice header in memory, the list of the
    scores in the JSON file and in what an observer reads. *)
Record FundStateOf (W : Type) : Type := mkFundState {
  MonthlyBudget : Q;
  WeeklyBaseN : Q;
  RegularBalance : Q;
  ReserveBalance : Q;
  BottomFishUsedThisWeek : bool;
  ConsecutiveHighScoreWeeks : Z;
  RecentScores : W;
  LastReplenishAt : Z;
  LastRebalanceAt : Z;
  UpdatedAt : Z
}.
Arguments mkFundState {W}.
Arguments MonthlyBudget {W}.
Arguments WeeklyBaseN {W}.
Arguments RegularBalance {W}.
Arguments ReserveBalance {W}.
Arguments BottomFishUsedThisWeek {W}.
Arguments ConsecutiveHighScoreWeeks {W}.
Arguments RecentScores {W}.
Arguments LastReplenishAt {W}.
Arguments LastRebalanceAt {W}.
Arguments UpdatedAt {W}.

Definition FundState : Type := FundStateOf slice.

End model.

Import model.

(** ** internal/calculator *)

Module calculator.

(** ma.go: extractCloses. *)
Definition extractCloses (bars : list OHLCV) : list Q := map Close bars.

(** rsi.go, first loop: [for i := 1; i <= period; i++], accumulating the
    gains and the losses (as positive magnitudes) of the first [period]
    changes. *)
Fixpoint seed_loop (fuel : nat) (closes : list Q) (period i : Z)
    (avgGain avgLoss : Q) : outcome (Q * Q) :=
  if (i <=? period)%Z then
    match fuel with
    | O => OutOfFuel
    | S fuel' =>
        match index closes i, index closes (int_sub i 1) with
        | Some ci, Some cp =>
            let change := ci - cp in
            if change >? 0
            then seed_loop fuel' closes period (int_add i 1) (avgGain + change) avgLoss
            else seed_loop fuel' closes period (int_add i 1) avgGain (avgLoss - change)
        | _, _ => Panics
        end
    end
  else Returns (avgGain, avgLoss).

(** rsi.go, second loop: [for i := period + 1; i < len(closes); i++],
    Wilder smoothing over the remaining bars. *)
Fixpoint smooth_loop (fuel : nat) (closes : list Q) (period i : Z)
    (avgGain avgLoss : Q) : outcome (Q * Q) :=
  if (i <? len closes)%Z then
    match fuel with
    | O => OutOfFuel
    | S fuel' =>
        match index closes i, index closes (int_sub i 1) with
        | Some ci, Some cp =>
            let change := ci - cp in
            let gain := if change >? 0 then change else 0 in
            let loss := if change >? 0 then 0 else - change in
            smooth_loop fuel' closes period (int_add i 1)
              ((avgGain * float64_of_int (int_sub period 1) + gain) / float64_of_int period)
              ((avgLoss * float64_of_int (int_sub period 1) + loss) / float64_of_int period)
        | _, _ => Panics
        end
    end
  else Returns (avgGain, avgLoss).

(** rsi.go: CalculateRSI.  Each loop reads a new index of [closes] at
    every turn, so [S (length closes)] turns of fuel are more than either
    can take. *)
Definition CalculateRSI (bars : list OHLCV) (period : Z) : outcome (Q * error) :=
  if (period <=? 0)%Z then Returns (0, Some "period must be positive"%string)
  else if (len bars <? int_add period 1)%Z then Returns (50.0, None)
  else
    let closes := extractCloses bars in
    seed_loop (S (length closes)) closes period 1 0 0 >>= fun '(avgGain, avgLoss) =>
    let avgGain := avgGain / float64_of_int period in
    let avgLoss := avgLoss / float64_of_int period in
    smooth_loop (S (length closes)) closes period (int_add period 1) avgGain avgLoss
      >>= fun '(avgGain, avgLoss) =>
    if avgLoss =? 0 then Returns (100.0, None)
    else
      let rs := avgGain / avgLoss in
      let rsi := 100.0 - 100.0 / (1.0 + rs) in
      Returns (rsi, None).

(** range.go: Calculate52WeekPosition. *)
Definition Calculate52WeekPosition (current high low : Q) : Q * error :=
  if high =? low then (0.5, None)
  else if high <? low then (0, Some "high must be >= low"%string)
  else
    let pos := (current - low) / (high - low) in
    let pos := if pos <? 0 then 0 else pos in
    let pos := if pos >? 1 then 1 else pos in
    (pos, None).

End calculator.

(** ** internal/strategy *)

Module strategy.

(** What the Go runtime contributes to the scorers and is no part of the
    repository: [fmt.Sprintf] for the verbs the commentaries use, and
    the outcome of [x / 0 < 0.01] on IEEE doubles (it depends on the sign
    of the zero), which the rationals cannot express. *)
Record GoRuntime : Type := mkRuntime {
  sprintf_signed1 : Q -> string;      (* "%+.1f" *)
  sprintf_round0 : Q -> string;       (* "%.0f"  *)
  div_zero_below : Q -> bool          (* [x / 0 < 0.01] *)
}.

Section Scorers.

Variable rt : GoRuntime.

(** factors.go: scoreMA200Deviation, weight 0.35. *)
Definition scoreMA200Deviation (ind : MarketIndicators) : FactorScore :=
  if MA200 ind =? 0 then
    mkFactorScore "MA200偏离度" 0 0.35 0 "MA200不可用"
  else
    let deviation := (CurrentPrice ind - MA200 ind) / MA200 ind * 100 in
    let score :=
      if deviation <=? -20 then 2.0
      else if deviation <=? -10 then 1.5
      else if deviation <=? -5 then 1.0
      else if deviation <=? 0 then 0.5
      else if deviation <=? 5 then 0
      else if deviation <=? 10 then -0.5
      else if deviation <=? 15 then -1.0
      else if deviation <=? 20 then -1.5
      else -2.0 in
    mkFactorScore "MA200偏离度" score 0.35 (score * 0.35)
      ("偏离 " ++ sprintf_signed1 rt deviation ++ "%").

(** The nine-bucket RSI ladder shared, as written twice in factors.go, by
    scoreWeeklyRSI and scoreDailyRSI. *)
Definition rsi_ladder (rsi : Q) : Q :=
  if rsi <=? 25 then 2.0
  else if rsi <=? 30 then 1.5
  else if rsi <=? 40 then 1.0
  else if rsi <=? 45 then 0.5
  else if rsi <=? 55 then 0
  else if rsi <=? 60 then -0.5
  else if rsi <=? 70 then -1.0
  else if rsi <=? 80 then -1.5
  else -2.0.

(** factors.go: scoreWeeklyRSI, weight 0.25. *)
Definition scoreWeeklyRSI (ind : MarketIndicators) : FactorScore :=
  let rsi := WeeklyRSI ind in
  let score := rsi_ladder rsi in
  mkFactorScore "周线RSI" score 0.25 (score * 0.25)
    ("RSI=" ++ sprintf_round0 rt rsi).

(** factors.go: scoreDailyRSI, weight 0.15. *)
Definition scoreDailyRSI (ind : MarketIndicators) : FactorScore :=
  let rsi := DailyRSI ind in
  let score := rsi_ladder rsi in
  mkFactorScore "日线RSI" score 0.15 (score * 0.15)
    ("RSI=" ++ sprintf_round0 rt rsi).

(** factors.go: score52WeekPosition, weight 0.10. *)
Definition score52WeekPosition (ind : MarketIndicators) (otherFactorsAvg : Q)
    : FactorScore :=
  let pos := Position52w ind * 100 in
  let score :=
    if pos <=? 10 then 2.0
    else if pos <=? 20 then 1.5
    else if pos <=? 30 then 1.0
    else if pos <=? 40 then 0.5
    else if pos <=? 60 then 0
    else if pos <=? 70 then -0.5
    else if pos <=? 80 then -1.0
    else if pos <=? 95 then -1.5
    else if otherFactorsAvg <? -1 then -2.0 else -1.0 in
  mkFactorScore "52周位置" score 0.10 (score * 0.10)
    ("位置=" ++ sprintf_round0 rt pos ++ "%").

(** [math.Abs(price-ext)/ext < 0.01]. *)
Definition near (price ext : Q) : bool :=
  if ext =? 0 then div_zero_below rt (Qabs (price - ext))
  else Qabs (price - ext) / ext <? 0.01.

(** factors.go: scoreTrendTracker, weight 0.15. *)
Definition scoreTrendTracker (ind : MarketIndicators) : FactorScore :=
  let bullish := (CurrentPrice ind >? MA20w ind) && (MA20w ind >? MA50w ind) in
  let bearish := (CurrentPrice ind <? MA20w ind) && (MA20w ind <? MA50w ind) in
  let near30dHigh := near (CurrentPrice ind) (High30d ind) in
  let near30dLow := near (CurrentPrice ind) (Low30d ind) in
  let '(score, commentary) :=
    if bullish && near30dHigh then (1.5, "多头排列+30日新高"%string)
    else if bullish then (1.0, "多头排列"%string)
    else if bearish && near30dLow then (-1.0, "空头排列+30日新低"%string)
    else if bearish then (-0.5, "空头排列"%string)
    else (0, "震荡"%string) in
  mkFactorScore "趋势追踪" score 0.15 (score * 0.15) commentary.

(** Tiers, the ordered table of the investment mapping. *)
Definition Tiers : list (Q * InvestmentTier) :=
  [ (1.5, mkTier "极限重仓" 1.0 1.5);
    (1.2, mkTier "重仓买入" 1.0 1.0);
    (0.8, mkTier "加仓买入" 1.0 0.5);
    (0.0, mkTier "正常定投" 1.0 0);
    (-0.8, mkTier "缩减定投" 0.5 0);
    (-1.5, mkTier "轻仓观望" 0.25 0) ].

(** DefaultTier, the lowest tier, for scores below -1.5. *)
Definition DefaultTier : InvestmentTier := mkTier "最低参与" 0.15 0.

(** [for _, t := range ts { if totalScore >= t.MinScore { return t.Tier } }
    return DefaultTier]. *)
Fixpoint first_tier (ts : list (Q * InvestmentTier)) (totalScore : Q)
    : InvestmentTier :=
  match ts with
  | [] => DefaultTier
  | (minScore, tier) :: ts' =>
      if totalScore >=? minScore then tier else first_tier ts' totalScore
  end.

(** mapTier maps a total score to an InvestmentTier. *)
Definition mapTier (totalScore : Q) : InvestmentTier :=
  first_tier Tiers totalScore.

(** Evaluate computes the full trade signal from market indicators. *)
Definition Evaluate (ind : MarketIndicators) : TradeSignal :=
  let f1 := scoreMA200Deviation ind in
  let f2 := scoreWeeklyRSI ind in
  let f3 := scoreDailyRSI ind in
  let f5 := scoreTrendTracker ind in
  let otherFactorsAvg :=
    (RawScore f1 + RawScore f2 + RawScore f3 + RawScore f5) / 4.0 in
  let f4 := score52WeekPosition ind otherFactorsAvg in
  let factors := [f1; f2; f3; f4; f5] in
  let totalScore :=
    Weighted f1 + Weighted f2 + Weighted f3 + Weighted f4 + Weighted f5 in
  let tier := mapTier totalScore in
  mkSignal factors totalScore tier 0 0 0 TriggerWeekly
    (if (WeeklyRSI ind >? 85) || (DailyRSI ind >? 85)
     then "⚠️ RSI > 85 止盈预警：建议考虑部分止盈"%string
     else ""%string).

End Scorers.

End strategy.

(** ** internal/fund *)

Module fund.

(** Field updates of the FundState struct. *)
Definition set_RegularBalance {W} (st : FundStateOf W) (v : Q) : FundStateOf W :=
  mkFundState (MonthlyBudget st) (WeeklyBaseN st) v (ReserveBalance st)
    (BottomFishUsedThisWeek st) (ConsecutiveHighScoreWeeks st) (RecentScores st)
    (LastReplenishAt st) (LastRebalanceAt st) (UpdatedAt st).
Definition set_ReserveBalance {W} (st : FundStateOf W) (v : Q) : FundStateOf W :=
  mkFundState (MonthlyBudget st) (WeeklyBaseN st) (RegularBalance st) v
    (BottomFishUsedThisWeek st) (ConsecutiveHighScoreWeeks st) (RecentScores st)
    (LastReplenishAt st) (LastRebalanceAt st) (UpdatedAt st).
Definition set_BottomFishUsedThisWeek {W} (st : FundStateOf W) (v : bool) : FundStateOf W :=
  mkFundState (MonthlyBudget st) (WeeklyBaseN st) (RegularBalance st) (ReserveBalance st)
    v (ConsecutiveHighScoreWeeks st) (RecentScores st)
    (LastReplenishAt st) (LastRebalanceAt st) (UpdatedAt st).
Definition set_ConsecutiveHighScoreWeeks {W} (st : FundStateOf W) (v : Z) : FundStateOf W :=
  mkFundState (MonthlyBudget st) (WeeklyBaseN st) (RegularBalance st) (ReserveBalance st)
    (BottomFishUsedThisWeek st) v (RecentScores st)
    (LastReplenishAt st) (LastRebalanceAt st) (UpdatedAt st).
Definition set_RecentScores {W V} (st : FundStateOf W) (v : V) : FundStateOf V :=
  mkFundState (MonthlyBudget st) (WeeklyBaseN st) (RegularBalance st) (ReserveBalance st)
    (BottomFishUsedThisWeek st) (ConsecutiveHighScoreWeeks st) v
    (LastReplenishAt st) (LastRebalanceAt st) (UpdatedAt st).
Definition set_UpdatedAt {W} (st : FundStateOf W) (v : Z) : FundStateOf W :=
  mkFundState (MonthlyBudget st) (WeeklyBaseN st) (RegularBalance st) (ReserveBalance st)
    (BottomFishUsedThisWeek st) (ConsecutiveHighScoreWeeks st) (RecentScores st)
    (LastReplenishAt st) (LastRebalanceAt st) v.

(** What a holder of the struct value [st] reads in store [h]: every
    field, the recent scores resolved through the slice header. *)
Definition observe (h : store) (st : FundState) : FundStateOf (list Q) :=
  set_RecentScores st (elems h (RecentScores st)).

(** The state file: absent, unreadable or not JSON, or holding a state. *)
Inductive file_content : Type :=
| Missing
| Unreadable
| Stored (doc : FundStateOf (list Q)).

(** What the outside world contributes to one operation: the clock read by
    SaveState, and whether the file write succeeds (a failed write leaves
    some content behind). *)
Inductive write_result : Type :=
| WriteOk
| WriteFailed (leftover : file_content).

Record env : Type := mkEnv {
  now : Z;
  write : write_result
}.

(** Manager: the store its state's slice lives in, the FundState struct
    [m.state] points to, and the file at [m.filePath].  The mutex makes the
    operations below run one at a time. *)
Record Manager : Type := mkManager {
  heap : store;
  state : FundState;
  file : file_content
}.

Section Operations.

(** The runtime's allocation policy (see [GoSlice.append]). *)
Variable slack : nat -> nat.

(** state.go: LoadState. *)
Definition LoadState (f : file_content) : option (store * FundState) :=
  match f with
  | Missing => Some ([], mkFundState 0 0 0 0 false 0%Z nil_slice 0%Z 0%Z 0%Z)
  | Unreadable => None
  | Stored doc =>
      let '(h, s) := alloc [] (RecentScores doc) (slack (length (RecentScores doc))) in
      Some (h, set_RecentScores doc s)
  end.

(** state.go: SaveState, through [m.save()]: stamps UpdatedAt, then
    rewrites the file in full. *)
Definition save (m : Manager) (e : env) : Manager * error :=
  let st := set_UpdatedAt (state m) (now e) in
  match write e with
  | WriteOk => (mkManager (heap m) st (Stored (observe (heap m) st)), None)
  | WriteFailed leftover => (mkManager (heap m) st leftover, Some "write failed"%string)
  end.

(** manager.go: NewManager. *)
Definition NewManager (f : file_content) (monthlyBudget : Q) (e : env)
    : option Manager :=
  match LoadState f with
  | None => None
  | Some (h, st) =>
      let st :=
        if MonthlyBudget st =? 0 then
          let weeklyBase := monthlyBudget * 0.70 / 4.33 in
          mkFundState monthlyBudget weeklyBase (monthlyBudget * 0.70)
            (monthlyBudget * 0.30) (BottomFishUsedThisWeek st)
            (ConsecutiveHighScoreWeeks st) (RecentScores st)
            (LastReplenishAt st) (LastRebalanceAt st) (UpdatedAt st)
        else st in
      match save (mkManager h st f) e with
      | (m, None) => Some m
      | (_, Some _) => None
      end
  end.

(** manager.go: GetState returns [*m.state], a copy of the struct. *)
Definition GetState (m : Manager) : FundState := state m.

(** manager.go: CalculateWeeklyInvestment. *)
Definition CalculateWeeklyInvestment (m : Manager) (signal : TradeSignal) (e : env)
    : Manager * (Q * Q) :=
  let st := state m in
  let baseN := WeeklyBaseN st in
  let regularAmount := baseN * Multiplier (Tier signal) in
  let reserveAmount := baseN * UseReserve (Tier signal) in
  let regularAmount :=
    if regularAmount >? RegularBalance st then RegularBalance st else regularAmount in
  let reserveAmount :=
    if reserveAmount >? ReserveBalance st then ReserveBalance st else reserveAmount in
  let st := set_RegularBalance st (RegularBalance st - regularAmount) in
  let st := set_ReserveBalance st (ReserveBalance st - reserveAmount) in
  let '(h, scores) := append slack (heap m) (RecentScores st) (TotalScore signal) in
  let scores :=
    if (12 <? slen scores)%nat then slice_from scores (slen scores - 12) else scores in
  let st := set_RecentScores st scores in
  let st :=
    set_ConsecutiveHighScoreWeeks st
      (if TotalScore signal >? 1.0
       then int_add (ConsecutiveHighScoreWeeks st) 1
       else 0%Z) in
  (fst (save (mkManager h st (file m)) e), (regularAmount + reserveAmount, reserveAmount)).

(** manager.go: CalculateBottomFishInvestment. *)
Definition CalculateBottomFishInvestment (m : Manager) (totalScore : Q) (e : env)
    : Manager * (Q * bool) :=
  let st := state m in
  if BottomFishUsedThisWeek st then (m, (0, false))
  else
    let baseN := WeeklyBaseN st in
    let multiplier :=
      if totalScore >? 1.0 then 1.5
      else if totalScore >? 0 then 1.0
      else if totalScore <? -0.5 then 0.5
      else 0.75 in
    let amount := baseN * multiplier in
    let amount := if amount >? ReserveBalance st then ReserveBalance st else amount in
    let st := set_ReserveBalance st (ReserveBalance st - amount) in
    let st := set_BottomFishUsedThisWeek st true in
    (fst (save (mkManager (heap m) st (file m)) e), (amount, true)).

(** manager.go: MonthlyReplenish. *)
Definition MonthlyReplenish (m : Manager) (e : env) : Manager :=
  let st := state m in
  let st := set_RegularBalance st (RegularBalance st + MonthlyBudget st * 0.70) in
  let st := set_ReserveBalance st (ReserveBalance st + MonthlyBudget st * 0.30) in
  fst (save (mkManager (heap m) st (file m)) e).

(** manager.go: QuarterlyRebalance. *)
Definition QuarterlyRebalance (m : Manager) (e : env) : Manager * string :=
  let st := state m in
  let baseN := WeeklyBaseN st in
  let '(st, msg) :=
    if ReserveBalance st >? 6 * baseN then
      let excess := ReserveBalance st - 6 * baseN in
      let st := set_ReserveBalance st (ReserveBalance st - excess) in
      let st := set_RegularBalance st (RegularBalance st + excess) in
      (st, "储备池超额，已转回常规池"%string)
    else if (ConsecutiveHighScoreWeeks st >=? 4)%Z && (ReserveBalance st <? 3 * baseN) then
      let topUp := 3 * baseN - ReserveBalance st in
      let st := set_ReserveBalance st (ReserveBalance st + topUp) in
      (st, "连续高分+储备不足，紧急补充储备池"%string)
    else (st, "季度再平衡：无需调整"%string) in
  (fst (save (mkManager (heap m) st (file m)) e), msg).

(** manager.go: ResetWeeklyFlags. *)
Definition ResetWeeklyFlags (m : Manager) (e : env) : Manager :=
  let st := set_BottomFishUsedThisWeek (state m) false in
  fst (save (mkManager (heap m) st (file m)) e).

(** A call on the manager, and what it answers. *)
Inductive call : Type :=
| DoGetState
| DoWeekly (signal : TradeSignal)
| DoBottomFish (totalScore : Q)
| DoMonthlyReplenish
| DoQuarterlyRebalance
| DoResetWeeklyFlags.

Inductive reply : Type :=
| GotState (st : FundState)
| Invested (finalAmount reserveUsed : Q)
| BottomFished (amount : Q) (triggered : bool)
| Rebalanced (msg : string)
| Done.

Definition step (m : Manager) (c : call) (e : env) : Manager * reply :=
  match c with
  | DoGetState => (m, GotState (GetState m))
  | DoWeekly signal =>
      let '(m', (f, r)) := CalculateWeeklyInvestment m signal e in (m', Invested f r)
  | DoBottomFish totalScore =>
      let '(m', (a, t)) := CalculateBottomFishInvestment m totalScore e in
      (m', BottomFished a t)
  | DoMonthlyReplenish => (MonthlyReplenish m e, Done)
  | DoQuarterlyRebalance =>
      let '(m', msg) := QuarterlyRebalance m e in (m', Rebalanced msg)
  | DoResetWeeklyFlags => (ResetWeeklyFlags m e, Done)
  end.

(** A sequence of calls, one after the other (the mutex serialises
    them), with the replies in order. *)
Fixpoint run (m : Manager) (cs : list (call * env)) : Manager * list reply :=
  match cs with
  | [] => (m, [])
  | (c, e) :: cs' =>
      let '(m1, r) := step m c e in
      let '(m2, rs) := run m1 cs' in
      (m2, r :: rs)
  end.

End Operations.

End fund.

(** * Reference definitions and example data *)

Module RSISpec.

(** The RSI as the specification words it, to compare [CalculateRSI]
    with: the deltas of consecutive closes; the averages seeded from the
    first [period] deltas, gains and losses summed separately, losses as
    positive magnitudes; Wilder smoothing
    [avg = (avg*(period-1) + newValue)/period] over every later delta;
    RSI 100 when the average loss is zero, [100 - 100/(1+avgGain/avgLoss)]
    otherwise. *)
Definition deltas (closes : list Q) : list Q :=
  zip_with (fun prev cur => cur - prev) closes (tail closes).

Definition gain (d : Q) : Q := if d >? 0 then d else 0.
Definition loss (d : Q) : Q := if d >? 0 then 0 else - d.

Definition Qsum (l : list Q) : Q := fold_right Qplus 0 l.

Definition wilder_seed (period : Z) (ds : list Q) : Q * Q :=
  (Qsum (map gain ds) / inject_Z period, Qsum (map loss ds) / inject_Z period).

Definition wilder_step (period : Z) (avg : Q * Q) (d : Q) : Q * Q :=
  ((fst avg * (inject_Z period - 1) + gain d) / inject_Z period,
   (snd avg * (inject_Z period - 1) + loss d) / inject_Z period).

Definition wilder_averages (period : Z) (closes : list Q) : Q * Q :=
  let ds := deltas closes in
  let p := Z.to_nat period in
  fold_left (wilder_step period) (drop p ds) (wilder_seed period (take p ds)).

Definition rsi_formula (avg : Q * Q) : Q :=
  if snd avg =? 0 then 100 else 100 - 100 / (1 + fst avg / snd avg).

(** One turn of each loop of [CalculateRSI] as a function of the
    accumulators and the delta read, for the proofs. *)
Definition seed_acc (acc : Q * Q) (change : Q) : Q * Q :=
  if change >? 0 then (fst acc + change, snd acc) else (fst acc, snd acc - change).

Definition smooth_acc (period : Z) (acc : Q * Q) (change : Q) : Q * Q :=
  ((fst acc * inject_Z (period - 1) + gain change) / inject_Z period,
   (snd acc * inject_Z (period - 1) + loss change) / inject_Z period).

End RSISpec.

Module FundSpec.

Import fund.

(** Both pools hold a nonnegative balance. *)
Definition nonneg_pools (st : FundState) : Prop :=
  0 <= RegularBalance st /\ 0 <= ReserveBalance st.

(** The weekly base and the monthly budget are nonnegative. *)
Definition nonneg_setup (st : FundState) : Prop :=
  0 <= WeeklyBaseN st /\ 0 <= MonthlyBudget st.

(** The tier a weekly call brings has a nonnegative multiplier and
    reserve use. *)
Definition nonneg_tier (c : call) : Prop :=
  match c with
  | DoWeekly signal =>
      0 <= Multiplier (Tier signal) /\ 0 <= UseReserve (Tier signal)
  | _ => True
  end.

Definition is_reset (c : call) : bool :=
  match c with
  | DoResetWeeklyFlags => true
  | _ => false
  end.

(** A reply of CalculateBottomFishInvestment with triggered = true. *)
Definition triggered (r : reply) : bool :=
  match r with
  | BottomFished _ true => true
  | _ => false
  end.

Definition triggered_count (rs : list reply) : nat :=
  length (List.filter triggered rs).

(** The recent-scores window of the manager, oldest first. *)
Definition window (m : Manager) : list Q :=
  elems (heap m) (RecentScores (state m)).

(** The last [n] elements of a list. *)
Definition last_n {A} (n : nat) (l : list A) : list A :=
  drop (length l - n) l.

(** Header [s0] ends no later than header [s] wherever the two share a
    backing array: what [append] writes through [s] then lies outside
    what [s0] shows. *)
Definition ends_within (s0 s : slice) : Prop :=
  ptr s = ptr s0 -> (off s0 + slen s0 <= off s + slen s)%nat.

(** The manager's slice header is well formed in its store. *)
Definition wf_manager (m : Manager) : Prop :=
  wf_slice (heap m) (RecentScores (state m)).

End FundSpec.

(** A Go runtime for the examples: the formatting verbs print nothing. *)
Definition quiet_runtime : strategy.GoRuntime :=
  strategy.mkRuntime (fun _ => ""%string) (fun _ => ""%string) (fun _ => false).

(** The two indicator sets of TestFactor4_NonlinearLogic, Position52w 0.99. *)
Definition ind_capped : MarketIndicators :=
  mkIndicators 5990 5800 5900 5700 55 55 6000 5000 5990 5800 0.99.
Definition ind_overheated : MarketIndicators :=
  mkIndicators 5990 4800 5500 5700 82 82 6000 5000 5990 5800 0.99.

(** A clock reading and a successful write, for the examples. *)
Definition example_env : fund.env := fund.mkEnv 1761800000 fund.WriteOk.

(** An allocation policy for the examples: two spare elements. *)
Definition roomy (_ : nat) : nat := 2%nat.

(** A state file with a full window of twelve scores. *)
Definition example_doc : FundStateOf (list Q) :=
  mkFundState 3000 (3000 * 0.70 / 4.33) 2100 900 false 0%Z
    [0.1; 0.2; 0.3; 0.4; 0.5; 0.6; 0.7; 0.8; 0.9; 1.0; 1.1; 1.2] 0%Z 0%Z 0%Z.

(** The manager NewManager makes of that file. *)
Definition example_manager : fund.Manager :=
  match fund.NewManager roomy (fund.Stored example_doc) 3000 example_env with
  | Some m => m
  | None => fund.mkManager [] (fund.set_RecentScores example_doc nil_slice) fund.Missing
  end.

(** A manager whose reserve exceeds six weekly bases. *)
Definition rich_manager : fund.Manager :=
  fund.mkManager []
    (mkFundState 3000 (3000 * 0.70 / 4.33) 2100 4000 false 0%Z nil_slice 0%Z 0%Z 0%Z)
    fund.Missing.

Definition example_signal : TradeSignal := strategy.Evaluate quiet_runtime ind_capped.

(** A busy week: three weekly investments, bottom-fishing attempts, a
    replenishment and a rebalance, with no weekly reset. *)
Definition busy_week : list (fund.call * fund.env) :=
  [ (fund.DoBottomFish 0.4, example_env);
    (fund.DoWeekly example_signal, example_env);
    (fund.DoBottomFish 1.3, example_env);
    (fund.DoWeekly example_signal, example_env);
    (fund.DoMonthlyReplenish, example_env);
    (fund.DoWeekly example_signal, example_env);
    (fund.DoQuarterlyRebalance, example_env);
    (fund.DoBottomFish (-0.7), example_env) ].

(** * The rest of the indicator library *)

(** ** Counting loops *)

Module GoLoop.

(** [for i := i0; i < n; i++ { s = body(i, s) }] with an [int] counter; the
    body returns the next state or panics. *)
Fixpoint for_loop {St : Type} (fuel : nat) (i n : Z) (body : Z -> St -> outcome St) (s : St)
    : outcome St :=
  if (i <? n)%Z then
    match fuel with
    | O => OutOfFuel
    | S fuel' => body i s >>= fun s' => for_loop fuel' (int_add i 1) n body s'
    end
  else Returns s.

(** The body of a loop that reads [l[i]] and folds it into the state. *)
Definition reading {A St : Type} (l : list A) (g : St -> A -> St) (i : Z) (s : St)
    : outcome St :=
  match index l i with
  | Some x => Returns (g s x)
  | None => Panics
  end.

End GoLoop.

Import GoLoop.

(** ** internal/calculator/ma.go *)

Module ma.

Import calculator.

(** ma.go: CalculateSMA. *)
Definition CalculateSMA (prices : list Q) (period : Z) : outcome (Q * error) :=
  if (period <=? 0)%Z then Returns (0, Some "period must be positive"%string)
  else if (len prices <? period)%Z
  then Returns (0, Some "not enough data for SMA calculation"%string)
  else
    for_loop (S (length prices)) (int_sub (len prices) period) (len prices)
      (reading prices (fun sum p => sum + p)) 0.0
      >>= fun sum => Returns (sum / float64_of_int period, None).

(** ma.go: CalculateMA200, CalculateMA20w, CalculateMA50w. *)
Definition CalculateMA200 (dailyBars : list OHLCV) : outcome (Q * error) :=
  CalculateSMA (extractCloses dailyBars) 200.

Definition CalculateMA20w (weeklyBars : list OHLCV) : outcome (Q * error) :=
  CalculateSMA (extractCloses weeklyBars) 20.

Definition CalculateMA50w (weeklyBars : list OHLCV) : outcome (Q * error) :=
  CalculateSMA (extractCloses weeklyBars) 50.

End ma.

(** ** internal/calculator/range.go *)

Module range.

(** A [float64] that may be one of the infinities [math.Inf(-1)],
    [math.Inf(1)], which the range scans start from. *)
Inductive float64e : Type :=
| NegInf
| Fin (q : Q)
| PosInf.

(** [x > h] and [x < l] for a finite [x]. *)
Definition above (x : Q) (h : float64e) : bool :=
  match h with
  | NegInf => true
  | Fin q => x >? q
  | PosInf => false
  end.

Definition below (x : Q) (l : float64e) : bool :=
  match l with
  | NegInf => false
  | Fin q => x <? q
  | PosInf => true
  end.

(** The body both scans share: raise [high] to a higher High, lower [low]
    to a lower Low. *)
Definition widen (acc : float64e * float64e) (b : OHLCV) : float64e * float64e :=
  (if above (High b) (fst acc) then Fin (High b) else fst acc,
   if below (Low b) (snd acc) then Fin (Low b) else snd acc).

(** range.go: Calculate52WeekRange, over the last 252 bars. *)
Definition Calculate52WeekRange (dailyBars : list OHLCV)
    : outcome (float64e * float64e * error) :=
  if (len dailyBars =? 0)%Z
  then Returns (Fin 0, Fin 0, Some "no daily bars provided"%string)
  else
    let n := len dailyBars in
    let start := int_sub n 252 in
    let start := if (start <? 0)%Z then 0%Z else start in
    for_loop (S (length dailyBars)) start n (reading dailyBars widen) (NegInf, PosInf)
      >>= fun '(high, low) => Returns (high, low, None).

(** range.go: Calculate30DayRange, over the last 22 bars. *)
Definition Calculate30DayRange (dailyBars : list OHLCV)
    : outcome (float64e * float64e * error) :=
  if (len dailyBars =? 0)%Z
  then Returns (Fin 0, Fin 0, Some "no daily bars provided"%string)
  else
    let n := len dailyBars in
    let start := int_sub n 22 in
    let start := if (start <? 0)%Z then 0%Z else start in
    for_loop (S (length dailyBars)) start n (reading dailyBars widen) (NegInf, PosInf)
      >>= fun '(high, low) => Returns (high, low, None).

(** The finite value of a range bound. *)
Definition finite (x : float64e) : Q :=
  match x with
  | Fin q => q
  | _ => 0
  end.

End range.

(** ** Reference definitions for the indicator library *)

Module IndicatorSpec.

(** [v] is the largest (smallest) value [f] takes on [l]. *)
Definition is_max_of {A} (f : A -> Q) (l : list A) (v : Q) : Prop :=
  (exists a, a ∈ l /\ f a = v) /\ (forall a, a ∈ l -> f a <= v).

Definition is_min_of {A} (f : A -> Q) (l : list A) (v : Q) : Prop :=
  (exists a, a ∈ l /\ f a = v) /\ (forall a, a ∈ l -> v <= f a).

(** Every bar has its Low at or below its High. *)
Definition well_formed_bars (bars : list OHLCV) : Prop :=
  Forall (fun b => Low b <= High b) bars.

End IndicatorSpec.

(** * Data collection *)

(** ** internal/collector: weekly aggregation *)

Module aggregate.

(** [a * b] on [int]. *)
Definition int_mul (a b : Z) : Z := wrap (a * b).

Section Weeks.

(** [Time.ISOWeek] of the standard library: the ISO 8601 year and week
    number a time falls in. *)
Variable ISOWeek : Z -> Z * Z.

(** [year*100 + isoWeek], the key the aggregation compares weeks by. *)
Definition weekKey (t : Z) : Z :=
  let '(year, isoWeek) := ISOWeek t in
  int_add (int_mul year 100) isoWeek.

(** The variables of the loop: the weeks completed, the week being built,
    and whether one has been started. *)
Record aggregation : Type := mkAggregation {
  weekly : list OHLCV;
  week : OHLCV;
  weekStarted : bool
}.

(** One turn of [for _, d := range daily]. *)
Definition add_day (st : aggregation) (d : OHLCV) : aggregation :=
  let weekKey_d := weekKey (Time d) in
  if negb (weekStarted st) then
    mkAggregation (weekly st)
      (mkOHLCV (Time d) (Open d) (High d) (Low d) (Close d) (Volume d)) true
  else
    let currentKey := weekKey (Time (week st)) in
    if negb (weekKey_d =? currentKey)%Z then
      mkAggregation (weekly st ++ [week st])
        (mkOHLCV (Time d) (Open d) (High d) (Low d) (Close d) (Volume d)) true
    else
      let w := week st in
      mkAggregation (weekly st)
        (mkOHLCV (Time w) (Open w)
           (if High d >? High w then High d else High w)
           (if Low d <? Low w then Low d else Low w)
           (Close d)
           (Volume w + Volume d))
        true.

(** The weeks once the loop is over: [if weekStarted { weekly =
    append(weekly, week) }]. *)
Definition flush (st : aggregation) : list OHLCV :=
  if weekStarted st then weekly st ++ [week st] else weekly st.

(** vstrader.go: aggregateDailyToWeekly. *)
Definition aggregateDailyToWeekly (daily : list OHLCV) : list OHLCV :=
  if (len daily =? 0)%Z then []
  else flush (fold_left add_day daily (mkAggregation [] (mkOHLCV 0 0 0 0 0 0) false)).

End Weeks.

End aggregate.

(** ** internal/collector: Collector *)

Module collector.

Import calculator ma range.

(** fetcher.go: the Fetcher interface.  A value of it stands for the data
    source as it answers at one moment: each method returns its result and
    an error. *)
Record Fetcher : Type := mkFetcher {
  FetchDailyBars : string -> Z -> list OHLCV * error;
  FetchWeeklyBars : string -> Z -> list OHLCV * error;
  FetchCurrentPrice : string -> Q * error;
  FetcherName : string
}.

(** Collector.Collect: fetch daily bars, weekly bars and the current price,
    giving up on the first failure; then compute every indicator, falling
    back on the current price (50 for an RSI, 0.5 for the position) where a
    calculation reports an error.  The warnings it logs are not modelled. *)
Definition Collect (f : Fetcher) (symbol : string)
    : outcome (option MarketIndicators * error) :=
  match FetchDailyBars f symbol 300 with
  | (_, Some err) => Returns (None, Some ("fetch daily bars: " ++ err)%string)
  | (dailyBars, None) =>
  match FetchWeeklyBars f symbol 60 with
  | (_, Some err) => Returns (None, Some ("fetch weekly bars: " ++ err)%string)
  | (weeklyBars, None) =>
  match FetchCurrentPrice f symbol with
  | (_, Some err) => Returns (None, Some ("fetch current price: " ++ err)%string)
  | (currentPrice, None) =>
      CalculateMA200 dailyBars >>= fun '(ma, err) =>
      let ma200 := match err with Some _ => currentPrice | None => ma end in
      CalculateMA20w weeklyBars >>= fun '(ma, err) =>
      let ma20w := match err with Some _ => currentPrice | None => ma end in
      CalculateMA50w weeklyBars >>= fun '(ma, err) =>
      let ma50w := match err with Some _ => currentPrice | None => ma end in
      CalculateRSI weeklyBars 14 >>= fun '(rsi, err) =>
      let weeklyRSI := match err with Some _ => 50 | None => rsi end in
      CalculateRSI dailyBars 14 >>= fun '(rsi, err) =>
      let dailyRSI := match err with Some _ => 50 | None => rsi end in
      Calculate52WeekRange dailyBars >>= fun '(h, l, err) =>
      let high52w := match err with Some _ => currentPrice | None => finite h end in
      let low52w := match err with Some _ => currentPrice | None => finite l end in
      Calculate30DayRange dailyBars >>= fun '(h, l, err) =>
      let high30d := match err with Some _ => currentPrice | None => finite h end in
      let low30d := match err with Some _ => currentPrice | None => finite l end in
      let '(pos, err) := Calculate52WeekPosition currentPrice high52w low52w in
      let position52w := match err with Some _ => 0.5 | None => pos end in
      Returns
        (Some (mkIndicators currentPrice ma200 ma20w ma50w weeklyRSI dailyRSI
                 high52w low52w high30d low30d position52w),
         None)
  end end end.

End collector.

Module CollectSpec.

Import collector.

(** A data source that answers with the given bars and price, whatever the
    symbol and the count asked for. *)
Definition answering (daily weekly : list OHLCV) (price : Q) : Fetcher :=
  mkFetcher (fun _ _ => (daily, None)) (fun _ _ => (weekly, None))
    (fun _ => (price, None)) "fixed".

(** The answers of a data source lie within what a Go slice can hold. *)
Definition bounded_answers (f : Fetcher) (symbol : string) : Prop :=
  (len (fst (FetchDailyBars f symbol 300)) <= int_max)%Z /\
  (len (fst (FetchWeeklyBars f symbol 60)) <= int_max)%Z.

End CollectSpec.

Module AggregateSpec.

(** Consecutive elements of [l] differ under [key]. *)
Fixpoint adjacent_distinct {A} (key : A -> Z) (l : list A) : Prop :=
  match l with
  | a :: (b :: _) as rest => key a <> key b /\ adjacent_distinct key rest
  | _ => True
  end.

(** Some bar of [ws] spans the trading range of [d]. *)
Definition spanned (d : OHLCV) (ws : list OHLCV) : Prop :=
  exists w, w ∈ ws /\ Low w <= Low d /\ High d <= High w.

(** A stand-in for [Time.ISOWeek] on the examples: times count days from a
    Monday, all in one year. *)
Definition week_of_day (t : Z) : Z * Z := (2024, t / 7 + 1)%Z.

Definition ten_days : list OHLCV :=
  map (fun t => mkOHLCV t (100 + inject_Z t) (102 + inject_Z t) (99 + inject_Z t)
                  (101 + inject_Z t) 1000)
      [0; 1; 2; 3; 4; 7; 8; 9; 10; 11]%Z.

End AggregateSpec.

(** * Reference definitions for the fund ledger *)

Module FundLedger.

Import fund.

(** Both pools together. *)
Definition total (m : Manager) : Q :=
  RegularBalance (state m) + ReserveBalance (state m).

(** The money a reply hands out. *)
Definition paid (r : reply) : Q :=
  match r with
  | Invested finalAmount _ => finalAmount
  | BottomFished amount _ => amount
  | _ => 0
  end.

Definition paid_out (rs : list reply) : Q := RSISpec.Qsum (map paid rs).

Definition is_replenish (c : call) : bool :=
  match c with
  | DoMonthlyReplenish => true
  | _ => false
  end.

Definition is_rebalance (c : call) : bool :=
  match c with
  | DoQuarterlyRebalance => true
  | _ => false
  end.

(** The number of MonthlyReplenish calls in a sequence. *)
Definition replenishments (cs : list (call * env)) : nat :=
  length (List.filter (fun ce => is_replenish (fst ce)) cs).

(** The total scores of the weekly investments in a sequence, in order. *)
Fixpoint scores_invested (cs : list (call * env)) : list Q :=
  match cs with
  | [] => []
  | (DoWeekly signal, _) :: cs' => TotalScore signal :: scores_invested cs'
  | _ :: cs' => scores_invested cs'
  end.

(** The call changes the fund state: every call but GetState and a
    bottom-fish attempt in a week that has had one. *)
Definition mutates (m : Manager) (c : call) : bool :=
  match c with
  | DoGetState => false
  | DoBottomFish _ => negb (BottomFishUsedThisWeek (state m))
  | _ => true
  end.

End FundLedger.

(** Bars for the examples: closes with the given spread around them. *)
Definition bars_of (closes : list Q) : list OHLCV :=
  map (fun c => mkOHLCV 0 c (c + 1) (c - 1) c 1000) closes.

(** A data source with three daily bars and no weekly bars, and the
    indicators Collect computes from it; one with no history at all. *)
Definition short_history : collector.Fetcher :=
  CollectSpec.answering (bars_of [10; 12; 11]) [] 11.

Definition short_history_indicators : MarketIndicators :=
  mkIndicators 11 11 11 11 50.0 50.0 13 9 13 9 (2 # 4).

Definition no_history : collector.Fetcher := CollectSpec.answering [] [] 5800.

Definition no_history_indicators : MarketIndicators :=
  mkIndicators 5800 5800 5800 5800 50.0 50.0 5800 5800 5800 5800 0.5.

(** * internal/recorder: what the tasks hand to the recorder *)

Module recorder.

Module WeeklySnapshot.
Record t : Type := mk {
  Indicators : MarketIndicators;
  Signal : TradeSignal;
  FundState : model.FundState
}.
End WeeklySnapshot.

Module DailyCheckEvent.
Record t : Type := mk {
  DailyRSI : Q;
  WeeklyRSI : Q;
  Price : Q;
  EventType : string;
  Amount : Q;
  TotalScore : Q
}.
End DailyCheckEvent.

Module FundEvent.
Record t : Type := mk {
  EventType : string;
  RegularBefore : Q;
  RegularAfter : Q;
  ReserveBefore : Q;
  ReserveAfter : Q;
  Amount : Q;
  Note : string
}.
End FundEvent.

Module MonthlyEvent.
Record t : Type := mk {
  RegularAdded : Q;
  ReserveAdded : Q;
  RegularAfter : Q;
  ReserveAfter : Q;
  AvgScore : Q
}.
End MonthlyEvent.

Module QuarterlyEvent.
Record t : Type := mk {
  Action : string;
  Amount : Q;
  RegularAfter : Q;
  ReserveAfter : Q;
  Note : string
}.
End QuarterlyEvent.

End recorder.

(** * internal/scheduler: the cron tasks *)

Module scheduler.

Import strategy fund collector recorder.

(** Field updates of the TradeSignal struct. *)
Definition set_Trigger (s : TradeSignal) (v : TriggerType) : TradeSignal :=
  mkSignal (Factors s) (TotalScore s) (Tier s) (BaseAmount s) (FinalAmount s)
    (ReserveUsed s) v (WarningMsg s).
Definition set_BaseAmount (s : TradeSignal) (v : Q) : TradeSignal :=
  mkSignal (Factors s) (TotalScore s) (Tier s) v (FinalAmount s)
    (ReserveUsed s) (Trigger s) (WarningMsg s).
Definition set_FinalAmount (s : TradeSignal) (v : Q) : TradeSignal :=
  mkSignal (Factors s) (TotalScore s) (Tier s) (BaseAmount s) v
    (ReserveUsed s) (Trigger s) (WarningMsg s).
Definition set_ReserveUsed (s : TradeSignal) (v : Q) : TradeSignal :=
  mkSignal (Factors s) (TotalScore s) (Tier s) (BaseAmount s) (FinalAmount s)
    v (Trigger s) (WarningMsg s).

(** The messages the tasks send, by what they are built from; their wording
    (fmt.Sprintf and the notifier's Format functions) is not modelled. *)
Inductive message : Type :=
| CollectFailed (err : string)
| WeeklyReport (ind : MarketIndicators) (signal : TradeSignal)
    (fundStatus : FundStateOf (list Q))
| BottomFishAlert (dailyRSI totalScore amount : Q)
| TakeProfitAlert (dailyRSI weeklyRSI price : Q)
| MonthlySummary (st : FundStateOf (list Q))
| RebalanceReport (result : string) (fundStatus : FundStateOf (list Q)).

(** What a task does to the outside, in order: a [trySend], or a call on
    the recorder.  Both may fail; the tasks log the failure and go on, so
    the failure changes nothing below.  Log lines are not modelled. *)
Inductive effect : Type :=
| TrySend (msg : message)
| RecordWeekly (snap : WeeklySnapshot.t)
| RecordDailyCheck (evt : DailyCheckEvent.t)
| RecordFundEvent (evt : FundEvent.t)
| RecordMonthly (evt : MonthlyEvent.t)
| RecordQuarterly (evt : QuarterlyEvent.t).

(** What HandleCommand answers. *)
Inductive command_reply : Type :=
| EmptyReply
| FundStatusReply (st : FundStateOf (list Q))
| MonthlySummaryReply (st : FundStateOf (list Q))
| HelpReply.

Section Tasks.

Variable rt : GoRuntime.
Variable slack : nat -> nat.

(** The cron library runs every job in a goroutine of its own, and the
    command handler runs in the polling goroutine; the manager's mutex
    makes single calls atomic, not a task.  [others] are the calls of other
    goroutines that get the mutex between two calls of the task at hand. *)
Definition others : Type := list (call * env).

Definition meanwhile (o : others) (m : Manager) : Manager := fst (run slack m o).

(** recordFundEvent. *)
Definition recordFundEvent (eventType : string) (before after : model.FundState)
    (amount : Q) (note : string) : effect :=
  RecordFundEvent
    (FundEvent.mk eventType (RegularBalance before) (RegularBalance after)
       (ReserveBalance before) (ReserveBalance after) amount note).

(** weeklyTask.  [e] is what the clock and the file system contribute to
    the task's CalculateWeeklyInvestment. *)
Definition weeklyTask (f : Fetcher) (symbol : string) (m : Manager) (e : env)
    (o1 o2 o3 : others) : outcome (Manager * list effect) :=
  Collect f symbol >>= fun '(ind, err) =>
  match err with
  | Some err => Returns (m, [TrySend (CollectFailed err)])
  | None =>
      match ind with
      | None => Panics
      | Some ind =>
          let signal := Evaluate rt ind in
          let signal := set_Trigger signal TriggerWeekly in
          let state := GetState m in
          let signal := set_BaseAmount signal (WeeklyBaseN state) in
          let m := meanwhile o1 m in
          let stateBefore := GetState m in
          let m := meanwhile o2 m in
          let '(m, (finalAmount, reserveUsed)) :=
            CalculateWeeklyInvestment slack m signal e in
          let signal := set_FinalAmount signal finalAmount in
          let signal := set_ReserveUsed signal reserveUsed in
          let m := meanwhile o3 m in
          let updatedState := GetState m in
          Returns
            (m,
             [TrySend (WeeklyReport ind signal (observe (heap m) updatedState));
              RecordWeekly (WeeklySnapshot.mk ind signal updatedState);
              recordFundEvent "WEEKLY" stateBefore updatedState
                (finalAmount + reserveUsed) "周定投"])
      end
  end.

(** dailyCheck. *)
Definition dailyCheck (f : Fetcher) (symbol : string) (m : Manager) (e : env)
    (o1 o2 : others) : outcome (Manager * list effect) :=
  Collect f symbol >>= fun '(ind, err) =>
  match err with
  | Some _ => Returns (m, [])
  | None =>
      match ind with
      | None => Panics
      | Some ind =>
          let '(m, bottomFish) :=
            if DailyRSI ind <? 30 then
              let signal := Evaluate rt ind in
              let stateBefore := GetState m in
              let m := meanwhile o1 m in
              let '(m, (amount, triggered)) :=
                CalculateBottomFishInvestment m (TotalScore signal) e in
              if triggered then
                let m := meanwhile o2 m in
                let stateAfter := GetState m in
                (m,
                 [TrySend (BottomFishAlert (DailyRSI ind) (TotalScore signal) amount);
                  RecordDailyCheck
                    (DailyCheckEvent.mk (DailyRSI ind) (WeeklyRSI ind) (CurrentPrice ind)
                       "BOTTOM_FISH" amount (TotalScore signal));
                  recordFundEvent "BOTTOM_FISH" stateBefore stateAfter amount
                    "抄底触发"])
              else (m, [])
            else (m, []) in
          let takeProfit :=
            if (DailyRSI ind >? 85) || (WeeklyRSI ind >? 85) then
              [TrySend (TakeProfitAlert (DailyRSI ind) (WeeklyRSI ind) (CurrentPrice ind));
               RecordDailyCheck
                 (DailyCheckEvent.mk (DailyRSI ind) (WeeklyRSI ind) (CurrentPrice ind)
                    "TAKE_PROFIT" 0 0)]
            else [] in
          Returns (m, bottomFish ++ takeProfit)
      end
  end.

(** monthlyTask.  The loop over [state.RecentScores] reads, through the
    header of the copy, the elements as they are when the copy is made. *)
Definition monthlyTask (m : Manager) (e : env) (o1 o2 : others)
    : Manager * list effect :=
  let stateBefore := GetState m in
  let m := meanwhile o1 m in
  let m := MonthlyReplenish m e in
  let m := meanwhile o2 m in
  let state := GetState m in
  let budget := MonthlyBudget state in
  let regularAdded := budget * 0.7 in
  let reserveAdded := budget * 0.3 in
  let avgScore :=
    if (0 <? slen (RecentScores state))%nat then
      fold_left (fun sum sc => sum + sc) (elems (heap m) (RecentScores state)) 0.0
        / float64_of_int (Z.of_nat (slen (RecentScores state)))
    else 0 in
  (m,
   [TrySend (MonthlySummary (observe (heap m) state));
    RecordMonthly
      (MonthlyEvent.mk regularAdded reserveAdded (RegularBalance state)
         (ReserveBalance state) avgScore);
    recordFundEvent "MONTHLY" stateBefore state budget "月度补充"]).

(** quarterlyTask. *)
Definition quarterlyTask (m : Manager) (e : env) (o1 o2 : others)
    : Manager * list effect :=
  let stateBefore := GetState m in
  let m := meanwhile o1 m in
  let '(m, result) := QuarterlyRebalance m e in
  let m := meanwhile o2 m in
  let state := GetState m in
  let '(action, amount) :=
    if ReserveBalance state <? ReserveBalance stateBefore then
      ("TRANSFER_EXCESS"%string, ReserveBalance stateBefore - ReserveBalance state)
    else if ReserveBalance state >? ReserveBalance stateBefore then
      ("EMERGENCY_TOPUP"%string, ReserveBalance state - ReserveBalance stateBefore)
    else ("NO_ACTION"%string, 0) in
  (m,
   [TrySend (RebalanceReport result (observe (heap m) state));
    RecordQuarterly
      (QuarterlyEvent.mk action amount (RegularBalance state) (ReserveBalance state)
         result);
    recordFundEvent "QUARTERLY" stateBefore state amount "季度再平衡"]).

(** HandleCommand. *)
Definition HandleCommand (command : string) (f : Fetcher) (symbol : string)
    (m : Manager) (e : env) (o1 o2 o3 : others)
    : outcome (Manager * list effect * command_reply) :=
  if (String.eqb command "查看本周建议" || String.eqb command "/weekly")%bool then
    weeklyTask f symbol m e o1 o2 o3 >>= fun '(m, out) => Returns (m, out, EmptyReply)
  else if (String.eqb command "查看资金状态" || String.eqb command "/fund")%bool then
    Returns (m, [], FundStatusReply (observe (heap m) (GetState m)))
  else if (String.eqb command "查看月报" || String.eqb command "/monthly")%bool then
    Returns (m, [], MonthlySummaryReply (observe (heap m) (GetState m)))
  else Returns (m, [], HelpReply).

End Tasks.

End scheduler.

Module SchedulerSpec.

Import fund recorder scheduler.

(** The fund events among the effects of a task. *)
Fixpoint fund_events (out : list effect) : list FundEvent.t :=
  match out with
  | [] => []
  | RecordFundEvent evt :: out' => evt :: fund_events out'
  | _ :: out' => fund_events out'
  end.

(** The weekly snapshots among the effects of a task. *)
Fixpoint snapshots (out : list effect) : list WeeklySnapshot.t :=
  match out with
  | [] => []
  | RecordWeekly snap :: out' => snap :: snapshots out'
  | _ :: out' => snapshots out'
  end.

(** The quarterly events among the effects of a task. *)
Fixpoint quarterly_events (out : list effect) : list QuarterlyEvent.t :=
  match out with
  | [] => []
  | RecordQuarterly evt :: out' => evt :: quarterly_events out'
  | _ :: out' => quarterly_events out'
  end.

(** The monthly events among the effects of a task. *)
Fixpoint monthly_events (out : list effect) : list MonthlyEvent.t :=
  match out with
  | [] => []
  | RecordMonthly evt :: out' => evt :: monthly_events out'
  | _ :: out' => monthly_events out'
  end.

(** What the two pools lost between the two states a fund event records. *)
Definition outflow (evt : FundEvent.t) : Q :=
  (FundEvent.RegularBefore evt - FundEvent.RegularAfter evt)
  + (FundEvent.ReserveBefore evt - FundEvent.ReserveAfter evt).

(** The mean of a list as the tasks compute it, summing from the left; 0
    for the empty list. *)
Definition mean (l : list Q) : Q :=
  match l with
  | [] => 0
  | _ => fold_left (fun sum sc => sum + sc) l 0.0 / inject_Z (Z.of_nat (length l))
  end.

End SchedulerSpec.

(** A falling market: sixteen daily and weekly bars, each close below the
    one before. *)
Definition crash : collector.Fetcher :=
  CollectSpec.answering
    (bars_of [100; 90; 80; 70; 60; 50; 40; 30; 20; 18; 16; 14; 12; 11; 10; 9])
    (bars_of [100; 90; 80; 70; 60; 50; 40; 30; 20; 18; 16; 14; 12; 11; 10; 9]) 9.

(** A data source that is down. *)
Definition unreachable : collector.Fetcher :=
  collector.mkFetcher (fun _ _ => ([], Some "timeout"%string))
    (fun _ _ => ([], Some "timeout"%string)) (fun _ => (0, Some "timeout"%string)) "down".

(** What a task that returned left behind. *)
Definition task_result (o : outcome (fund.Manager * list scheduler.effect))
    : fund.Manager * list scheduler.effect :=
  match o with
  | Returns r => r
  | _ => (rich_manager, [])
  end.

(** The weekly task in the falling market, run on its own. *)
Definition crash_week : fund.Manager * list scheduler.effect :=
  task_result
    (scheduler.weeklyTask quiet_runtime roomy crash "SPX500" rich_manager example_env
       [] [] []).

Definition crash_week_event : recorder.FundEvent.t :=
  hd (recorder.FundEvent.mk "" 0 0 0 0 0 "") (SchedulerSpec.fund_events (snd crash_week)).

Definition crash_indicators : MarketIndicators :=
  mkIndicators 9 9 9 9 (0 # 232064000) (0 # 232064000) 101 8 101 8 (1 # 93).

(** * internal/notifier: sending with retries *)

Module notifier.

(** What the world answers to one attempt: [Send] succeeds, or it fails
    with an error and the [select] that follows takes one of its two cases,
    the context being done or the backoff timer firing.  How long the timer
    runs is not modelled. *)
Inductive attempt : Type :=
| Delivered
| Failed (err : string) (cancelled : bool).

(** The errors SendWithRetry returns: [ctx.Err()], or the error that wraps
    the last failure under the count [maxRetries+1]. *)
Inductive send_error : Type :=
| ContextDone
| Exhausted (count : Z) (lastErr : error).

(** The loop of SendWithRetry from attempt [i] on; [sent] counts the calls
    of [Send] so far. *)
Fixpoint retry_loop (fuel : nat) (world : Z -> attempt) (maxRetries i : Z)
    (lastErr : error) (sent : nat) : outcome (option send_error * nat) :=
  if (i <=? maxRetries)%Z then
    match fuel with
    | O => OutOfFuel
    | S fuel' =>
        match world i with
        | Delivered => Returns (None, S sent)
        | Failed err cancelled =>
            if cancelled then Returns (Some ContextDone, S sent)
            else retry_loop fuel' world maxRetries (int_add i 1) (Some err) (S sent)
        end
    end
  else Returns (Some (Exhausted (int_add maxRetries 1) lastErr), sent).

(** SendWithRetry: the error it returns and the number of calls of Send. *)
Definition SendWithRetry (fuel : nat) (world : Z -> attempt) (maxRetries : Z)
    : outcome (option send_error * nat) :=
  retry_loop fuel world maxRetries 0 None 0.

End notifier.

Module NotifierSpec.

Import notifier.

(** Attempts [i] up to [k] (excluded) fail and the timer wins each time. *)
Definition retried (world : Z -> attempt) (i k : Z) : Prop :=
  forall j, (i <= j < k)%Z -> exists err, world j = Failed err false.

(** A world where the first [n] attempts fail and the next one succeeds. *)
Definition flaky (n : Z) (i : Z) : attempt :=
  if (i <? n)%Z then Failed "timeout" false else Delivered.

End NotifierSpec.

(** * internal/config *)

Module config.

(** A float64 as the decoders can produce it: YAML's [.nan] and [.inf], and
    [NaN] and [Inf] for fmt.Sscanf, besides the finite numbers. *)
Inductive float64 : Type :=
| NaN
| Inf (negative : bool)
| Finite (q : Q).

(** [x == 0] and [x <= 0]: every comparison with NaN is false. *)
Definition is_zero (x : float64) : bool :=
  match x with
  | Finite q => q =? 0
  | _ => false
  end.

Definition le_zero (x : float64) : bool :=
  match x with
  | Finite q => q <=? 0
  | Inf negative => negative
  | NaN => false
  end.

(** Config, its nested structs flattened. *)
Record Config : Type := mkConfig {
  BotToken : string;
  ChatID : string;
  BaseURL : string;
  APIKey : string;
  Symbol : string;
  WeeklyCron : string;
  DailyCron : string;
  MonthlyCron : string;
  MonthlyBudget : float64;
  StateFile : string;
  SQLitePath : string;
  Proxy : string
}.

(** The zero Config Load starts from. *)
Definition zero : Config := mkConfig "" "" "" "" "" "" "" "" (Finite 0) "" "" "".

(** What reading and decoding the file gives: a read error other than the
    file not existing, no file or an empty one, YAML that does not decode,
    or the Config the decoder fills in from the zero value. *)
Inductive config_file : Type :=
| ReadFails (err : string)
| NoData
| BadYaml (err : string)
| Yaml (cfg : Config).

Section Loading.

(** os.Getenv, and fmt.Sscanf with the verb [%f]. *)
Variable Getenv : string -> string.
Variable Sscanf_f : string -> option float64.

(** [if v := os.Getenv(name); v != "" { field = v }]. *)
Definition override (name : string) (field : string) : string :=
  if String.eqb (Getenv name) "" then field else Getenv name.

(** [if field == "" { field = value }]. *)
Definition default (field value : string) : string :=
  if String.eqb field "" then value else field.

(** Load. *)
Definition Load (file : config_file) : option Config * error :=
  match file with
  | ReadFails err => (None, Some ("read config: " ++ err)%string)
  | BadYaml err => (None, Some ("parse config: " ++ err)%string)
  | NoData | Yaml _ =>
      let cfg := match file with Yaml cfg => cfg | _ => zero end in
      let budget :=
        if String.eqb (Getenv "MONTHLY_BUDGET") "" then MonthlyBudget cfg
        else match Sscanf_f (Getenv "MONTHLY_BUDGET") with
             | Some budget => budget
             | None => MonthlyBudget cfg
             end in
      (Some
         (mkConfig
            (override "TELEGRAM_BOT_TOKEN" (BotToken cfg))
            (override "TELEGRAM_CHAT_ID" (ChatID cfg))
            (override "VSTRADER_BASE_URL" (BaseURL cfg))
            (override "VSTRADER_API_KEY" (APIKey cfg))
            (default (Symbol cfg) "SPX500")
            (default (override "CRON_WEEKLY" (WeeklyCron cfg)) "0 0 8 * * 1")
            (default (DailyCron cfg) "0 0 22 * * 1-5")
            (default (MonthlyCron cfg) "0 0 9 1 * *")
            (if is_zero budget then Finite 10000 else budget)
            (default (StateFile cfg) "data/fund_state.json")
            (default (override "SQLITE_PATH" (SQLitePath cfg)) "data/market_sentinel.db")
            (override "HTTPS_PROXY" (Proxy cfg))),
       None)
  end.

End Loading.

(** Validate. *)
Definition Validate (c : Config) : error :=
  if String.eqb (BotToken c) "" then Some "telegram.bot_token is required"%string
  else if String.eqb (ChatID c) "" then Some "telegram.chat_id is required"%string
  else if String.eqb (BaseURL c) "" then Some "data_source.base_url is required"%string
  else if le_zero (MonthlyBudget c) then Some "fund.monthly_budget must be positive"%string
  else None.

End config.

Module ConfigSpec.

(** An environment with the two Telegram variables and the base URL set. *)
Definition example_env_vars (name : string) : string :=
  if String.eqb name "TELEGRAM_BOT_TOKEN" then "123:abc"
  else if String.eqb name "TELEGRAM_CHAT_ID" then "42"
  else if String.eqb name "VSTRADER_BASE_URL" then "http://localhost:8080"
  else if String.eqb name "MONTHLY_BUDGET" then "NaN"
  else "".

(** A scanner that knows two inputs. *)
Definition example_scan (v : string) : option config.float64 :=
  if String.eqb v "NaN" then Some config.NaN
  else if String.eqb v "5000" then Some (config.Finite 5000)
  else None.

End ConfigSpec.

(** The Config Load makes of no file and that environment. *)
Definition nan_config : config.Config :=
  config.mkConfig "123:abc" "42" "http://localhost:8080" "" "SPX500" "0 0 8 * * 1"
    "0 0 22 * * 1-5" "0 0 9 1 * *" config.NaN "data/fund_state.json"
    "data/market_sentinel.db" "".

(** * internal/collector: the Yahoo fetcher's bar methods *)

Module yahoo.

Section Chart.

(** fetchChart, the HTTP request and the decoding of its answer: symbol,
    interval and range to bars in time order, or an error. *)
Variable fetchChart : string -> string -> string -> list OHLCV * error.

(** [if len(bars) > n { bars = bars[len(bars)-n:] }]: the slice expression
    panics when its low bound is negative or beyond the length. *)
Definition trim (bars : list OHLCV) (n : Z) : outcome (list OHLCV) :=
  if (len bars >? n)%Z then
    let low := int_sub (len bars) n in
    if ((0 <=? low) && (low <=? len bars))%Z then Returns (drop (Z.to_nat low) bars)
    else Panics
  else Returns bars.

(** The range FetchDailyBars asks the chart for. *)
Definition daily_range (days : Z) : string :=
  if (days <=? 30)%Z then "1mo"
  else if (days <=? 90)%Z then "3mo"
  else if (days <=? 180)%Z then "6mo"
  else if (days <=? 365)%Z then "1y"
  else "2y".

(** YahooFetcher.FetchDailyBars. *)
Definition FetchDailyBars (symbol : string) (days : Z) : outcome (list OHLCV * error) :=
  match fetchChart symbol "1d" (daily_range days) with
  | (_, Some err) => Returns ([], Some err)
  | (bars, None) => trim bars days >>= fun bars => Returns (bars, None)
  end.

(** The range FetchWeeklyBars asks the chart for. *)
Definition weekly_range (weeks : Z) : string :=
  if (weeks <=? 26)%Z then "6mo"
  else if (weeks <=? 52)%Z then "1y"
  else "2y".

(** YahooFetcher.FetchWeeklyBars. *)
Definition FetchWeeklyBars (symbol : string) (weeks : Z) : outcome (list OHLCV * error) :=
  match fetchChart symbol "1wk" (weekly_range weeks) with
  | (_, Some err) => Returns ([], Some err)
  | (bars, None) => trim bars weeks >>= fun bars => Returns (bars, None)
  end.

(** YahooFetcher.FetchCurrentPrice. *)
Definition FetchCurrentPrice (symbol : string) : outcome (Q * error) :=
  match fetchChart symbol "1d" "1d" with
  | (_, Some err) => Returns (0, Some err)
  | (bars, None) =>
      if (len bars =? 0)%Z then Returns (0, Some "yahoo: no price data"%string)
      else match index bars (int_sub (len bars) 1) with
           | Some bar => Returns (Close bar, None)
           | None => Panics
           end
  end.

End Chart.

End yahoo.

Module YahooSpec.

(** A chart service that answers every request with the same four bars. *)
Definition four_bars (_ _ _ : string) : list OHLCV * error :=
  (bars_of [10; 12; 11; 13], None).

End YahooSpec.

(** * The arithmetic of the program in binary64 *)

(** The definitions above compute with exact rationals.  This module has
    the same source functions over the machine's binary64 numbers, for the
    properties that the rounding of [float64] decides.  Every operation is
    rounded to nearest on its own, as on amd64, where the compiler fuses no
    multiplication with an addition. *)
Module Binary64.

(** [float64(n)] for an [int] [n] (within the int range). *)
Definition float64_of_int (n : Z) : float :=
  match n with
  | Z0 => 0%float
  | Zpos _ => of_uint63 (Uint63.of_Z n)
  | Zneg _ =>
      if (n =? int_min)%Z then (-0x1p63)%float
      else (- of_uint63 (Uint63.of_Z (- n)))%float
  end.

(** internal/model: FundState, its balances in binary64. *)
Record FundState : Type := mkFundState {
  MonthlyBudget : float;
  WeeklyBaseN : float;
  RegularBalance : float;
  ReserveBalance : float;
  BottomFishUsedThisWeek : bool;
  ConsecutiveHighScoreWeeks : Z;
  RecentScores : list float;
  LastReplenishAt : Z;
  LastRebalanceAt : Z;
  UpdatedAt : Z
}.

Definition set_RegularBalance (st : FundState) (v : float) : FundState :=
  mkFundState (MonthlyBudget st) (WeeklyBaseN st) v (ReserveBalance st)
    (BottomFishUsedThisWeek st) (ConsecutiveHighScoreWeeks st) (RecentScores st)
    (LastReplenishAt st) (LastRebalanceAt st) (UpdatedAt st).
Definition set_ReserveBalance (st : FundState) (v : float) : FundState :=
  mkFundState (MonthlyBudget st) (WeeklyBaseN st) (RegularBalance st) v
    (BottomFishUsedThisWeek st) (ConsecutiveHighScoreWeeks st) (RecentScores st)
    (LastReplenishAt st) (LastRebalanceAt st) (UpdatedAt st).
Definition set_UpdatedAt (st : FundState) (v : Z) : FundState :=
  mkFundState (MonthlyBudget st) (WeeklyBaseN st) (RegularBalance st) (ReserveBalance st)
    (BottomFishUsedThisWeek st) (ConsecutiveHighScoreWeeks st) (RecentScores st)
    (LastReplenishAt st) (LastRebalanceAt st) v.

(** manager.go: QuarterlyRebalance on the state, [m.save()] stamping
    UpdatedAt with the clock reading [now]; whether the file write succeeds
    has no part in the state or the message (see [fund.save]). *)
Definition QuarterlyRebalance (st : FundState) (now : Z) : FundState * string :=
  let baseN := WeeklyBaseN st in
  let '(st, msg) :=
    if (6 * baseN <? ReserveBalance st)%float then
      let excess := (ReserveBalance st - 6 * baseN)%float in
      let st := set_ReserveBalance st (ReserveBalance st - excess)%float in
      let st := set_RegularBalance st (RegularBalance st + excess)%float in
      (st, "储备池超额，已转回常规池"%string)
    else if (ConsecutiveHighScoreWeeks st >=? 4)%Z
            && (ReserveBalance st <? 3 * baseN)%float then
      let topUp := (3 * baseN - ReserveBalance st)%float in
      let st := set_ReserveBalance st (ReserveBalance st + topUp)%float in
      (st, "连续高分+储备不足，紧急补充储备池"%string)
    else (st, "季度再平衡：无需调整"%string) in
  (set_UpdatedAt st now, msg).

Definition set_RecentScores (st : FundState) (v : list float) : FundState :=
  mkFundState (MonthlyBudget st) (WeeklyBaseN st) (RegularBalance st) (ReserveBalance st)
    (BottomFishUsedThisWeek st) (ConsecutiveHighScoreWeeks st) v
    (LastReplenishAt st) (LastRebalanceAt st) (UpdatedAt st).
Definition set_ConsecutiveHighScoreWeeks (st : FundState) (v : Z) : FundState :=
  mkFundState (MonthlyBudget st) (WeeklyBaseN st) (RegularBalance st) (ReserveBalance st)
    (BottomFishUsedThisWeek st) v (RecentScores st)
    (LastReplenishAt st) (LastRebalanceAt st) (UpdatedAt st).

(** What CalculateWeeklyInvestment reads of the signal. *)
Record Signal : Type := mkSignal {
  TotalScore : float;
  Multiplier : float;
  UseReserve : float
}.

(** manager.go: CalculateWeeklyInvestment; the recent scores as the list of
    their values (the slice they live in is modelled in [fund]). *)
Definition CalculateWeeklyInvestment (st : FundState) (signal : Signal) (now : Z)
    : FundState * (float * float) :=
  let baseN := WeeklyBaseN st in
  let regularAmount := (baseN * Multiplier signal)%float in
  let reserveAmount := (baseN * UseReserve signal)%float in
  let regularAmount :=
    if (RegularBalance st <? regularAmount)%float then RegularBalance st
    else regularAmount in
  let reserveAmount :=
    if (ReserveBalance st <? reserveAmount)%float then ReserveBalance st
    else reserveAmount in
  let st := set_RegularBalance st (RegularBalance st - regularAmount)%float in
  let st := set_ReserveBalance st (ReserveBalance st - reserveAmount)%float in
  let scores := RecentScores st ++ [TotalScore signal] in
  let scores :=
    if (12 <? length scores)%nat then drop (length scores - 12) scores else scores in
  let st := set_RecentScores st scores in
  let st :=
    set_ConsecutiveHighScoreWeeks st
      (if (1 <? TotalScore signal)%float
       then int_add (ConsecutiveHighScoreWeeks st) 1
       else 0%Z) in
  (set_UpdatedAt st now, ((regularAmount + reserveAmount)%float, reserveAmount)).

(** ma.go: CalculateSMA. *)
Definition CalculateSMA (prices : list float) (period : Z) : outcome (float * error) :=
  if (period <=? 0)%Z then Returns (0%float, Some "period must be positive"%string)
  else if (len prices <? period)%Z
  then Returns (0%float, Some "not enough data for SMA calculation"%string)
  else
    for_loop (S (length prices)) (int_sub (len prices) period) (len prices)
      (reading prices (fun sum p => (sum + p)%float)) 0%float
      >>= fun sum => Returns ((sum / float64_of_int period)%float, None).

End Binary64.


(** The same fund part-way through a month, and a signal of the tier that
    adds half a weekly base from the reserve. *)
#[warnings="-inexact-float"]
Definition midmonth : Binary64.FundState :=
  Binary64.mkFundState 3000 (3000 * 0.70 / 4.33) 2769.2840646651275 587.5288683602771
    false 0 [] 0 0 0.

#[warnings="-inexact-float"]
Definition add_tier_signal : Binary64.Signal := Binary64.mkSignal 0.9 1.0 0.5.

(** Three prices of 0.1, in binary64. *)
#[warnings="-inexact-float"]
Definition three_dimes : list float := [0.1; 0.1; 0.1]%float.

(** * Reference definition for the week keys of an aggregation *)

Module KeySpec.

(** The keys of a series with every run of equal consecutive keys cut down
    to one; [prev] is the key before the series, if any. *)
Fixpoint run_keys (prev : option Z) (keys : list Z) : list Z :=
  match keys with
  | [] => []
  | k :: rest =>
      match prev with
      | Some p => if (k =? p)%Z then run_keys (Some k) rest else k :: run_keys (Some k) rest
      | None => k :: run_keys (Some k) rest
      end
  end.

End KeySpec.

(** * cmd: what main sets up *)

Module app.

Import fund.

(** What main has decided when it is past its set-up. *)
Inductive fetcher_choice : Type :=
| VsTrader (baseURL apiKey proxy : string)
| Yahoo (proxy : string).

(** The SQLite recorder at [path], or the no-op recorder should opening it
    fail; or the no-op recorder for want of a path. *)
Inductive recorder_choice : Type :=
| SQLiteOrNoop (path : string)
| Noop.

(** main either stops with [log.Fatalf] at one of its stages, or gets past
    the recorder with a fetcher, the collector's symbol, a fund manager and
    a recorder; [NilConfig] is [cfg.Validate()] on a nil Config, should Load
    return neither a Config nor an error. *)
Inductive startup : Type :=
| Fatal (stage : string)
| SetUp (fetcher : fetcher_choice) (symbol : string) (fm : Manager)
    (rec : recorder_choice)
| NilConfig.

Section Main.

Variable Getenv : string -> string.
Variable Sscanf_f : string -> option config.float64.
Variable slack : nat -> nat.

(** The files main meets, by path: the config file and the state file. *)
Variable configFiles : string -> config.config_file.
Variable stateFiles : string -> file_content.

(** fund.NewManager on the budget of the Config.  A budget that is not a
    finite number matters only when the state is seeded from it; then
    SaveState fails, as json.MarshalIndent refuses such a value. *)
Definition NewManager (filePath : string) (monthlyBudget : config.float64) (e : env)
    : option Manager :=
  match monthlyBudget with
  | config.Finite q => fund.NewManager slack (stateFiles filePath) q e
  | config.NaN | config.Inf _ =>
      match LoadState slack (stateFiles filePath) with
      | None => None
      | Some (_, st) =>
          if MonthlyBudget st =? 0 then None
          else fund.NewManager slack (stateFiles filePath) 0 e
      end
  end.

(** main, up to the recorder. *)
Definition main (e : env) : startup :=
  let cfgPath :=
    if String.eqb (Getenv "CONFIG_PATH") "" then "configs/config.yaml"%string
    else Getenv "CONFIG_PATH" in
  match config.Load Getenv Sscanf_f (configFiles cfgPath) with
  | (_, Some _) => Fatal "load config"
  | (None, None) => NilConfig
  | (Some cfg, None) =>
      match config.Validate cfg with
      | Some _ => Fatal "config validation"
      | None =>
          let fetcher :=
            if negb (String.eqb (config.BaseURL cfg) "")
            then VsTrader (config.BaseURL cfg) (config.APIKey cfg) (config.Proxy cfg)
            else Yahoo (config.Proxy cfg) in
          match NewManager (config.StateFile cfg) (config.MonthlyBudget cfg) e with
          | None => Fatal "init fund manager"
          | Some fm =>
              let rec :=
                if negb (String.eqb (config.SQLitePath cfg) "")
                then SQLiteOrNoop (config.SQLitePath cfg)
                else Noop in
              SetUp fetcher (config.Symbol cfg) fm rec
          end
      end
  end.

End Main.

End app.

Module AppSpec.

(** A machine with no config file and no state file. *)
Definition no_config (_ : string) : config.config_file := config.NoData.
Definition no_state (_ : string) : fund.file_content := fund.Missing.

End AppSpec.

(** * internal/fund/state.go: the state file as JSON *)

Module statefile.

Import fund.

(** A JSON value.  A number is taken by its value, with whether its literal
    is an integer literal (no fraction, no exponent), whose value is then
    an integer over 1; the text of numbers and strings is encoding/json's
    business. *)
#[warnings="-register-all"]
Inductive json : Type :=
| JNull
| JBool (b : bool)
| JNumber (value : Q) (integer_literal : bool)
| JString (s : string)
| JArray (elements : list json)
| JObject (members : list (string * json)).

(** The FundState struct as encoding/json sees it: [RecentScores] is a nil
    slice ([None]) or a slice with its elements. *)
Definition document : Type := FundStateOf (option (list Q)).

(** The exported fields of FundState. *)
Inductive field : Type :=
| FMonthlyBudget | FWeeklyBaseN | FRegularBalance | FReserveBalance
| FBottomFishUsedThisWeek | FConsecutiveHighScoreWeeks | FRecentScores
| FLastReplenishAt | FLastRebalanceAt | FUpdatedAt.

(** The [json:"..."] tag of each field, in the order of the struct. *)
Definition tags : list (string * field) :=
  [ ("monthly_budget", FMonthlyBudget);
    ("weekly_base_n", FWeeklyBaseN);
    ("regular_balance", FRegularBalance);
    ("reserve_balance", FReserveBalance);
    ("bottom_fish_used_this_week", FBottomFishUsedThisWeek);
    ("consecutive_high_score_weeks", FConsecutiveHighScoreWeeks);
    ("recent_scores", FRecentScores);
    ("last_replenish_at", FLastReplenishAt);
    ("last_rebalance_at", FLastRebalanceAt);
    ("updated_at", FUpdatedAt) ]%string.

(** [model.FundState{}]. *)
Definition zero : document := mkFundState 0 0 0 0 false 0%Z None 0%Z 0%Z 0%Z.

Definition set_MonthlyBudget {W} (st : FundStateOf W) (v : Q) : FundStateOf W :=
  mkFundState v (WeeklyBaseN st) (RegularBalance st) (ReserveBalance st)
    (BottomFishUsedThisWeek st) (ConsecutiveHighScoreWeeks st) (RecentScores st)
    (LastReplenishAt st) (LastRebalanceAt st) (UpdatedAt st).
Definition set_WeeklyBaseN {W} (st : FundStateOf W) (v : Q) : FundStateOf W :=
  mkFundState (MonthlyBudget st) v (RegularBalance st) (ReserveBalance st)
    (BottomFishUsedThisWeek st) (ConsecutiveHighScoreWeeks st) (RecentScores st)
    (LastReplenishAt st) (LastRebalanceAt st) (UpdatedAt st).
Definition set_LastReplenishAt {W} (st : FundStateOf W) (v : Z) : FundStateOf W :=
  mkFundState (MonthlyBudget st) (WeeklyBaseN st) (RegularBalance st) (ReserveBalance st)
    (BottomFishUsedThisWeek st) (ConsecutiveHighScoreWeeks st) (RecentScores st)
    v (LastRebalanceAt st) (UpdatedAt st).
Definition set_LastRebalanceAt {W} (st : FundStateOf W) (v : Z) : FundStateOf W :=
  mkFundState (MonthlyBudget st) (WeeklyBaseN st) (RegularBalance st) (ReserveBalance st)
    (BottomFishUsedThisWeek st) (ConsecutiveHighScoreWeeks st) (RecentScores st)
    (LastReplenishAt st) v (UpdatedAt st).

Section Codec.

(** [Time.MarshalJSON] and [Time.UnmarshalJSON] between a time and the text
    of its JSON string: formatting fails for a year outside 0..9999,
    parsing for a string that is no RFC 3339 time.  [foldName] is the case
    folding under which encoding/json matches a key that equals no tag. *)
Variable formatTime : Z -> option string.
Variable parseTime : string -> option Z.
Variable foldName : string -> string.

(** ** json.MarshalIndent of a FundState *)




(** ** json.Unmarshal into a FundState *)

(** The field a key names: the one whose tag it equals, else the first
    whose tag it equals under case folding. *)
Definition find_field (key : string) : option field :=
  match List.find (fun tf => String.eqb (fst tf) key) tags with
  | Some tf => Some (snd tf)
  | None =>
      match List.find (fun tf => String.eqb (foldName (fst tf)) (foldName key)) tags with
      | Some tf => Some (snd tf)
      | None => None
      end
  end.

(** The numbers that round to a finite float64: those below 2^1024 - 2^970
    in magnitude. *)
Definition in_float64 (q : Q) : bool :=
  Qabs q <? inject_Z (2 ^ 1024 - 2 ^ 970).

(** Into a float64: a number within the float64 range; [null] leaves what
    is there. *)
Definition into_float (old : Q) (v : json) : option Q :=
  match v with
  | JNumber q _ => if in_float64 q then Some q else None
  | JNull => Some old
  | _ => None
  end.

(** Into an int: a number written as an integer literal within the int
    range. *)
Definition into_int (old : Z) (v : json) : option Z :=
  match v with
  | JNumber q true =>
      if ((Qden q =? 1)%positive && (int_min <=? Qnum q)%Z && (Qnum q <=? int_max)%Z)%bool
      then Some (Qnum q) else None
  | JNull => Some old
  | _ => None
  end.

Definition into_bool (old : bool) (v : json) : option bool :=
  match v with
  | JBool b => Some b
  | JNull => Some old
  | _ => None
  end.

Definition into_time (old : Z) (v : json) : option Z :=
  match v with
  | JString s => parseTime s
  | JNull => Some old
  | _ => None
  end.

(** The elements of an array into a [[]float64], from index [i] on: the
    slice is grown again over its old elements, so a [null] element leaves
    the number the slice had at its index, 0 past its end. *)
Fixpoint into_floats (old : list Q) (i : nat) (elements : list json) : option (list Q) :=
  match elements with
  | [] => Some []
  | v :: rest =>
      match into_float (nth i old 0) v, into_floats old (S i) rest with
      | Some q, Some qs => Some (q :: qs)
      | _, _ => None
      end
  end.

(** Into a [[]float64]: an array; [null] makes the slice nil. *)
Definition into_slice (old : option (list Q)) (v : json) : option (option (list Q)) :=
  match v with
  | JArray elements => option_map Some (into_floats (default [] old) 0 elements)
  | JNull => Some None
  | _ => None
  end.

(** One member of the object into its field. *)
Definition assign (f : field) (v : json) (st : document) : option document :=
  match f with
  | FMonthlyBudget => option_map (set_MonthlyBudget st) (into_float (MonthlyBudget st) v)
  | FWeeklyBaseN => option_map (set_WeeklyBaseN st) (into_float (WeeklyBaseN st) v)
  | FRegularBalance =>
      option_map (set_RegularBalance st) (into_float (RegularBalance st) v)
  | FReserveBalance =>
      option_map (set_ReserveBalance st) (into_float (ReserveBalance st) v)
  | FBottomFishUsedThisWeek =>
      option_map (set_BottomFishUsedThisWeek st) (into_bool (BottomFishUsedThisWeek st) v)
  | FConsecutiveHighScoreWeeks =>
      option_map (set_ConsecutiveHighScoreWeeks st)
        (into_int (ConsecutiveHighScoreWeeks st) v)
  | FRecentScores => option_map (set_RecentScores st) (into_slice (RecentScores st) v)
  | FLastReplenishAt =>
      option_map (set_LastReplenishAt st) (into_time (LastReplenishAt st) v)
  | FLastRebalanceAt =>
      option_map (set_LastRebalanceAt st) (into_time (LastRebalanceAt st) v)
  | FUpdatedAt => option_map (set_UpdatedAt st) (into_time (UpdatedAt st) v)
  end.

(** The members in order, a later one overriding an earlier one; a key that
    names no field is skipped; a value of the wrong kind is an error. *)
Fixpoint into_struct (members : list (string * json)) (st : document) : option document :=
  match members with
  | [] => Some st
  | (key, v) :: rest =>
      match find_field key with
      | None => into_struct rest st
      | Some f =>
          match assign f v st with
          | Some st' => into_struct rest st'
          | None => None
          end
      end
  end.

Definition decode (j : json) : option document :=
  match j with
  | JObject members => into_struct members zero
  | JNull => Some zero
  | _ => None
  end.

(** ** state.go *)

(** What is at the path of the state file: nothing, something that cannot
    be read, or bytes, which are the text of a JSON value or are not. *)
Inductive disk_file : Type :=
| NoFile
| ReadError
| Bytes (parsed : option json).

(** LoadState. *)
Definition LoadState (f : disk_file) : option document :=
  match f with
  | NoFile => Some zero
  | ReadError => None
  | Bytes None => None
  | Bytes (Some j) => decode j
  end.


(** The state holds finite float64 numbers. *)
Definition finite (st : document) : bool :=
  forallb in_float64
    ([MonthlyBudget st; WeeklyBaseN st; RegularBalance st; ReserveBalance st]
       ++ default [] (RecentScores st)).


End Codec.

End statefile.

Module StateFileSpec.




End StateFileSpec.

(** * Properties *)

(** ** Comparisons *)

Lemma leb_spec (a b : Q) : BoolSpec (a <= b) (b < a) (a <=? b).
Proof.
  unfold leb. destruct (Qle_bool a b) eqn:E; constructor.
  - now apply Qle_bool_iff.
  - apply Qnot_le_lt. intros H. apply Qle_bool_iff in H. congruence.
Qed.

Lemma ltb_spec (a b : Q) : BoolSpec (a < b) (b <= a) (a <? b).
Proof.
  unfold ltb. change (Qle_bool b a) with (b <=? a).
  destruct (leb_spec b a) as [H|H]; simpl; now constructor.
Qed.

Lemma gtb_spec (a b : Q) : BoolSpec (b < a) (a <= b) (a >? b).
Proof. unfold gtb. apply ltb_spec. Qed.

Lemma geb_spec (a b : Q) : BoolSpec (b <= a) (a < b) (a >=? b).
Proof. unfold geb. apply leb_spec. Qed.

Lemma eqb_spec (a b : Q) : BoolSpec (a == b) (~ a == b) (a =? b).
Proof.
  unfold eqb. destruct (Qeq_bool a b) eqn:E; constructor.
  - now apply Qeq_bool_iff.
  - intros H. apply Qeq_bool_iff in H. congruence.
Qed.

(** Splits on the first comparison of the goal, leaving its meaning as a
    hypothesis. *)
Ltac go_case :=
  match goal with
  | |- context [?a <=? ?b] => destruct (leb_spec a b)
  | |- context [?a >=? ?b] => destruct (geb_spec a b)
  | |- context [?a <? ?b] => destruct (ltb_spec a b)
  | |- context [?a >? ?b] => destruct (gtb_spec a b)
  | |- context [?a =? ?b] => destruct (eqb_spec a b)
  end.

Ltac go_cases := repeat (go_case; simpl; try lra; try reflexivity).

(** ** Tier policy *)

Import strategy.

(** The thresholds of the table decrease strictly from top to bottom. *)
Lemma Tiers_descending :
  map fst Tiers = [1.5; 1.2; 0.8; 0.0; -0.8; -1.5] /\
  -1.5 < -0.8 /\ -0.8 < 0.0 /\ 0.0 < 0.8 /\ 0.8 < 1.2 /\ 1.2 < 1.5.
Proof. split; [reflexivity | repeat split; reflexivity]. Qed.

(** C4. mapTier is a total function of the score, the same on equal scores,
    and it returns the tier of the first threshold, from 1.5 down to -1.5,
    that the score meets or exceeds, and the floor tier when it meets none;
    at the boundaries 1.5 is extreme-heavy, 1.49999 heavy, -1.5 light/watch
    and -1.50001 the minimum tier. *)
Theorem mapTier_first_match_wins :
  (forall s : Q,
      (1.5 <= s -> mapTier s = mkTier "极限重仓" 1.0 1.5) /\
      (1.2 <= s < 1.5 -> mapTier s = mkTier "重仓买入" 1.0 1.0) /\
      (0.8 <= s < 1.2 -> mapTier s = mkTier "加仓买入" 1.0 0.5) /\
      (0.0 <= s < 0.8 -> mapTier s = mkTier "正常定投" 1.0 0) /\
      (-0.8 <= s < 0.0 -> mapTier s = mkTier "缩减定投" 0.5 0) /\
      (-1.5 <= s < -0.8 -> mapTier s = mkTier "轻仓观望" 0.25 0) /\
      (s < -1.5 -> mapTier s = DefaultTier)) /\
  (forall s s' : Q, s == s' -> mapTier s = mapTier s') /\
  (forall s : Q, exists minScore tier rest skipped,
      Tiers ++ [(s, DefaultTier)] = skipped ++ (minScore, tier) :: rest /\
      Forall (fun t => s < fst t) skipped /\ minScore <= s /\ mapTier s = tier) /\
  Label (mapTier 1.5) = "极限重仓"%string /\
  Label (mapTier 1.49999) = "重仓买入"%string /\
  Label (mapTier (-1.5)) = "轻仓观望"%string /\
  Label (mapTier (-1.50001)) = "最低参与"%string /\
  Label DefaultTier = "最低参与"%string.
Proof.
  split; [| split; [| split]].
  - intros s. unfold mapTier, Tiers, first_tier.
    repeat split; intros H; go_cases.
  - intros s s' E. unfold mapTier, Tiers, first_tier.
    go_cases.
  - intros s. unfold mapTier.
    assert (G : forall ts, exists minScore tier rest skipped,
      ts ++ [(s, DefaultTier)] = skipped ++ (minScore, tier) :: rest /\
      Forall (fun t => s < fst t) skipped /\ minScore <= s /\ first_tier ts s = tier).
    { induction ts as [|[m t] ts IH]; simpl.
      - exists s, DefaultTier, [], []. repeat split; auto. lra.
      - destruct (geb_spec s m) as [H|H].
        + exists m, t, (ts ++ [(s, DefaultTier)]), []. repeat split; auto.
        + destruct IH as (m' & t' & rest & skipped & E & F & L & R).
          exists m', t', rest, ((m, t) :: skipped). rewrite E.
          repeat split; auto. }
    apply G.
  - repeat split; reflexivity.
Qed.

(** ** Scoring model *)

(** Above 95 percent none of the eight buckets of the position ladder
    applies: the score is decided by the mean of the other factors. *)
Lemma score52WeekPosition_above_95 (rt : GoRuntime) (ind : MarketIndicators) (avg : Q) :
  95 < Position52w ind * 100 ->
  RawScore (score52WeekPosition rt ind avg) = (if avg <? -1 then -2.0 else -1.0).
Proof.
  intros H. unfold score52WeekPosition. simpl.
  repeat (match goal with
          | |- context [?a <=? ?b] => destruct (leb_spec a b); [lra|]
          end).
  reflexivity.
Qed.

(** Evaluate returns its five factors in the order MA200 deviation, weekly
    RSI, daily RSI, 52-week position, trend; the position factor is scored
    with the mean of the raw scores of the other four. *)
Lemma Evaluate_factors (rt : GoRuntime) (ind : MarketIndicators) :
  Factors (Evaluate rt ind) =
    [ scoreMA200Deviation rt ind;
      scoreWeeklyRSI rt ind;
      scoreDailyRSI rt ind;
      score52WeekPosition rt ind
        ((RawScore (scoreMA200Deviation rt ind) + RawScore (scoreWeeklyRSI rt ind) +
          RawScore (scoreDailyRSI rt ind) + RawScore (scoreTrendTracker rt ind)) / 4.0);
      scoreTrendTracker rt ind ].
Proof. reflexivity. Qed.

(** C5. When Position52w times 100 exceeds 95, the raw score of the 52-week
    position factor of the signal is exactly -2.0 if the arithmetic mean of
    the raw scores of the other four factors is strictly below -1.0, and
    exactly -1.0 otherwise. *)
Theorem position_factor_above_95 (rt : GoRuntime) (ind : MarketIndicators)
    (ma200 weekly daily position trend : FactorScore) :
  Factors (Evaluate rt ind) = [ma200; weekly; daily; position; trend] ->
  95 < Position52w ind * 100 ->
  let mean := (RawScore ma200 + RawScore weekly + RawScore daily + RawScore trend) / 4 in
  Name position = "52周位置"%string /\
  (mean < -1.0 -> RawScore position = -2.0) /\
  (-1.0 <= mean -> RawScore position = -1.0).
Proof.
  intros HF Hpos mean. rewrite Evaluate_factors in HF.
  injection HF as <- <- <- E <-. subst position.
  split; [reflexivity|].
  set (avg := (_ + _ + _ + _) / 4.0).
  assert (M : avg == mean) by (apply Qdiv_comp; reflexivity).
  rewrite (score52WeekPosition_above_95 rt ind avg Hpos).
  clearbody avg mean.
  destruct (ltb_spec avg (-1)); split; intros; try reflexivity; exfalso; lra.
Qed.

Lemma position_factor_above_95_witness :
  (exists position, Factors (Evaluate quiet_runtime ind_capped) !! 3%nat = Some position /\
     RawScore position = -1.0) /\
  (exists position, Factors (Evaluate quiet_runtime ind_overheated) !! 3%nat = Some position /\
     RawScore position = -2.0).
Proof.
  split.
  - eexists. split; [reflexivity|].
    apply (position_factor_above_95 quiet_runtime ind_capped _ _ _ _ _ eq_refl);
      vm_compute; [reflexivity | discriminate].
  - eexists. split; [reflexivity|].
    apply (position_factor_above_95 quiet_runtime ind_overheated _ _ _ _ _ eq_refl);
      vm_compute; reflexivity.
Defined.

(** Each scorer stores its fixed weight and the product of raw score and
    weight. *)
Lemma scorer_weighted (rt : GoRuntime) (ind : MarketIndicators) (avg : Q) :
  let ok (w : Q) (f : FactorScore) := Weight f = w /\ Weighted f == RawScore f * Weight f in
  ok 0.35 (scoreMA200Deviation rt ind) /\
  ok 0.25 (scoreWeeklyRSI rt ind) /\
  ok 0.15 (scoreDailyRSI rt ind) /\
  ok 0.10 (score52WeekPosition rt ind avg) /\
  ok 0.15 (scoreTrendTracker rt ind).
Proof.
  simpl. repeat split; try reflexivity.
  - unfold scoreMA200Deviation. destruct (MA200 ind =? 0); reflexivity.
  - unfold scoreMA200Deviation. destruct (MA200 ind =? 0); simpl; [reflexivity|].
    reflexivity.
  - unfold scoreTrendTracker.
    destruct (_ && near rt _ (High30d ind)); [reflexivity|].
    destruct (_ && _); [reflexivity|].
    destruct (_ && near rt _ (Low30d ind)); [reflexivity|].
    destruct (_ && _); reflexivity.
  - unfold scoreTrendTracker.
    destruct (_ && near rt _ (High30d ind)); [reflexivity|].
    destruct (_ && _); [reflexivity|].
    destruct (_ && near rt _ (Low30d ind)); [reflexivity|].
    destruct (_ && _); reflexivity.
Qed.

(** C6. For every indicator set, Evaluate produces exactly five factor
    scores, with the fixed weights 0.35, 0.25, 0.15, 0.10 and 0.15, which
    sum to exactly 1.0; every factor's Weighted is its RawScore times its
    Weight; TotalScore is the sum of the five Weighted values; and equal
    indicator sets yield equal signals. *)
Theorem Evaluate_weights (rt : GoRuntime) (ind : MarketIndicators) :
  length (Factors (Evaluate rt ind)) = 5%nat /\
  map Weight (Factors (Evaluate rt ind)) = [0.35; 0.25; 0.15; 0.10; 0.15] /\
  fold_right Qplus 0 (map Weight (Factors (Evaluate rt ind))) == 1.0 /\
  Forall (fun f => Weighted f == RawScore f * Weight f) (Factors (Evaluate rt ind)) /\
  TotalScore (Evaluate rt ind) == fold_right Qplus 0 (map Weighted (Factors (Evaluate rt ind))) /\
  (forall ind' : MarketIndicators, ind' = ind -> Evaluate rt ind' = Evaluate rt ind).
Proof.
  pose proof (fun avg => scorer_weighted rt ind avg) as W. cbv beta zeta in W.
  rewrite Evaluate_factors.
  set (avg := (_ / 4.0)) in *.
  destruct (W avg) as ((W1 & P1) & (W2 & P2) & (W3 & P3) & (W4 & P4) & (W5 & P5)).
  split; [reflexivity|].
  split. { cbn [map]. now rewrite W1, W2, W3, W4, W5. }
  split. { cbn [map fold_right]. rewrite W1, W2, W3, W4, W5. reflexivity. }
  split. { repeat constructor; assumption. }
  split.
  - unfold Evaluate. cbn [TotalScore map fold_right]. fold avg. ring.
  - intros ind' ->. reflexivity.
Qed.

(** ** Indicator library *)

Import calculator.

(** C8. Calculate52WeekPosition fails exactly when high < low; returns
    exactly 0.5 when high == low; and for high > low returns
    (price-low)/(high-low) clamped to [0,1]; so for all high >= low the
    result lies in [0,1]. *)
Theorem Calculate52WeekPosition_spec (current high low : Q) :
  let r := Calculate52WeekPosition current high low in
  let x := (current - low) / (high - low) in
  (snd r <> None <-> high < low) /\
  (high == low -> r = (0.5, None)) /\
  (low < high ->
     snd r = None /\
     (x < 0 -> fst r = 0) /\ (1 < x -> fst r = 1) /\ (0 <= x <= 1 -> fst r = x)) /\
  (low <= high -> snd r = None /\ 0 <= fst r <= 1).
Proof.
  unfold Calculate52WeekPosition.
  destruct (eqb_spec high low) as [E|E]; simpl.
  { repeat split; try (intros; lra); try congruence. }
  destruct (ltb_spec high low) as [L|L]; simpl.
  { repeat split; try (intros; lra); try congruence. }
  assert (low < high) as G.
  { apply Qnot_le_lt. intros H. apply E. lra. }
  set (x := (current - low) / (high - low)).
  split. { split; [congruence | lra]. }
  split. { intros H. contradiction. }
  destruct (ltb_spec x 0) as [X0|X0]; destruct (gtb_spec 0 1) as [A|A]; try lra;
    try destruct (gtb_spec x 1) as [X1|X1]; simpl; repeat split; intros; try lra;
    try reflexivity.
Qed.

(** *** Integers in range do not wrap *)

Lemma wrap_id (z : Z) : (int_min <= z <= int_max)%Z -> wrap z = z.
Proof.
  unfold wrap, int_min, int_max. intros H.
  rewrite Z.mod_small; lia.
Qed.

Lemma index_Some {A} (l : list A) (i : Z) :
  (0 <= i < len l)%Z -> exists x, index l i = Some x /\ l !! Z.to_nat i = Some x.
Proof.
  unfold index, len. intros H.
  destruct (Z.ltb_spec i 0); [lia|].
  destruct (lookup_lt_is_Some_2 l (Z.to_nat i)) as [x Hx]; [lia|].
  exists x. now rewrite Hx.
Qed.

Lemma index_None {A} (l : list A) (i : Z) :
  (i < 0 \/ len l <= i)%Z -> index l i = None.
Proof.
  unfold index, len. intros H.
  destruct (Z.ltb_spec i 0); [reflexivity|].
  apply lookup_ge_None_2. lia.
Qed.

(** *** The loops of CalculateRSI *)

Import RSISpec.

Lemma deltas_length (closes : list Q) :
  length (deltas closes) = (length closes - 1)%nat.
Proof.
  unfold deltas. rewrite length_zip_with.
  destruct closes; cbn [tail length]; lia.
Qed.

Lemma deltas_lookup (closes : list Q) (k : nat) (prev cur : Q) :
  closes !! k = Some prev -> closes !! S k = Some cur ->
  deltas closes !! k = Some (cur - prev).
Proof.
  intros Hp Hc. unfold deltas.
  apply lookup_zip_with_Some. exists prev, cur. repeat split; auto.
  rewrite lookup_tail. exact Hc.
Qed.

(** Reading [closes[i]] and [closes[i-1]] for an index in range yields the
    [i-1]-th delta. *)
Lemma read_change (closes : list Q) (i : Z) :
  (1 <= i < len closes)%Z -> (i <= int_max)%Z ->
  exists ci cp,
    index closes i = Some ci /\ index closes (int_sub i 1) = Some cp /\
    drop (Z.to_nat (i - 1)) (deltas closes) =
      (ci - cp) :: drop (Z.to_nat i) (deltas closes).
Proof.
  intros Hi Hm.
  assert (W : int_sub i 1 = (i - 1)%Z).
  { unfold int_sub. apply wrap_id. unfold int_min, int_max in *. lia. }
  destruct (index_Some closes i) as (ci & Ei & Li); [lia|].
  destruct (index_Some closes (i - 1)) as (cp & Ep & Lp); [lia|].
  exists ci, cp. rewrite W. repeat split; auto.
  replace (Z.to_nat i) with (S (Z.to_nat (i - 1))) in * by lia.
  apply drop_S. now apply deltas_lookup.
Qed.

Lemma seed_loop_run (closes : list Q) (period : Z) :
  (period < len closes)%Z -> (period < int_max)%Z ->
  forall (n fuel : nat) (i : Z) (g l : Q),
    (n <= fuel)%nat -> (1 <= i)%Z -> (i + Z.of_nat n = period + 1)%Z ->
    seed_loop fuel closes period i g l =
      Returns (fold_left seed_acc (take n (drop (Z.to_nat (i - 1)) (deltas closes))) (g, l)).
Proof.
  intros Hlen Hmax. induction n as [|n IH]; intros fuel i g l Hf Hi Hn.
  - destruct fuel; simpl; destruct (Z.leb_spec i period); try lia; reflexivity.
  - destruct fuel as [|fuel]; [lia|]. simpl.
    destruct (Z.leb_spec i period); [|lia].
    destruct (read_change closes i) as (ci & cp & -> & -> & ->); [lia|lia|].
    assert (W : int_add i 1 = (i + 1)%Z).
    { unfold int_add. apply wrap_id. unfold int_min, int_max in *. lia. }
    rewrite W. simpl. unfold seed_acc at 2. simpl.
    destruct (ci - cp >? 0); rewrite IH by lia;
      now replace (i + 1 - 1)%Z with i by lia.
Qed.

Lemma smooth_loop_run (closes : list Q) (period : Z) :
  (len closes <= int_max)%Z -> (1 <= period <= int_max)%Z ->
  forall (n fuel : nat) (i : Z) (g l : Q),
    (n <= fuel)%nat -> (1 <= i)%Z -> (i + Z.of_nat n = len closes)%Z ->
    smooth_loop fuel closes period i g l =
      Returns (fold_left (smooth_acc period)
                 (take n (drop (Z.to_nat (i - 1)) (deltas closes))) (g, l)).
Proof.
  intros Hlen Hp. induction n as [|n IH]; intros fuel i g l Hf Hi Hn.
  - destruct fuel; simpl; destruct (Z.ltb_spec i (len closes)); try lia; reflexivity.
  - destruct fuel as [|fuel]; [lia|]. simpl.
    destruct (Z.ltb_spec i (len closes)); [|lia].
    destruct (read_change closes i) as (ci & cp & -> & -> & ->); [lia|lia|].
    assert (W : int_add i 1 = (i + 1)%Z).
    { unfold int_add. apply wrap_id. unfold int_min, int_max in *. lia. }
    assert (V : int_sub period 1 = (period - 1)%Z).
    { unfold int_sub. apply wrap_id. unfold int_min, int_max in *. lia. }
    rewrite W, V. simpl.
    rewrite IH by lia.
    now replace (i + 1 - 1)%Z with i by lia.
Qed.

(** *** The loops against the reference definitions *)

Lemma gain_nonneg (d : Q) : 0 <= gain d.
Proof. unfold gain. destruct (gtb_spec d 0); lra. Qed.

Lemma loss_nonneg (d : Q) : 0 <= loss d.
Proof. unfold loss. destruct (gtb_spec d 0); lra. Qed.

Lemma Qsum_map_nonneg (f : Q -> Q) (l : list Q) :
  (forall x, 0 <= f x) -> 0 <= Qsum (map f l).
Proof. intros H. induction l as [|x l IH]; simpl; [|specialize (H x)]; lra. Qed.

Lemma Qdiv_nonneg (a b : Q) : 0 <= a -> 0 < b -> 0 <= a / b.
Proof. intros Ha Hb. apply Qle_shift_div_l; lra. Qed.

Lemma seed_acc_sums (ds : list Q) :
  forall g l : Q,
    fst (fold_left seed_acc ds (g, l)) == g + Qsum (map gain ds) /\
    snd (fold_left seed_acc ds (g, l)) == l + Qsum (map loss ds).
Proof.
  induction ds as [|d ds IH]; intros g l; simpl.
  - split; ring.
  - specialize (IH (fst (seed_acc (g, l) d)) (snd (seed_acc (g, l) d))).
    rewrite <- surjective_pairing in IH. destruct IH as [G L].
    split; [rewrite G | rewrite L]; unfold seed_acc, gain, loss;
      destruct (d >? 0); simpl; ring.
Qed.

Lemma inject_Z_pred (p : Z) : inject_Z (p - 1) == inject_Z p - 1.
Proof. unfold Z.sub. rewrite inject_Z_plus, inject_Z_opp. reflexivity. Qed.

Lemma smooth_acc_wilder (period : Z) (ds : list Q) :
  forall a b : Q * Q,
    fst a == fst b -> snd a == snd b ->
    fst (fold_left (smooth_acc period) ds a) == fst (fold_left (wilder_step period) ds b) /\
    snd (fold_left (smooth_acc period) ds a) == snd (fold_left (wilder_step period) ds b).
Proof.
  induction ds as [|d ds IH]; intros a b Hf Hs; simpl; [now split|].
  apply IH; unfold smooth_acc, wilder_step; simpl;
    rewrite inject_Z_pred; [rewrite Hf | rewrite Hs]; reflexivity.
Qed.

Lemma wilder_step_nonneg (period : Z) (ds : list Q) :
  (1 <= period)%Z ->
  forall a : Q * Q, 0 <= fst a -> 0 <= snd a ->
    0 <= fst (fold_left (wilder_step period) ds a) /\
    0 <= snd (fold_left (wilder_step period) ds a).
Proof.
  intros Hp.
  assert (P : 1 <= inject_Z period).
  { change 1 with (inject_Z 1). now rewrite <- Zle_Qle. }
  induction ds as [|d ds IH]; intros a Hf Hs; simpl; [now split|].
  apply IH; unfold wilder_step; simpl; apply Qdiv_nonneg; try lra.
  - pose proof (gain_nonneg d). nra.
  - pose proof (loss_nonneg d). nra.
Qed.

Lemma wilder_averages_nonneg (period : Z) (closes : list Q) :
  (1 <= period)%Z ->
  0 <= fst (wilder_averages period closes) /\ 0 <= snd (wilder_averages period closes).
Proof.
  intros Hp. unfold wilder_averages.
  assert (P : 1 <= inject_Z period).
  { change 1 with (inject_Z 1). now rewrite <- Zle_Qle. }
  apply wilder_step_nonneg; auto; unfold wilder_seed; simpl;
    apply Qdiv_nonneg; try lra; apply Qsum_map_nonneg.
  - apply gain_nonneg.
  - apply loss_nonneg.
Qed.

(** With a positive average loss the formula stays within the scale. *)
Lemma rsi_value_bounds (g l : Q) :
  0 <= g -> 0 < l -> 0 <= 100 - 100 / (1 + g / l) <= 100.
Proof.
  intros Hg Hl.
  assert (R : 0 <= g / l) by now apply Qdiv_nonneg.
  set (rs := g / l) in *. clearbody rs.
  assert (D : 0 < 1 + rs) by lra.
  assert (U : 100 / (1 + rs) <= 100).
  { apply Qle_shift_div_r; [assumption|]. nra. }
  assert (L : 0 <= 100 / (1 + rs)) by (apply Qdiv_nonneg; lra).
  lra.
Qed.

Lemma len_extractCloses (bars : list OHLCV) : len (extractCloses bars) = len bars.
Proof. unfold len, extractCloses. now rewrite length_map. Qed.

(** What CalculateRSI computes once its two guards are passed: the formula
    applied to averages equal to the reference ones. *)
Lemma CalculateRSI_enough_bars (bars : list OHLCV) (period : Z) :
  (1 <= period < int_max)%Z -> (len bars <= int_max)%Z ->
  (period + 1 <= len bars)%Z ->
  exists g l : Q,
    g == fst (wilder_averages period (extractCloses bars)) /\
    l == snd (wilder_averages period (extractCloses bars)) /\
    CalculateRSI bars period =
      Returns (if l =? 0 then (100.0, None)
               else (100.0 - 100.0 / (1.0 + g / l), None)).
Proof.
  intros Hp Hmax Hlen. unfold CalculateRSI.
  assert (W : int_add period 1 = (period + 1)%Z).
  { unfold int_add. apply wrap_id. unfold int_min, int_max in *. lia. }
  rewrite W.
  destruct (Z.leb_spec period 0); [lia|].
  destruct (Z.ltb_spec (len bars) (period + 1)); [lia|].
  pose proof (len_extractCloses bars) as Hc.
  set (closes := extractCloses bars) in *.
  assert (Hl : Z.of_nat (length closes) = len bars) by exact Hc.
  rewrite (seed_loop_run closes period ltac:(lia) ltac:(lia) (Z.to_nat period))
    by lia.
  change (Z.to_nat (1 - 1)) with 0%nat. rewrite drop_0.
  destruct (fold_left seed_acc (take (Z.to_nat period) (deltas closes)) (0, 0))
    as [g0 l0] eqn:Eseed.
  cbn [bind].
  rewrite (smooth_loop_run closes period ltac:(lia) ltac:(lia)
             (length closes - Z.to_nat (period + 1))) by lia.
  replace (Z.to_nat (period + 1 - 1)) with (Z.to_nat period) by lia.
  rewrite take_ge by (rewrite length_drop, deltas_length; lia).
  destruct (fold_left (smooth_acc period) (drop (Z.to_nat period) (deltas closes))
              (g0 / float64_of_int period, l0 / float64_of_int period))
    as [g l] eqn:Esmooth.
  cbn [bind].
  exists g, l.
  pose proof (seed_acc_sums (take (Z.to_nat period) (deltas closes)) 0 0) as [G0 L0].
  rewrite Eseed in G0, L0. simpl in G0, L0.
  pose proof (smooth_acc_wilder period (drop (Z.to_nat period) (deltas closes))
                (g0 / float64_of_int period, l0 / float64_of_int period)
                (wilder_seed period (take (Z.to_nat period) (deltas closes)))) as S.
  rewrite Esmooth in S. simpl in S.
  destruct S as [G L].
  - unfold float64_of_int. rewrite G0. apply Qdiv_comp; [ring | reflexivity].
  - unfold float64_of_int. rewrite L0. apply Qdiv_comp; [ring | reflexivity].
  - repeat split; try assumption.
    destruct (l =? 0); reflexivity.
Qed.

(** CalculateRSI within the range of [int].  For a period from 1 up to, but
    not including, the largest [int], CalculateRSI returns exactly 50.0 and no
    error when fewer than period+1 bars are supplied; with at least period+1
    bars it returns, without error, the value of the reference formula on
    the Wilder-smoothed averages: exactly 100.0 when the smoothed average
    loss is zero, and a value in [0,100] in every case. *)
Theorem CalculateRSI_in_range (bars : list OHLCV) (period : Z) :
  (1 <= period < int_max)%Z -> (len bars <= int_max)%Z ->
  ((len bars < period + 1)%Z -> CalculateRSI bars period = Returns (50.0, None)) /\
  ((period + 1 <= len bars)%Z ->
     let avg := wilder_averages period (extractCloses bars) in
     exists r : Q,
       CalculateRSI bars period = Returns (r, None) /\
       r == rsi_formula avg /\
       (snd avg == 0 -> r = 100.0) /\
       0 <= r <= 100).
Proof.
  intros Hp Hmax. split.
  - intros Hlen. unfold CalculateRSI.
    assert (W : int_add period 1 = (period + 1)%Z).
    { unfold int_add. apply wrap_id. unfold int_min, int_max in *. lia. }
    rewrite W.
    destruct (Z.leb_spec period 0); [lia|].
    destruct (Z.ltb_spec (len bars) (period + 1)); [reflexivity|lia].
  - intros Hlen avg.
    destruct (CalculateRSI_enough_bars bars period Hp Hmax Hlen) as (g & l & G & L & E).
    destruct (wilder_averages_nonneg period (extractCloses bars)) as [Ng Nl]; [lia|].
    fold avg in G, L, Ng, Nl. rewrite E. unfold rsi_formula.
    destruct (eqb_spec l 0) as [Z0|Z0]; destruct (eqb_spec (snd avg) 0) as [A0|A0];
      try (exfalso; lra).
    + exists 100.0. repeat split; try reflexivity; lra.
    + exists (100.0 - 100.0 / (1.0 + g / l)).
      assert (Pl : 0 < l) by (apply Qnot_le_lt; intros C; apply Z0; lra).
      assert (Ng' : 0 <= g) by lra.
      pose proof (rsi_value_bounds g l Ng' Pl) as B.
      assert (V : 100.0 - 100.0 / (1.0 + g / l) == 100 - 100 / (1 + g / l)).
      { apply Qplus_comp; [reflexivity|]. apply Qopp_comp.
        apply Qdiv_comp; [reflexivity|]. apply Qplus_comp; reflexivity. }
      repeat split; try reflexivity; try (intros; contradiction); try (rewrite V; lra).
      rewrite V, G, L. reflexivity.
Qed.

Lemma CalculateRSI_in_range_witness :
  CalculateRSI [] 14 = Returns (50.0, None) /\
  exists r : Q,
    CalculateRSI (map (fun c => mkOHLCV 0 c c c c 0) [10; 11; 10.5; 12]) 2
      = Returns (r, None) /\ 0 <= r <= 100.
Proof.
  split.
  - apply (CalculateRSI_in_range [] 14); vm_compute; intuition discriminate.
  - destruct (CalculateRSI_in_range
                (map (fun c => mkOHLCV 0 c c c c 0) [10; 11; 10.5; 12]) 2) as [_ H].
    + vm_compute; intuition discriminate.
    + vm_compute; discriminate.
    + destruct H as (r & E & _ & _ & B); [vm_compute; discriminate|].
      exists r. split; assumption.
Defined.

(** ** Fund state machine *)

Import fund FundSpec.

Lemma save_state (m : Manager) (e : env) :
  state (fst (save m e)) = set_UpdatedAt (state m) (now e).
Proof. unfold save. destruct (write e); reflexivity. Qed.

Lemma save_heap (m : Manager) (e : env) : heap (fst (save m e)) = heap m.
Proof. unfold save. destruct (write e); reflexivity. Qed.

(** The balances and the reply of one weekly investment. *)
Lemma weekly_balances (slack : nat -> nat) (m : Manager) (signal : TradeSignal) (e : env) :
  let st := state m in
  let want_regular := WeeklyBaseN st * Multiplier (Tier signal) in
  let want_reserve := WeeklyBaseN st * UseReserve (Tier signal) in
  let regularAmount :=
    if want_regular >? RegularBalance st then RegularBalance st else want_regular in
  let reserveAmount :=
    if want_reserve >? ReserveBalance st then ReserveBalance st else want_reserve in
  let r := CalculateWeeklyInvestment slack m signal e in
  snd r = (regularAmount + reserveAmount, reserveAmount) /\
  RegularBalance (state (fst r)) = RegularBalance st - regularAmount /\
  ReserveBalance (state (fst r)) = ReserveBalance st - reserveAmount /\
  WeeklyBaseN (state (fst r)) = WeeklyBaseN st /\
  MonthlyBudget (state (fst r)) = MonthlyBudget st /\
  BottomFishUsedThisWeek (state (fst r)) = BottomFishUsedThisWeek st.
Proof.
  unfold CalculateWeeklyInvestment.
  destruct (append slack _ _ _) as [h scores]. simpl.
  rewrite save_state. simpl. repeat split.
Qed.

(** C1. From a state whose two balances, weekly base and monthly budget are
    nonnegative, and for a signal whose tier multiplier and reserve use are
    nonnegative, every operation of the fund state machine leaves both
    balances nonnegative (and the weekly base and budget as they were):
    each withdrawal is nonnegative, at most the balance of the pool it is
    taken from, and that pool is reduced by exactly it. *)
Theorem operations_keep_pools_nonneg
    (slack : nat -> nat) (m : Manager) (c : call) (e : env) :
  nonneg_pools (state m) -> nonneg_setup (state m) -> nonneg_tier c ->
  let st := state m in
  let st' := state (fst (step slack m c e)) in
  nonneg_pools st' /\ nonneg_setup st' /\
  match snd (step slack m c e) with
  | Invested finalAmount reserveUsed =>
      0 <= reserveUsed <= ReserveBalance st /\
      0 <= finalAmount - reserveUsed <= RegularBalance st /\
      ReserveBalance st' == ReserveBalance st - reserveUsed /\
      RegularBalance st' == RegularBalance st - (finalAmount - reserveUsed)
  | BottomFished amount _ =>
      0 <= amount <= ReserveBalance st /\
      ReserveBalance st' == ReserveBalance st - amount /\
      RegularBalance st' = RegularBalance st
  | _ => True
  end.
Proof.
  unfold nonneg_pools, nonneg_setup.
  intros [Hreg Hres] [HN HB] Ht. destruct c; simpl.
  - (* GetState *) repeat split; assumption.
  - (* CalculateWeeklyInvestment *)
    simpl in Ht. destruct Ht as [Hm Hu].
    pose proof (weekly_balances slack m signal e) as W. simpl in W.
    destruct (CalculateWeeklyInvestment slack m signal e) as [m' [f r]].
    simpl in *. destruct W as (E & -> & -> & -> & -> & _).
    injection E as -> ->.
    assert (0 <= WeeklyBaseN (state m) * Multiplier (Tier signal)) by nra.
    assert (0 <= WeeklyBaseN (state m) * UseReserve (Tier signal)) by nra.
    destruct (gtb_spec (WeeklyBaseN (state m) * Multiplier (Tier signal))
                (RegularBalance (state m)));
      destruct (gtb_spec (WeeklyBaseN (state m) * UseReserve (Tier signal))
                  (ReserveBalance (state m)));
      repeat split; try assumption; try lra.
  - (* CalculateBottomFishInvestment *)
    unfold CalculateBottomFishInvestment.
    destruct (BottomFishUsedThisWeek (state m)); simpl.
    { repeat split; try assumption; lra. }
    rewrite save_state. simpl.
    set (mult := if totalScore >? 1.0 then 1.5 else _).
    assert (0 <= mult) by (unfold mult; go_cases).
    assert (0 <= WeeklyBaseN (state m) * mult) by nra.
    destruct (gtb_spec (WeeklyBaseN (state m) * mult) (ReserveBalance (state m)));
      repeat split; try assumption; try lra.
  - (* MonthlyReplenish *)
    unfold MonthlyReplenish. rewrite save_state. simpl.
    repeat split; try assumption; nra.
  - (* QuarterlyRebalance *)
    unfold QuarterlyRebalance.
    destruct (gtb_spec (ReserveBalance (state m)) (6 * WeeklyBaseN (state m))).
    { simpl. rewrite save_state. simpl. repeat split; try assumption; lra. }
    destruct ((ConsecutiveHighScoreWeeks (state m) >=? 4)%Z); simpl;
      [destruct (ltb_spec (ReserveBalance (state m)) (3 * WeeklyBaseN (state m)))|];
      simpl; rewrite save_state; simpl; repeat split; try assumption; lra.
  - (* ResetWeeklyFlags *)
    unfold ResetWeeklyFlags. rewrite save_state. simpl.
    repeat split; assumption.
Qed.

(** *** Bottom-fish, once a week *)

(** A call made while the flag is set is answered not-triggered and changes
    nothing. *)
Lemma bottom_fish_used (m : Manager) (totalScore : Q) (e : env) :
  BottomFishUsedThisWeek (state m) = true ->
  CalculateBottomFishInvestment m totalScore e = (m, (0, false)).
Proof. intros H. unfold CalculateBottomFishInvestment. now rewrite H. Qed.

(** Only CalculateBottomFishInvestment sets the flag and only
    ResetWeeklyFlags clears it; a reply is triggered exactly for a
    bottom-fish call made with the flag unset. *)
Lemma step_flag (slack : nat -> nat) (m : Manager) (c : call) (e : env) :
  is_reset c = false ->
  let used := BottomFishUsedThisWeek (state m) in
  BottomFishUsedThisWeek (state (fst (step slack m c e))) =
    match c with DoBottomFish _ => true | _ => used end /\
  triggered (snd (step slack m c e)) =
    match c with DoBottomFish _ => negb used | _ => false end.
Proof.
  intros Hr. destruct c; simpl; try discriminate; try (split; reflexivity).
  - pose proof (weekly_balances slack m signal e) as W. simpl in W.
    destruct (CalculateWeeklyInvestment slack m signal e) as [m' [f r]].
    simpl in *. destruct W as (_ & _ & _ & _ & _ & ->). split; reflexivity.
  - unfold CalculateBottomFishInvestment.
    destruct (BottomFishUsedThisWeek (state m)) eqn:E; simpl.
    + now rewrite E.
    + rewrite save_state. split; reflexivity.
  - unfold MonthlyReplenish. rewrite save_state. split; reflexivity.
  - unfold QuarterlyRebalance.
    destruct (_ >? _); [|destruct (_ && _)]; simpl; rewrite save_state;
      split; reflexivity.
Qed.

Lemma run_cons (slack : nat -> nat) (m : Manager) (c : call) (e : env)
    (cs : list (call * env)) :
  run slack m ((c, e) :: cs) =
    (fst (run slack (fst (step slack m c e)) cs),
     snd (step slack m c e) :: snd (run slack (fst (step slack m c e)) cs)).
Proof.
  simpl. destruct (step slack m c e) as [m1 r]. simpl.
  destruct (run slack m1 cs) as [m2 rs]. reflexivity.
Qed.

Lemma triggered_count_bound (slack : nat -> nat) (cs : list (call * env)) :
  forallb (fun ce => negb (is_reset (fst ce))) cs = true ->
  forall m : Manager,
    (triggered_count (snd (run slack m cs)) <=
       if BottomFishUsedThisWeek (state m) then 0 else 1)%nat.
Proof.
  unfold triggered_count.
  induction cs as [|[c e] cs IH]; intros Hcs m.
  - simpl. destruct (BottomFishUsedThisWeek (state m)); lia.
  - simpl in Hcs. apply andb_true_iff in Hcs as [Hc Hcs].
    apply negb_true_iff in Hc.
    rewrite run_cons. cbn [snd List.filter].
    destruct (step_flag slack m c e Hc) as [F T]. rewrite T.
    specialize (IH Hcs (fst (step slack m c e))). rewrite F in IH.
    destruct c; try exact IH.
    destruct (BottomFishUsedThisWeek (state m)); simpl in *; lia.
Qed.

(** C2. In a sequence of operations with no ResetWeeklyFlags call, at most
    one CalculateBottomFishInvestment call returns triggered = true; and a
    call made while the flag is unset always returns triggered = true,
    whatever the reserve holds: it withdraws the band's multiple of the
    weekly base, capped at the reserve balance, from the reserve pool only,
    and sets the flag. *)
Theorem bottom_fish_at_most_once (slack : nat -> nat) (m : Manager) :
  (forall cs : list (call * env),
      forallb (fun ce => negb (is_reset (fst ce))) cs = true ->
      (triggered_count (snd (run slack m cs)) <= 1)%nat) /\
  (forall (totalScore : Q) (e : env),
      BottomFishUsedThisWeek (state m) = false ->
      let st := state m in
      let r := CalculateBottomFishInvestment m totalScore e in
      let st' := state (fst r) in
      let amount := fst (snd r) in
      snd (snd r) = true /\
      (exists multiplier : Q,
          (1.0 < totalScore -> multiplier = 1.5) /\
          (0 < totalScore <= 1.0 -> multiplier = 1.0) /\
          (totalScore < -0.5 -> multiplier = 0.5) /\
          (-0.5 <= totalScore <= 0 -> multiplier = 0.75) /\
          (WeeklyBaseN st * multiplier <= ReserveBalance st ->
             amount = WeeklyBaseN st * multiplier) /\
          (ReserveBalance st < WeeklyBaseN st * multiplier ->
             amount = ReserveBalance st)) /\
      amount <= ReserveBalance st /\
      ReserveBalance st' = ReserveBalance st - amount /\
      RegularBalance st' = RegularBalance st /\
      BottomFishUsedThisWeek st' = true).
Proof.
  split.
  - intros cs Hcs. pose proof (triggered_count_bound slack cs Hcs m) as B.
    destruct (BottomFishUsedThisWeek (state m)); lia.
  - intros totalScore e Hflag. unfold CalculateBottomFishInvestment.
    rewrite Hflag. simpl. rewrite save_state. simpl.
    set (mult := if totalScore >? 1.0 then 1.5 else _).
    split; [reflexivity|].
    split.
    { exists mult. split; [|split; [|split; [|split; [|split]]]].
      1-4: intros; unfold mult; go_cases.
      - intros H.
        destruct (gtb_spec (WeeklyBaseN (state m) * mult) (ReserveBalance (state m)));
          [lra | reflexivity].
      - intros H.
        destruct (gtb_spec (WeeklyBaseN (state m) * mult) (ReserveBalance (state m)));
          [reflexivity | lra]. }
    split; [|repeat split].
    destruct (gtb_spec (WeeklyBaseN (state m) * mult) (ReserveBalance (state m))); lra.
Qed.

(** *** Quarterly rebalance *)




(** ** Slices and their backing arrays *)

Lemma elems_length (h : store) (s : slice) :
  wf_slice h s -> length (elems h s) = slen s.
Proof.
  unfold wf_slice, elems. intros [H1 H2].
  rewrite length_take, length_drop. lia.
Qed.

Lemma elems_empty (h : store) (s : slice) : slen s = 0%nat -> elems h s = [].
Proof. unfold elems. now intros ->. Qed.

(** A header with elements points at an allocated array. *)
Lemma wf_slice_allocated (h : store) (s : slice) :
  wf_slice h s -> (0 < scap s)%nat -> (ptr s < length h)%nat.
Proof.
  unfold wf_slice, backing. intros [H1 H2] Hc.
  destruct (decide (ptr s < length h)%nat) as [|N]; [assumption|].
  rewrite list_lookup_total_alt, lookup_ge_None_2 in H2 by lia.
  simpl in H2. lia.
Qed.

(** [append] yields a well-formed header showing the old elements followed
    by the new one. *)
Lemma append_elems (slack : nat -> nat) (h : store) (s : slice) (x : Q) :
  wf_slice h s ->
  wf_slice (fst (append slack h s x)) (snd (append slack h s x)) /\
  elems (fst (append slack h s x)) (snd (append slack h s x)) = elems h s ++ [x].
Proof.
  intros Hwf. pose proof (elems_length h s Hwf) as Hlen.
  unfold append. destruct (Nat.ltb_spec (slen s) (scap s)) as [Hc|Hc]; simpl.
  - pose proof (wf_slice_allocated h s Hwf ltac:(lia)) as Hp.
    destruct Hwf as [H1 H2].
    unfold wf_slice, elems, backing in *. simpl.
    rewrite list_lookup_total_insert_eq by assumption.
    rewrite length_insert. split; [lia|].
    rewrite drop_insert_ge by lia.
    replace (off s + slen s - off s)%nat with (slen s) by lia.
    rewrite (take_S_r _ _ x)
      by (apply list_lookup_insert_eq; rewrite length_drop; lia).
    now rewrite take_insert_ge by lia.
  - unfold wf_slice, elems, backing. simpl.
    rewrite list_lookup_total_middle by reflexivity.
    rewrite length_app. simpl. rewrite length_replicate.
    fold (backing h s). fold (elems h s). rewrite Hlen.
    split; [lia|].
    rewrite drop_0.
    replace (elems h s ++ x :: replicate (slack (scap s)) 0)
      with ((elems h s ++ [x]) ++ replicate (slack (scap s)) 0)
      by now rewrite <- app_assoc.
    apply take_app_length'. rewrite length_app. simpl. lia.
Qed.

(** [append] through [s] leaves untouched what any header [s0] shows that
    ends within [s], and [s0] still ends within the header returned. *)
Lemma append_frame (slack : nat -> nat) (h : store) (s s0 : slice) (x : Q) :
  wf_slice h s -> wf_slice h s0 -> ends_within s0 s ->
  elems (fst (append slack h s x)) s0 = elems h s0 /\
  wf_slice (fst (append slack h s x)) s0 /\
  ends_within s0 (snd (append slack h s x)).
Proof.
  intros Hwf Hwf0 Hend.
  unfold append. destruct (Nat.ltb_spec (slen s) (scap s)) as [Hc|Hc]; simpl.
  - pose proof (wf_slice_allocated h s Hwf ltac:(lia)) as Hp.
    unfold ends_within in *. simpl.
    destruct (decide (ptr s = ptr s0)) as [E|N].
    + specialize (Hend E).
      unfold wf_slice, elems, backing in *. rewrite <- E.
      rewrite list_lookup_total_insert_eq by assumption.
      rewrite length_insert. rewrite <- E in Hwf0.
      split; [|split; [assumption | lia]].
      rewrite drop_insert_ge by lia.
      apply take_insert_ge. lia.
    + unfold wf_slice, elems, backing in *.
      rewrite list_lookup_total_insert_ne by assumption.
      split; [reflexivity | split; [assumption | intros C; contradiction]].
  - unfold ends_within in *. simpl.
    destruct (decide (ptr s0 < length h)%nat) as [L|G].
    + unfold wf_slice, elems, backing in *.
      rewrite lookup_total_app_l by assumption.
      split; [reflexivity | split; [assumption | lia]].
    + assert (B : backing h s0 = []).
      { unfold backing. rewrite list_lookup_total_alt, lookup_ge_None_2 by lia.
        reflexivity. }
      destruct Hwf0 as [H1 H2]. rewrite B in H2. simpl in H2.
      assert (slen s0 = 0%nat) by lia. assert (scap s0 = 0%nat) by lia.
      assert (off s0 = 0%nat) by lia.
      split; [now rewrite !elems_empty|].
      split; [unfold wf_slice; lia | lia].
Qed.

(** [s[k:]] shows the elements of [s] from the [k]-th on. *)
Lemma slice_from_elems (h : store) (s : slice) (k : nat) :
  wf_slice h s -> (k <= slen s)%nat ->
  wf_slice h (slice_from s k) /\
  elems h (slice_from s k) = drop k (elems h s) /\
  (off (slice_from s k) + slen (slice_from s k) = off s + slen s)%nat.
Proof.
  unfold wf_slice, elems, slice_from, backing. simpl. intros [H1 H2] Hk.
  split; [lia|]. split; [|lia].
  rewrite <- drop_drop. rewrite (take_drop_commute _ (slen s - k) k).
  f_equal. f_equal. lia.
Qed.

(** ** The recent-scores window *)

(** Only CalculateWeeklyInvestment touches the store and the slice header. *)
Lemma step_keeps_scores (slack : nat -> nat) (m : Manager) (c : call) (e : env) :
  match c with
  | DoWeekly _ => True
  | _ =>
      heap (fst (step slack m c e)) = heap m /\
      RecentScores (state (fst (step slack m c e))) = RecentScores (state m)
  end.
Proof.
  destruct c; simpl; auto.
  - unfold CalculateBottomFishInvestment.
    destruct (BottomFishUsedThisWeek (state m)); simpl; [auto|].
    rewrite save_state, save_heap. auto.
  - unfold MonthlyReplenish. rewrite save_state, save_heap. auto.
  - unfold QuarterlyRebalance.
    destruct (_ >? _); [|destruct (_ && _)]; simpl;
      rewrite save_state, save_heap; auto.
  - unfold ResetWeeklyFlags. rewrite save_state, save_heap. auto.
Qed.

(** CalculateWeeklyInvestment appends to the slice and keeps its last 12. *)
Lemma weekly_scores (slack : nat -> nat) (m : Manager) (signal : TradeSignal) (e : env) :
  let a := append slack (heap m) (RecentScores (state m)) (TotalScore signal) in
  let m' := fst (CalculateWeeklyInvestment slack m signal e) in
  heap m' = fst a /\
  RecentScores (state m') =
    (if (12 <? slen (snd a))%nat then slice_from (snd a) (slen (snd a) - 12) else snd a).
Proof.
  unfold CalculateWeeklyInvestment. simpl.
  destruct (append slack _ _ _) as [h scores]. simpl.
  rewrite save_state, save_heap. simpl. auto.
Qed.

Lemma step_weekly (slack : nat -> nat) (m : Manager) (signal : TradeSignal) (e : env) :
  fst (step slack m (DoWeekly signal) e) =
  fst (CalculateWeeklyInvestment slack m signal e).
Proof.
  simpl. now destruct (CalculateWeeklyInvestment slack m signal e) as [m' [f r]].
Qed.

(** The window after a weekly investment: the last 12 of the old window
    followed by the new score. *)
Lemma weekly_window (slack : nat -> nat) (m : Manager) (signal : TradeSignal) (e : env) :
  wf_manager m ->
  let m' := fst (CalculateWeeklyInvestment slack m signal e) in
  wf_manager m' /\
  window m' = last_n 12 (window m ++ [TotalScore signal]) /\
  (length (window m') <= 12)%nat /\
  ((12 <= length (window m))%nat -> length (window m') = 12%nat).
Proof.
  intros Hwf. unfold wf_manager, window in *. cbv zeta.
  destruct (weekly_scores slack m signal e) as [-> ->].
  destruct (append_elems slack (heap m) (RecentScores (state m)) (TotalScore signal) Hwf)
    as [Wa Ea].
  pose proof (elems_length _ _ Wa) as La.
  set (h := fst (append slack _ _ _)) in *.
  set (s := snd (append slack _ _ _)) in *.
  assert (Ll : length (elems (heap m) (RecentScores (state m)) ++ [TotalScore signal])
               = slen s) by now rewrite <- Ea.
  unfold last_n. rewrite Ll, <- Ea.
  rewrite length_app in Ll. simpl in Ll.
  destruct (Nat.ltb_spec 12 (slen s)) as [H|H].
  - destruct (slice_from_elems h s (slen s - 12)) as (Wf & Ef & _); [assumption|lia|].
    rewrite Ef, length_drop, La.
    split; [exact Wf|]. repeat split; auto; lia.
  - replace (slen s - 12)%nat with 0%nat by lia. rewrite drop_0, La.
    split; [exact Wa|]. repeat split; auto; lia.
Qed.

(** C9. Every operation of the fund state machine keeps the recent-scores
    window at length at most 12: CalculateWeeklyInvestment appends the
    signal's total score and keeps exactly the last 12 scores of the result,
    evicting the oldest first; no other operation changes the window. *)
Theorem recent_scores_window
    (slack : nat -> nat) (m : Manager) (c : call) (e : env) :
  wf_manager m ->
  let m' := fst (step slack m c e) in
  wf_manager m' /\
  ((length (window m) <= 12)%nat -> (length (window m') <= 12)%nat) /\
  match c with
  | DoWeekly signal =>
      window m' = last_n 12 (window m ++ [TotalScore signal]) /\
      (length (window m') <= 12)%nat /\
      ((12 <= length (window m))%nat -> length (window m') = 12%nat)
  | _ => window m' = window m
  end.
Proof.
  intros Hwf.
  pose proof (step_keeps_scores slack m c e) as K.
  destruct c; cbv zeta;
    [unfold wf_manager, window in *; destruct K as [-> ->]; auto |
     | unfold wf_manager, window in *; destruct K as [-> ->]; auto ..].
  rewrite step_weekly.
  destruct (weekly_window slack m signal e Hwf) as (W & E & L & F).
  split; [exact W|]. split; [intros _; exact L|].
  split; [exact E | split; [exact L | exact F]].
Qed.

(** ** Snapshots *)

(** One operation leaves what a header [s0] shows untouched, as long as
    [s0] ends within the manager's header; and it still does afterwards. *)
Lemma step_frame (slack : nat -> nat) (s0 : slice) (m : Manager) (c : call) (e : env) :
  wf_manager m -> wf_slice (heap m) s0 -> ends_within s0 (RecentScores (state m)) ->
  let m' := fst (step slack m c e) in
  wf_manager m' /\ wf_slice (heap m') s0 /\
  ends_within s0 (RecentScores (state m')) /\
  elems (heap m') s0 = elems (heap m) s0.
Proof.
  intros Hwf Hwf0 Hend. cbv zeta.
  pose proof (step_keeps_scores slack m c e) as K.
  destruct c;
    [unfold wf_manager in *; destruct K as [-> ->]; auto |
     | unfold wf_manager in *; destruct K as [-> ->]; auto ..].
  rewrite step_weekly.
  split; [apply (weekly_window slack m signal e Hwf)|].
  unfold wf_manager in *.
  destruct (weekly_scores slack m signal e) as [-> ->].
  destruct (append_frame slack (heap m) (RecentScores (state m)) s0 (TotalScore signal)
              Hwf Hwf0 Hend) as (Ef & Wf & En).
  destruct (append_elems slack (heap m) (RecentScores (state m)) (TotalScore signal) Hwf)
    as [Wa _].
  set (h := fst (append slack _ _ _)) in *.
  set (s := snd (append slack _ _ _)) in *.
  split; [exact Wf|]. split; [|exact Ef].
  destruct (Nat.ltb_spec 12 (slen s)) as [H|H]; [|assumption].
  destruct (slice_from_elems h s (slen s - 12)) as (_ & _ & Eo); [assumption|lia|].
  unfold ends_within in *. rewrite Eo. exact En.
Qed.

Lemma run_frame (slack : nat -> nat) (s0 : slice) (cs : list (call * env)) :
  forall m : Manager,
    wf_manager m -> wf_slice (heap m) s0 -> ends_within s0 (RecentScores (state m)) ->
    wf_manager (fst (run slack m cs)) /\
    elems (heap (fst (run slack m cs))) s0 = elems (heap m) s0.
Proof.
  induction cs as [|[c e] cs IH]; intros m Hwf Hwf0 Hend; [simpl; auto|].
  rewrite run_cons. cbn [fst].
  destruct (step_frame slack s0 m c e Hwf Hwf0 Hend) as (W & W0 & E & F).
  destruct (IH _ W W0 E) as [W' F']. split; [exact W'|]. now rewrite F'.
Qed.

(** C10. The FundState value GetState returns is a snapshot: whatever
    operations run afterwards, every field of it, the contents of its
    RecentScores window included, reads as it did when GetState returned. *)
Theorem GetState_is_snapshot (slack : nat -> nat) (m : Manager) (cs : list (call * env)) :
  wf_manager m ->
  let snap := GetState m in
  let m' := fst (run slack m cs) in
  observe (heap m') snap = observe (heap m) snap /\
  elems (heap m') (RecentScores snap) = window m.
Proof.
  intros Hwf. cbv zeta. unfold GetState.
  destruct (run_frame slack (RecentScores (state m)) cs m Hwf Hwf) as [_ F].
  { intros _. lia. }
  unfold observe, window. now rewrite F.
Qed.

(** ** Managers as NewManager makes them *)

Lemma NewManager_wf (slack : nat -> nat) (f : file_content) (budget : Q) (e : env)
    (m : Manager) :
  NewManager slack f budget e = Some m -> wf_manager m.
Proof.
  unfold NewManager, wf_manager. intros H.
  destruct (LoadState slack f) as [[h st]|] eqn:EL; [|discriminate].
  assert (W : wf_slice h (RecentScores st)).
  { destruct f as [| |doc]; simpl in EL; try discriminate.
    - injection EL as <- <-. unfold wf_slice, backing. simpl. lia.
    - destruct (RecentScores doc) as [|x l] eqn:ER; simpl in EL;
        injection EL as <- <-; unfold wf_slice, backing; simpl; [lia|].
      rewrite length_app, length_replicate. lia. }
  match type of H with
  | context [save ?m0 e] =>
      pose proof (save_state m0 e) as S1; pose proof (save_heap m0 e) as S2;
      destruct (save m0 e) as [m1 [err|]]; [discriminate|]
  end.
  injection H as <-. simpl in S1, S2. rewrite S1, S2.
  destruct (MonthlyBudget st =? 0); exact W.
Qed.

(** ** The fuel of the loops always suffices *)

Lemma wrap_range (z : Z) : (int_min <= wrap z <= int_max)%Z.
Proof.
  unfold wrap, int_min, int_max.
  pose proof (Z.mod_pos_bound (z + 2 ^ 63) (2 ^ 64) ltac:(lia)). lia.
Qed.

Lemma int_add_one (i : Z) :
  (int_min <= i <= int_max)%Z ->
  (int_min <= int_add i 1 <= int_max)%Z /\
  (int_add i 1 = i + 1 \/ int_add i 1 = int_min)%Z.
Proof.
  intros H. split; [apply wrap_range|].
  unfold int_add. destruct (Z.eq_dec i int_max) as [->|N].
  - right. reflexivity.
  - left. apply wrap_id. lia.
Qed.

Lemma seed_loop_fuel (closes : list Q) (period : Z) (fuel : nat) :
  forall (i : Z) (g l : Q),
    (int_min <= i <= int_max)%Z ->
    (0 < fuel)%nat -> ((0 <= i < len closes)%Z -> (len closes - i < Z.of_nat fuel)%Z) ->
    seed_loop fuel closes period i g l <> OutOfFuel.
Proof.
  induction fuel as [|fuel IH]; intros i g l Hi Hpos Hf; [lia|]. simpl.
  destruct (Z.leb_spec i period); try discriminate.
  destruct (Z.lt_ge_cases i 0) as [Neg|Pos].
  { rewrite (index_None closes i) by lia. discriminate. }
  destruct (Z.lt_ge_cases i (len closes)) as [In|Out].
  2: { rewrite (index_None closes i) by lia. discriminate. }
  destruct (index closes i); [|discriminate].
  destruct (index closes (int_sub i 1)); [|discriminate].
  destruct (int_add_one i Hi) as [R [E|E]];
    destruct (_ >? 0); apply IH; try assumption; try rewrite E;
    unfold int_min in *; lia.
Qed.

Lemma smooth_loop_fuel (closes : list Q) (period : Z) (fuel : nat) :
  forall (i : Z) (g l : Q),
    (int_min <= i <= int_max)%Z ->
    (0 < fuel)%nat -> ((0 <= i < len closes)%Z -> (len closes - i < Z.of_nat fuel)%Z) ->
    smooth_loop fuel closes period i g l <> OutOfFuel.
Proof.
  induction fuel as [|fuel IH]; intros i g l Hi Hpos Hf; [lia|]. simpl.
  destruct (Z.ltb_spec i (len closes)); try discriminate.
  destruct (Z.lt_ge_cases i 0) as [Neg|Pos].
  { rewrite (index_None closes i) by lia. discriminate. }
  destruct (index closes i); [|discriminate].
  destruct (index closes (int_sub i 1)); [|discriminate].
  destruct (int_add_one i Hi) as [R [E|E]];
    apply IH; try assumption; try rewrite E; unfold int_min in *; lia.
Qed.

(** Whatever the bars and the period, the model of CalculateRSI returns or
    panics: the fuel given to its loops never runs out. *)
Theorem CalculateRSI_never_out_of_fuel (bars : list OHLCV) (period : Z) :
  CalculateRSI bars period <> OutOfFuel.
Proof.
  unfold CalculateRSI.
  destruct (period <=? 0)%Z; [discriminate|].
  destruct (len bars <? int_add period 1)%Z; [discriminate|].
  set (closes := extractCloses bars).
  destruct (seed_loop (S (length closes)) closes period 1 0 0) as [[g l]| |] eqn:E1;
    cbn [bind]; try discriminate.
  2: { exfalso. revert E1. apply seed_loop_fuel.
       - unfold int_min, int_max. lia.
       - lia.
       - unfold len. lia. }
  destruct (smooth_loop (S (length closes)) closes period (int_add period 1) _ _)
    as [[g' l']| |] eqn:E2; cbn [bind]; try discriminate.
  - destruct (l' =? 0); discriminate.
  - exfalso. revert E2. apply smooth_loop_fuel.
    + apply wrap_range.
    + lia.
    + unfold len. lia.
Qed.

Lemma seed_loop_endless (closes : list Q) (fuel : nat) :
  forall (i : Z) (g l : Q) (r : Q * Q),
    (int_min <= i <= int_max)%Z ->
    seed_loop fuel closes int_max i g l <> Returns r.
Proof.
  induction fuel as [|fuel IH]; intros i g l r Hi; simpl;
    destruct (Z.leb_spec i int_max); try lia; try discriminate.
  destruct (index closes i); [|discriminate].
  destruct (index closes (int_sub i 1)); [|discriminate].
  destruct (int_add_one i Hi) as [R _].
  destruct (_ >? 0); apply IH; assumption.
Qed.

(** C7, at the largest [int].  There [period+1] wraps around to the smallest
    [int], so the guard on the number of bars never fires, the first loop
    runs off the end of the closes, and CalculateRSI panics with an index
    out of range, whatever the bars, instead of returning 50.0: so it does
    for no bars at all and for three bars. *)
Theorem CalculateRSI_largest_period_panics :
  (1 <= int_max)%Z /\
  (len (@nil OHLCV) < int_max + 1)%Z /\
  CalculateRSI [] int_max = Panics /\
  CalculateRSI (map (fun c => mkOHLCV 0 c c c c 0) [10; 11; 12]) int_max = Panics /\
  (forall bars : list OHLCV, CalculateRSI bars int_max = Panics).
Proof.
  assert (G : forall bars : list OHLCV, CalculateRSI bars int_max = Panics).
  { intros bars.
    pose proof (CalculateRSI_never_out_of_fuel bars int_max) as F.
    unfold CalculateRSI in *.
    change (int_max <=? 0)%Z with false in *. cbv iota in *.
    change (int_add int_max 1) with int_min in *.
    destruct (Z.ltb_spec (len bars) int_min) as [C|C];
      [unfold len, int_min in C; lia|].
    destruct (seed_loop _ _ int_max 1 0 0) as [r| |] eqn:E; cbn [bind] in *.
    - exfalso. revert E. apply seed_loop_endless. unfold int_min, int_max. lia.
    - reflexivity.
    - now contradiction F. }
  split; [vm_compute; congruence|].
  split; [vm_compute; reflexivity|].
  repeat split; apply G.
Qed.

(** ** The theorems at work on the example data *)

Lemma operations_keep_pools_nonneg_witness :
  nonneg_pools
    (state (fst (step roomy example_manager (DoWeekly example_signal) example_env))).
Proof.
  apply (operations_keep_pools_nonneg roomy example_manager
           (DoWeekly example_signal) example_env);
    vm_compute; intuition discriminate.
Defined.

Lemma bottom_fish_at_most_once_witness :
  (triggered_count (snd (run roomy example_manager busy_week)) <= 1)%nat.
Proof.
  apply (proj1 (bottom_fish_at_most_once roomy example_manager) busy_week).
  reflexivity.
Defined.

Lemma example_manager_wf : wf_manager example_manager.
Proof. apply (NewManager_wf roomy (Stored example_doc) 3000 example_env). reflexivity. Qed.

Lemma recent_scores_window_witness :
  window (fst (step roomy example_manager (DoWeekly example_signal) example_env)) =
    [0.2; 0.3; 0.4; 0.5; 0.6; 0.7; 0.8; 0.9; 1.0; 1.1; 1.2; TotalScore example_signal].
Proof.
  destruct (recent_scores_window roomy example_manager (DoWeekly example_signal)
              example_env) as (_ & _ & E & _).
  - split; vm_compute; lia.
  - rewrite E. reflexivity.
Defined.

Lemma GetState_is_snapshot_witness :
  let snap := GetState example_manager in
  let m' := fst (run roomy example_manager busy_week) in
  observe (heap m') snap = observe (heap example_manager) snap /\
  ptr (RecentScores snap) = 0%nat /\
  heap m' !! 0%nat <> heap example_manager !! 0%nat /\
  window m' <> window example_manager.
Proof.
  split; [|split; [reflexivity | split; vm_compute; discriminate]].
  apply (GetState_is_snapshot roomy example_manager busy_week).
  split; vm_compute; lia.
Defined.

(** * Further properties of the indicator library *)

Import GoLoop ma range IndicatorSpec.

(** ** Counting loops *)

(** A loop reading [l[i]] for [i] from [i0] up to [n], within the list and
    the range of [int], folds the body over that stretch of the list. *)
Lemma for_loop_reading {A St : Type} (l : list A) (g : St -> A -> St) (n : Z) :
  (n <= len l)%Z -> (n <= int_max)%Z ->
  forall (k fuel : nat) (i : Z) (s : St),
    (k <= fuel)%nat -> (0 <= i)%Z -> (i + Z.of_nat k = n)%Z ->
    for_loop fuel i n (reading l g) s =
      Returns (fold_left g (take k (drop (Z.to_nat i) l)) s).
Proof.
  intros Hn Hmax. induction k as [|k IH]; intros fuel i s Hf Hi Hk.
  - destruct fuel; simpl; destruct (Z.ltb_spec i n); try lia; reflexivity.
  - destruct fuel as [|fuel]; [lia|]. simpl.
    destruct (Z.ltb_spec i n); [|lia].
    destruct (index_Some l i) as (x & Ex & Lx); [lia|].
    unfold reading at 1. rewrite Ex. cbn [bind].
    assert (W : int_add i 1 = (i + 1)%Z).
    { unfold int_add. apply wrap_id. unfold int_min, int_max in *. lia. }
    rewrite W, IH by lia.
    rewrite (drop_S l x (Z.to_nat i) Lx). simpl.
    now replace (Z.to_nat (i + 1)) with (S (Z.to_nat i)) by lia.
Qed.

Lemma fold_sum (l : list Q) (s : Q) :
  fold_left (fun sum p => sum + p) l s == s + Qsum l.
Proof.
  revert s. induction l as [|x l IH]; intros s; simpl; [ring|].
  rewrite IH. ring.
Qed.

Lemma last_n_length {A} (n : nat) (l : list A) :
  length (last_n n l) = Nat.min n (length l).
Proof. unfold last_n. rewrite length_drop. lia. Qed.

(** ** Moving averages *)

(** With enough prices CalculateSMA returns the left-to-right sum of the
    last [period] prices divided by the period. *)
Lemma CalculateSMA_run (prices : list Q) (period : Z) :
  (len prices <= int_max)%Z -> (0 < period <= len prices)%Z ->
  CalculateSMA prices period =
    Returns (fold_left (fun sum p => sum + p) (last_n (Z.to_nat period) prices) 0.0
               / inject_Z period, None).
Proof.
  intros Hmax Hp. unfold CalculateSMA.
  destruct (Z.leb_spec period 0); [lia|].
  destruct (Z.ltb_spec (len prices) period); [lia|].
  assert (W : int_sub (len prices) period = (len prices - period)%Z).
  { unfold int_sub. apply wrap_id. unfold int_min, int_max in *. lia. }
  rewrite W.
  rewrite (for_loop_reading prices _ (len prices) ltac:(lia) Hmax (Z.to_nat period))
    by (unfold len in *; lia).
  cbn [bind]. unfold last_n, len in *.
  replace (Z.to_nat (Z.of_nat (length prices) - period))
    with (length prices - Z.to_nat period)%nat by lia.
  rewrite take_ge by (rewrite length_drop; lia).
  reflexivity.
Qed.

(** X1. CalculateSMA rejects a period that is not positive and a series
    shorter than the period, each with its own error; otherwise it returns,
    without error and without panicking, the arithmetic mean of the last
    [period] prices. *)
Theorem CalculateSMA_mean (prices : list Q) (period : Z) :
  (len prices <= int_max)%Z ->
  ((period <= 0)%Z ->
     CalculateSMA prices period = Returns (0, Some "period must be positive"%string)) /\
  ((0 < period)%Z -> (len prices < period)%Z ->
     CalculateSMA prices period =
       Returns (0, Some "not enough data for SMA calculation"%string)) /\
  ((0 < period <= len prices)%Z ->
     exists v : Q,
       CalculateSMA prices period = Returns (v, None) /\
       v == Qsum (last_n (Z.to_nat period) prices) / inject_Z period).
Proof.
  intros Hmax. split; [|split].
  - intros Hp. unfold CalculateSMA. destruct (Z.leb_spec period 0); [reflexivity|lia].
  - intros Hp Hl. unfold CalculateSMA.
    destruct (Z.leb_spec period 0); [lia|].
    destruct (Z.ltb_spec (len prices) period); [reflexivity|lia].
  - intros Hp. rewrite (CalculateSMA_run prices period Hmax Hp).
    eexists. split; [reflexivity|].
    rewrite fold_sum. apply Qdiv_comp; [|reflexivity].
    change 0.0 with (0 # 10). ring.
Qed.

Lemma CalculateSMA_mean_witness :
  exists v : Q, CalculateSMA [1; 2; 3; 4; 5] 2 = Returns (v, None) /\ v == 4.5.
Proof.
  destruct (CalculateSMA_mean [1; 2; 3; 4; 5] 2) as (_ & _ & H).
  - vm_compute. discriminate.
  - destruct H as (v & E & V); [vm_compute; intuition discriminate|].
    exists v. split; [exact E|]. rewrite V. reflexivity.
Defined.

Lemma Qsum_bounds (lo hi : Q) (l : list Q) :
  Forall (fun p => lo <= p <= hi) l ->
  inject_Z (Z.of_nat (length l)) * lo <= Qsum l <= inject_Z (Z.of_nat (length l)) * hi.
Proof.
  induction 1 as [|p l [Hl Hh] _ IH]; [vm_compute; split; discriminate|].
  cbn [length Qsum fold_right].
  rewrite Nat2Z.inj_succ. unfold Z.succ. rewrite inject_Z_plus.
  change (fold_right Qplus 0 l) with (Qsum l).
  change (inject_Z 1) with 1. nra.
Qed.

(** Over exact rationals the moving average lies between any two bounds
    that enclose the prices of its window. *)
Lemma SMA_between_bounds (prices : list Q) (period : Z) (lo hi : Q) :
  (len prices <= int_max)%Z -> (0 < period <= len prices)%Z ->
  Forall (fun p => lo <= p <= hi) (last_n (Z.to_nat period) prices) ->
  exists v : Q, CalculateSMA prices period = Returns (v, None) /\ lo <= v <= hi.
Proof.
  intros Hmax Hp Hb. rewrite (CalculateSMA_run prices period Hmax Hp).
  eexists. split; [reflexivity|].
  pose proof (Qsum_bounds lo hi _ Hb) as B.
  rewrite last_n_length in B. unfold len in Hp.
  replace (Z.of_nat (Nat.min (Z.to_nat period) (length prices))) with period in B by lia.
  assert (P : 0 < inject_Z period).
  { change 0 with (inject_Z 0). rewrite <- Zlt_Qlt. lia. }
  rewrite fold_sum.
  set (s := Qsum _) in *. clearbody s.
  split.
  - apply Qle_shift_div_l; [exact P|]. change 0.0 with (0 # 10). lra.
  - apply Qle_shift_div_r; [exact P|]. change 0.0 with (0 # 10). lra.
Qed.

(** X2. Over exact rationals the moving average lies between any two bounds
    that enclose the prices of its window: it is never below the lowest
    nor above the highest of the last [period] prices.  The binary64
    program does not keep this: of three prices of 0.1 it returns an
    average above 0.1. *)
Theorem CalculateSMA_within_window :
  (forall (prices : list Q) (period : Z) (lo hi : Q),
     (len prices <= int_max)%Z -> (0 < period <= len prices)%Z ->
     Forall (fun p => lo <= p <= hi) (last_n (Z.to_nat period) prices) ->
     exists v : Q, ma.CalculateSMA prices period = Returns (v, None) /\ lo <= v <= hi) /\
  (exists v : float,
     Binary64.CalculateSMA three_dimes 3 = Returns (v, None) /\
     Forall (fun p => (p <? v)%float = true) three_dimes).
Proof.
  split.
  - exact SMA_between_bounds.
  - eexists. split; [vm_compute; reflexivity|]. repeat constructor.
Qed.

(** ** High/low ranges *)

Ltac elem_solver :=
  first [ apply list_elem_of_singleton; reflexivity
        | apply elem_of_app; rewrite list_elem_of_singleton; auto ].

(** What a scan has gathered after the bars [seen]: nothing yet, or the
    highest High and the lowest Low among them. *)
Lemma widen_invariant (l : list OHLCV) :
  forall (seen : list OHLCV) (acc : float64e * float64e),
    (seen = [] /\ acc = (NegInf, PosInf)) \/
    (exists h lo, acc = (Fin h, Fin lo) /\
       is_max_of High seen h /\ is_min_of Low seen lo) ->
    (seen ++ l = [] /\ fold_left widen l acc = (NegInf, PosInf)) \/
    (exists h lo, fold_left widen l acc = (Fin h, Fin lo) /\
       is_max_of High (seen ++ l) h /\ is_min_of Low (seen ++ l) lo).
Proof.
  induction l as [|b l IH]; intros seen acc Inv.
  - rewrite app_nil_r. exact Inv.
  - cbn [fold_left].
    replace (seen ++ b :: l) with ((seen ++ [b]) ++ l) by now rewrite <- app_assoc.
    apply IH. right. destruct Inv as [[-> ->] | (h & lo & -> & [[a [Ia Ea]] Hmax] & [[c [Ic Ec]] Hmin])].
    + exists (High b), (Low b). unfold widen, is_max_of, is_min_of. simpl.
      repeat split.
      * exists b. split; [elem_solver | reflexivity].
      * intros x Hx. apply list_elem_of_singleton in Hx as ->. lra.
      * exists b. split; [elem_solver | reflexivity].
      * intros x Hx. apply list_elem_of_singleton in Hx as ->. lra.
    + unfold widen, is_max_of, is_min_of. simpl.
      destruct (gtb_spec (High b) h) as [Gh|Gh];
        destruct (ltb_spec (Low b) lo) as [Gl|Gl];
        eexists _, _; (split; [reflexivity|]); split; split;
        try (exists b; split; [elem_solver | reflexivity]);
        try (exists a; split; [elem_solver | assumption]);
        try (exists c; split; [elem_solver | assumption]);
        intros x Hx; apply elem_of_app in Hx as [Hx|Hx];
        try (apply list_elem_of_singleton in Hx as ->; lra);
        try (specialize (Hmax x Hx); lra);
        try (specialize (Hmin x Hx); lra).
Qed.

(** Past its guard, a scan over a window of [w] bars folds [widen] over the
    last [w] bars. *)
Lemma scan_run (bars : list OHLCV) (w : Z) :
  (len bars <= int_max)%Z -> (0 < w <= int_max)%Z -> bars <> [] ->
  let n := len bars in
  let start := int_sub n w in
  let start := if (start <? 0)%Z then 0%Z else start in
  for_loop (S (length bars)) start n (reading bars widen) (NegInf, PosInf) =
    Returns (fold_left widen (last_n (Z.to_nat w) bars) (NegInf, PosInf)).
Proof.
  intros Hmax Hw Hne. cbv zeta.
  assert (W : int_sub (len bars) w = (len bars - w)%Z).
  { unfold int_sub. apply wrap_id. unfold int_min, int_max, len in *. lia. }
  rewrite W. unfold last_n, len in *.
  destruct (Z.ltb_spec (Z.of_nat (length bars) - w) 0) as [Neg|Pos].
  - rewrite (for_loop_reading bars widen (Z.of_nat (length bars)) ltac:(unfold len; lia) Hmax (length bars))
      by lia.
    rewrite take_ge by (rewrite length_drop; simpl; lia).
    replace (length bars - Z.to_nat w)%nat with 0%nat by lia. reflexivity.
  - rewrite (for_loop_reading bars widen (Z.of_nat (length bars)) ltac:(unfold len; lia) Hmax (Z.to_nat w))
      by lia.
    replace (Z.to_nat (Z.of_nat (length bars) - w)) with (length bars - Z.to_nat w)%nat
      by lia.
    rewrite take_ge by (rewrite length_drop; lia). reflexivity.
Qed.

Lemma fold_widen_nonempty (l : list OHLCV) :
  l <> [] ->
  exists h lo, fold_left widen l (NegInf, PosInf) = (Fin h, Fin lo) /\
    is_max_of High l h /\ is_min_of Low l lo.
Proof.
  intros Hne.
  destruct (widen_invariant l [] (NegInf, PosInf)) as [[E _] | H]; auto.
  simpl in E. contradiction.
Qed.

Lemma last_n_nonempty {A} (n : nat) (l : list A) :
  (0 < n)%nat -> l <> [] -> last_n n l <> [].
Proof.
  intros Hn Hl E. apply (f_equal length) in E. rewrite last_n_length in E.
  destruct l; [contradiction|]. simpl in E. lia.
Qed.

Lemma len_nonempty {A} (l : list A) : l <> [] -> (len l =? 0)%Z = false.
Proof. intros H. destruct l; [contradiction|]. reflexivity. Qed.

(** On a series that is not empty each scan returns the extremes of its
    window. *)
Lemma range_scans_values (bars : list OHLCV) :
  (len bars <= int_max)%Z -> bars <> [] ->
  (exists high low : Q,
      Calculate52WeekRange bars = Returns (Fin high, Fin low, None) /\
      is_max_of High (last_n 252 bars) high /\ is_min_of Low (last_n 252 bars) low) /\
  (exists high low : Q,
      Calculate30DayRange bars = Returns (Fin high, Fin low, None) /\
      is_max_of High (last_n 22 bars) high /\ is_min_of Low (last_n 22 bars) low).
Proof.
  intros Hmax Hne. split.
  - unfold Calculate52WeekRange. rewrite (len_nonempty bars Hne).
    rewrite (scan_run bars 252 Hmax ltac:(vm_compute; intuition discriminate) Hne).
    destruct (fold_widen_nonempty (last_n 252 bars)) as (h & lo & E & M & N).
    { apply last_n_nonempty; [lia | assumption]. }
    change (Z.to_nat 252) with 252%nat. rewrite E. cbn [bind].
    exists h, lo. repeat split; apply M || apply N.
  - unfold Calculate30DayRange. rewrite (len_nonempty bars Hne).
    rewrite (scan_run bars 22 Hmax ltac:(vm_compute; intuition discriminate) Hne).
    destruct (fold_widen_nonempty (last_n 22 bars)) as (h & lo & E & M & N).
    { apply last_n_nonempty; [lia | assumption]. }
    change (Z.to_nat 22) with 22%nat. rewrite E. cbn [bind].
    exists h, lo. repeat split; apply M || apply N.
Qed.

(** X3. Both range scans fail, with an error and no panic, exactly on an
    empty series; on any other they return the highest High and the lowest
    Low of the last 252 (respectively 22) bars, or of all the bars when
    there are fewer, both finite. *)
Theorem range_scans_spec (bars : list OHLCV) :
  (len bars <= int_max)%Z ->
  (bars = [] ->
     Calculate52WeekRange bars = Returns (Fin 0, Fin 0, Some "no daily bars provided"%string) /\
     Calculate30DayRange bars = Returns (Fin 0, Fin 0, Some "no daily bars provided"%string)) /\
  (bars <> [] ->
     (exists high low : Q,
         Calculate52WeekRange bars = Returns (Fin high, Fin low, None) /\
         is_max_of High (last_n 252 bars) high /\ is_min_of Low (last_n 252 bars) low) /\
     (exists high low : Q,
         Calculate30DayRange bars = Returns (Fin high, Fin low, None) /\
         is_max_of High (last_n 22 bars) high /\ is_min_of Low (last_n 22 bars) low)).
Proof.
  intros Hmax. split.
  - intros ->. split; reflexivity.
  - intros Hne. exact (range_scans_values bars Hmax Hne).
Qed.

Lemma range_scans_spec_witness :
  exists high low : Q,
    Calculate30DayRange (bars_of [10; 12; 11]) = Returns (Fin high, Fin low, None) /\
    is_max_of High (bars_of [10; 12; 11]) high.
Proof.
  destruct (range_scans_spec (bars_of [10; 12; 11])) as [_ H].
  - vm_compute. discriminate.
  - destruct H as [_ (h & lo & E & M & _)]; [discriminate|].
    exists h, lo. split; [exact E | exact M].
Defined.

Lemma last_n_mono {A} (n m : nat) (l : list A) (x : A) :
  (n <= m)%nat -> x ∈ last_n n l -> x ∈ last_n m l.
Proof.
  unfold last_n. intros Hnm Hx.
  apply list_elem_of_lookup in Hx as [i Hi]. rewrite lookup_drop in Hi.
  apply list_elem_of_lookup.
  exists (length l - n + i - (length l - m))%nat. rewrite lookup_drop.
  rewrite <- Hi. f_equal. lia.
Qed.

Lemma last_n_elem {A} (n : nat) (l : list A) (x : A) : x ∈ last_n n l -> x ∈ l.
Proof.
  unfold last_n. intros Hx.
  apply list_elem_of_lookup in Hx as [i Hi]. rewrite lookup_drop in Hi.
  apply list_elem_of_lookup. eauto.
Qed.

(** X4. The 30-day range lies within the 52-week range of the same bars:
    the 30-day high is at most the 52-week high and the 30-day low at least
    the 52-week low; and when every bar has its Low at or below its High,
    each low is at or below its high. *)
Theorem thirty_day_range_within_52_week (bars : list OHLCV) :
  (len bars <= int_max)%Z -> bars <> [] ->
  exists h52 l52 h30 l30 : Q,
    Calculate52WeekRange bars = Returns (Fin h52, Fin l52, None) /\
    Calculate30DayRange bars = Returns (Fin h30, Fin l30, None) /\
    h30 <= h52 /\ l52 <= l30 /\
    (well_formed_bars bars -> l30 <= h30 /\ l52 <= h52).
Proof.
  intros Hmax Hne.
  destruct (range_scans_values bars Hmax Hne)
    as [(h52 & l52 & E52 & [_ M52] & [_ N52])
        (h30 & l30 & E30 & [[a [Ia Ea]] M30] & [[c [Ic Ec]] N30])].
  exists h52, l52, h30, l30.
  assert (c ∈ last_n 252 bars) as Ic' by (apply (last_n_mono 22 252); [lia | exact Ic]).
  assert (a ∈ last_n 252 bars) as Ia' by (apply (last_n_mono 22 252); [lia | exact Ia]).
  pose proof (M52 a Ia') as Ha. pose proof (N52 c Ic') as Hc.
  pose proof (M30 c Ic) as Hc30. pose proof (M52 c Ic') as Hc52.
  rewrite Ea in Ha. rewrite Ec in Hc.
  split; [exact E52|]. split; [exact E30|]. split; [exact Ha|]. split; [exact Hc|].
  intros Wf.
  assert (Low c <= High c) as L.
  { unfold well_formed_bars in Wf. rewrite Forall_forall in Wf.
    apply Wf. exact (last_n_elem _ _ _ Ic). }
  rewrite Ec in L. split; lra.
Qed.

Lemma thirty_day_range_within_52_week_witness :
  exists h52 l52 h30 l30 : Q,
    Calculate52WeekRange (bars_of [10; 12; 11]) = Returns (Fin h52, Fin l52, None) /\
    Calculate30DayRange (bars_of [10; 12; 11]) = Returns (Fin h30, Fin l30, None) /\
    h30 <= h52 /\ l52 <= l30.
Proof.
  destruct (thirty_day_range_within_52_week (bars_of [10; 12; 11]))
    as (h52 & l52 & h30 & l30 & E1 & E2 & H & L & _).
  - vm_compute. discriminate.
  - discriminate.
  - exists h52, l52, h30, l30. auto.
Defined.

(** Calculate52WeekPosition on a range that is not inverted: no error and a
    position in [0,1]. *)
Lemma position_of_proper_range (current high low : Q) :
  low <= high ->
  snd (calculator.Calculate52WeekPosition current high low) = None /\
  0 <= fst (calculator.Calculate52WeekPosition current high low) <= 1.
Proof.
  intros H. unfold calculator.Calculate52WeekPosition.
  destruct (eqb_spec high low); simpl; [split; [reflexivity | lra]|].
  destruct (ltb_spec high low); [lra|].
  set (x := (current - low) / (high - low)).
  destruct (ltb_spec x 0); destruct (gtb_spec 0 1); try lra;
    try destruct (gtb_spec x 1); simpl; split; try reflexivity; lra.
Qed.

(** X5. On bars that each have their Low at or below their High, the
    52-week range and the position fit together: whatever the current
    price, Calculate52WeekPosition applied to the range Calculate52WeekRange
    returns reports no error and a position in [0,1]. *)
Theorem position_in_scanned_range (bars : list OHLCV) (current : Q) :
  (len bars <= int_max)%Z -> bars <> [] -> well_formed_bars bars ->
  exists high low : Q,
    Calculate52WeekRange bars = Returns (Fin high, Fin low, None) /\
    snd (calculator.Calculate52WeekPosition current high low) = None /\
    0 <= fst (calculator.Calculate52WeekPosition current high low) <= 1.
Proof.
  intros Hmax Hne Wf.
  destruct (range_scans_values bars Hmax Hne)
    as [(h & l & E & [_ M] & [[c [Ic Ec]] N]) _].
  exists h, l. split; [exact E|].
  apply position_of_proper_range.
  assert (Low c <= High c) as L.
  { unfold well_formed_bars in Wf. rewrite Forall_forall in Wf.
    apply Wf. exact (last_n_elem _ _ _ Ic). }
  specialize (M c Ic). rewrite <- Ec. lra.
Qed.

Lemma position_in_scanned_range_witness :
  exists high low : Q,
    Calculate52WeekRange (bars_of [10; 12; 11]) = Returns (Fin high, Fin low, None) /\
    0 <= fst (calculator.Calculate52WeekPosition 50 high low) <= 1.
Proof.
  destruct (position_in_scanned_range (bars_of [10; 12; 11]) 50)
    as (h & l & E & _ & B).
  - vm_compute. discriminate.
  - discriminate.
  - repeat constructor; vm_compute; discriminate.
  - exists h, l. auto.
Defined.

(** * Properties of the weekly aggregation *)

Import aggregate AggregateSpec.


Lemma eta_OHLCV (d : OHLCV) :
  mkOHLCV (Time d) (Open d) (High d) (Low d) (Close d) (Volume d) = d.
Proof. now destruct d. Qed.

(** After a day has been added a week is under construction. *)
Lemma add_day_started (iso : Z -> Z * Z) (st : aggregation) (d : OHLCV) :
  weekStarted (add_day iso st d) = true.
Proof.
  unfold add_day. destruct (weekStarted st); [|reflexivity].
  simpl. destruct (negb _); reflexivity.
Qed.


(** The three ways a day ends up in the weeks: it opens the first week, it
    opens a new week behind the current one, or it is merged into the
    current week. *)
Lemma add_day_cases (iso : Z -> Z * Z) (st : aggregation) (d : OHLCV) :
  (weekStarted st = false /\ flush (add_day iso st d) = weekly st ++ [d]) \/
  (weekStarted st = true /\ weekKey iso (Time d) <> weekKey iso (Time (week st)) /\
   flush (add_day iso st d) = flush st ++ [d]) \/
  (weekStarted st = true /\ weekKey iso (Time d) = weekKey iso (Time (week st)) /\
   exists w, flush st = weekly st ++ [week st] /\
     flush (add_day iso st d) = weekly st ++ [w] /\
     Time w = Time (week st) /\ Open w = Open (week st) /\ Close w = Close d /\
     Volume w = Volume (week st) + Volume d /\
     Low w <= Low (week st) /\ Low w <= Low d /\
     High (week st) <= High w /\ High d <= High w /\
     (Low w = Low d \/ Low w = Low (week st)) /\
     (High w = High d \/ High w = High (week st))).
Proof.
  unfold add_day, flush. destruct (weekStarted st) eqn:Es; simpl.
  - right. destruct (Z.eqb_spec (weekKey iso (Time d)) (weekKey iso (Time (week st))))
      as [E|N]; simpl.
    + right. repeat split; try assumption.
      eexists. split; [reflexivity|]. split; [reflexivity|]. simpl.
      destruct (gtb_spec (High d) (High (week st)));
        destruct (ltb_spec (Low d) (Low (week st)));
        repeat split; try lra; auto.
    + left. repeat split; try assumption. now rewrite eta_OHLCV.
  - left. split; [reflexivity|]. now rewrite eta_OHLCV.
Qed.







Lemma spanned_app_l (d : OHLCV) (ws more : list OHLCV) :
  spanned d ws -> spanned d (ws ++ more).
Proof.
  intros (w & Iw & H). exists w. split; [|exact H].
  apply elem_of_app. now left.
Qed.

Lemma spanned_last (d w : OHLCV) (ws : list OHLCV) :
  Low w <= Low d -> High d <= High w -> spanned d (ws ++ [w]).
Proof.
  intros L H. exists w. split; [|split; assumption].
  apply elem_of_app. right. now apply list_elem_of_singleton.
Qed.

(** Adding a day keeps every earlier day spanned and the weeks well formed,
    and spans the day added. *)
Lemma add_day_spans (iso : Z -> Z * Z) (st : aggregation) (d : OHLCV) :
  (weekStarted st = false -> weekly st = []) ->
  let ws := flush st in
  let ws' := flush (add_day iso st d) in
  spanned d ws' /\
  (forall x, spanned x ws -> spanned x ws') /\
  (Low d <= High d -> well_formed_bars ws -> well_formed_bars ws').
Proof.
  intros Hinit. cbv zeta.
  destruct (add_day_cases iso st d)
    as [[Es ->] | [(Es & _ & ->) |
        (Es & _ & w & E & -> & _ & _ & _ & _ & Lw & Ld & Hw & Hd & _)]].
  - rewrite (Hinit Es). unfold flush. rewrite Es, (Hinit Es). simpl.
    split; [apply (spanned_last d d []); lra|].
    split; [intros x (w & Iw & _); now apply elem_of_nil in Iw|].
    intros L _. repeat constructor. exact L.
  - split; [apply spanned_last; lra|].
    split; [intros x; apply spanned_app_l|].
    intros L W. apply Forall_app. split; [exact W|]. repeat constructor. exact L.
  - rewrite E.
    split; [apply spanned_last; assumption|].
    split.
    + intros x (u & Iu & Lu & Hu). apply elem_of_app in Iu as [Iu|Iu].
      * exists u. split; [apply elem_of_app; now left | split; assumption].
      * apply list_elem_of_singleton in Iu as ->. apply spanned_last; lra.
    + intros L W. apply Forall_app in W as [W1 W2].
      apply Forall_app. split; [exact W1|].
      apply Forall_singleton in W2. apply Forall_singleton. lra.
Qed.

Lemma fold_add_day_spans (iso : Z -> Z * Z) (l : list OHLCV) :
  forall st : aggregation,
    (weekStarted st = false -> weekly st = []) ->
    let ws' := flush (fold_left (add_day iso) l st) in
    (forall d, d ∈ l -> spanned d ws') /\
    (forall x, spanned x (flush st) -> spanned x ws') /\
    (well_formed_bars l -> well_formed_bars (flush st) -> well_formed_bars ws').
Proof.
  induction l as [|d l IH]; intros st Hinit; cbv zeta.
  - simpl. split; [intros d Hd; now apply elem_of_nil in Hd|].
    split; auto.
  - cbn [fold_left].
    destruct (add_day_spans iso st d Hinit) as (Sd & Sx & Wd).
    destruct (IH (add_day iso st d)) as (Sl & Sk & Wl).
    { rewrite add_day_started. discriminate. }
    split; [|split].
    + intros x Hx. apply elem_of_cons in Hx as [->|Hx]; [apply Sk, Sd | apply Sl, Hx].
    + intros x Hx. apply Sk, Sx, Hx.
    + intros W Wst. apply Forall_cons in W as [Wh Wt].
      apply Wl; [exact Wt|]. apply Wd; assumption.
Qed.

(** X7. Every daily bar's trading range lies within the range of one of the
    weekly bars aggregated from the series; and if every daily bar has its
    Low at or below its High, so has every weekly bar. *)
Theorem aggregation_spans_days (iso : Z -> Z * Z) (daily : list OHLCV) :
  let weeks := aggregateDailyToWeekly iso daily in
  (forall d, d ∈ daily -> spanned d weeks) /\
  (well_formed_bars daily -> well_formed_bars weeks).
Proof.
  cbv zeta. unfold aggregateDailyToWeekly.
  destruct daily as [|d0 rest].
  { simpl. split; [intros d Hd; now apply elem_of_nil in Hd | constructor]. }
  change (len (d0 :: rest) =? 0)%Z with false. cbv iota.
  destruct (fold_add_day_spans iso (d0 :: rest)
              (mkAggregation [] (mkOHLCV 0 0 0 0 0 0) false)) as (S & _ & W).
  { reflexivity. }
  split; [exact S|]. intros Wf. apply W; [exact Wf | constructor].
Qed.

Lemma aggregation_spans_days_witness :
  well_formed_bars (aggregateDailyToWeekly week_of_day ten_days) /\
  length (aggregateDailyToWeekly week_of_day ten_days) = 2%nat.
Proof.
  split; [|reflexivity].
  apply (proj2 (aggregation_spans_days week_of_day ten_days)).
  repeat constructor; vm_compute; discriminate.
Defined.

(** ** Weeks in the aggregation *)

Lemma adjacent_distinct_snoc {A} (key : A -> Z) (l : list A) (a b : A) :
  adjacent_distinct key (l ++ [a]) -> key a <> key b ->
  adjacent_distinct key ((l ++ [a]) ++ [b]).
Proof.
  intros H N. induction l as [|x l IH]; simpl in *; [auto|].
  destruct (l ++ [a]) as [|y r] eqn:E; [destruct l; discriminate|].
  simpl in *. destruct H as [H1 H2]. split; [exact H1 | exact (IH H2)].
Qed.

Lemma adjacent_distinct_last {A} (key : A -> Z) (l : list A) (a a' : A) :
  key a' = key a -> adjacent_distinct key (l ++ [a]) -> adjacent_distinct key (l ++ [a']).
Proof.
  intros K. induction l as [|x l IH]; simpl; [auto|].
  destruct l as [|y r]; simpl in *.
  - intros [H _]. split; [congruence | exact I].
  - intros [H1 H2]. split; [exact H1 | exact (IH H2)].
Qed.

Lemma add_day_adjacent (iso : Z -> Z * Z) (st : aggregation) (d : OHLCV) :
  (weekStarted st = false -> weekly st = []) ->
  adjacent_distinct (fun b => weekKey iso (Time b)) (flush st) ->
  adjacent_distinct (fun b => weekKey iso (Time b)) (flush (add_day iso st d)).
Proof.
  intros Hinit H.
  destruct (add_day_cases iso st d)
    as [[Es ->] | [(Es & N & ->) | (Es & _ & w & E & -> & Tw & _)]].
  - rewrite (Hinit Es). exact I.
  - unfold flush in *. rewrite Es in *.
    apply adjacent_distinct_snoc; [exact H | congruence].
  - rewrite E in H.
    apply (adjacent_distinct_last _ _ (week st) w); [now rewrite Tw | exact H].
Qed.

Lemma fold_add_day_adjacent (iso : Z -> Z * Z) (l : list OHLCV) :
  forall st : aggregation,
    (weekStarted st = false -> weekly st = []) ->
    adjacent_distinct (fun b => weekKey iso (Time b)) (flush st) ->
    adjacent_distinct (fun b => weekKey iso (Time b))
      (flush (fold_left (add_day iso) l st)).
Proof.
  induction l as [|d l IH]; intros st Hinit H; simpl; [exact H|].
  apply IH; [rewrite add_day_started; discriminate | now apply add_day_adjacent].
Qed.

Lemma fold_add_day_new_weeks (iso : Z -> Z * Z) (l : list OHLCV) :
  forall st : aggregation,
    weekStarted st = true ->
    adjacent_distinct (fun b => weekKey iso (Time b)) (week st :: l) ->
    flush (fold_left (add_day iso) l st) = flush st ++ l.
Proof.
  induction l as [|d l IH]; intros st Es H; simpl; [now rewrite app_nil_r|].
  cbn [adjacent_distinct] in H. destruct H as [N H].
  destruct (add_day_cases iso st d)
    as [[Es' _] | [(_ & _ & F) | (_ & K & _)]]; try congruence.
  rewrite IH.
  - rewrite F, <- app_assoc. reflexivity.
  - apply add_day_started.
  - assert (Ew : week (add_day iso st d) = d).
    { unfold add_day. rewrite Es. cbn [negb].
      destruct (Z.eqb_spec (weekKey iso (Time d)) (weekKey iso (Time (week st))));
        [congruence|]. cbn [negb week]. apply eta_OHLCV. }
    rewrite Ew. exact H.
Qed.

(** X9. A daily series in which every day falls in another ISO week than
    the day before is returned unchanged: aggregation merges only days of
    one and the same week. *)
Theorem aggregation_of_separate_weeks (iso : Z -> Z * Z) (daily : list OHLCV) :
  adjacent_distinct (fun b => weekKey iso (Time b)) daily ->
  aggregateDailyToWeekly iso daily = daily.
Proof.
  intros H. unfold aggregateDailyToWeekly.
  destruct daily as [|d0 rest]; [reflexivity|].
  change (len (d0 :: rest) =? 0)%Z with false. cbv iota. cbn [fold_left].
  assert (E0 : add_day iso (mkAggregation [] (mkOHLCV 0 0 0 0 0 0) false) d0
               = mkAggregation [] d0 true).
  { unfold add_day. cbn [weekStarted negb weekly]. now rewrite eta_OHLCV. }
  rewrite E0, fold_add_day_new_weeks; [reflexivity | reflexivity | exact H].
Qed.

Lemma aggregation_of_separate_weeks_witness :
  aggregateDailyToWeekly week_of_day (map (fun t => mkOHLCV t 1 2 0 1 5) [0; 7; 15]%Z)
    = map (fun t => mkOHLCV t 1 2 0 1 5) [0; 7; 15]%Z.
Proof.
  apply (aggregation_of_separate_weeks week_of_day).
  vm_compute. repeat split; discriminate.
Defined.

Import KeySpec.

Lemma fold_add_day_keys (iso : Z -> Z * Z) (l : list OHLCV) :
  forall st : aggregation,
    weekStarted st = true ->
    map (fun b => weekKey iso (Time b)) (flush (fold_left (add_day iso) l st)) =
      map (fun b => weekKey iso (Time b)) (weekly st)
      ++ weekKey iso (Time (week st))
         :: run_keys (Some (weekKey iso (Time (week st))))
              (map (fun b => weekKey iso (Time b)) l).
Proof.
  induction l as [|d l IH]; intros st Hs.
  - cbn [fold_left map run_keys]. unfold flush. rewrite Hs, map_app. reflexivity.
  - cbn [fold_left map run_keys].
    rewrite (IH (add_day iso st d) (add_day_started iso st d)).
    unfold add_day. rewrite Hs. cbn [negb].
    destruct (Z.eqb_spec (weekKey iso (Time d)) (weekKey iso (Time (week st)))) as [E|N];
      cbn [negb weekly week Time].
    + rewrite E. reflexivity.
    + rewrite map_app. cbn [map]. rewrite <- app_assoc. reflexivity.
Qed.

(** X8. The weekly bars of an aggregation follow the weeks of the daily
    series one for one: their week keys are the keys of the days with every
    run of consecutive days of one week cut down to a single key, so each
    change of week in the daily series opens exactly one new bar, and no
    two consecutive weekly bars fall in the same ISO week. *)
Theorem aggregation_separates_weeks (iso : Z -> Z * Z) (daily : list OHLCV) :
  let key := fun b => weekKey iso (Time b) in
  map key (aggregateDailyToWeekly iso daily) = run_keys None (map key daily) /\
  adjacent_distinct key (aggregateDailyToWeekly iso daily).
Proof.
  cbv zeta. split.
  - unfold aggregateDailyToWeekly. destruct daily as [|d0 rest]; [reflexivity|].
    change (len (d0 :: rest) =? 0)%Z with false; cbv iota.
    cbn [fold_left].
    rewrite (fold_add_day_keys iso rest _ (add_day_started iso _ d0)).
    reflexivity.
  - unfold aggregateDailyToWeekly. destruct (len daily =? 0)%Z; [exact I|].
    apply fold_add_day_adjacent; [reflexivity | exact I].
Qed.

(** * Properties of the collector *)

Import collector CollectSpec.

Lemma SMA_outcome (prices : list Q) (period : Z) :
  (len prices <= int_max)%Z -> (0 < period)%Z ->
  exists (v : Q) (err : error),
    CalculateSMA prices period = Returns (v, err) /\
    ((len prices < period)%Z -> err <> None) /\
    ((period <= len prices)%Z -> err = None).
Proof.
  intros Hmax Hp. destruct (Z.lt_ge_cases (len prices) period) as [S|L].
  - exists 0, (Some "not enough data for SMA calculation"%string).
    unfold CalculateSMA.
    destruct (Z.leb_spec period 0); [lia|].
    destruct (Z.ltb_spec (len prices) period); [|lia].
    repeat split; [discriminate | lia].
  - rewrite (CalculateSMA_run prices period Hmax ltac:(lia)).
    eexists _, None. repeat split. lia.
Qed.

Lemma RSI14_outcome (bars : list OHLCV) :
  (len bars <= int_max)%Z ->
  exists r : Q,
    CalculateRSI bars 14 = Returns (r, None) /\ 0 <= r <= 100 /\
    ((len bars < 15)%Z -> r = 50.0).
Proof.
  intros Hmax.
  destruct (CalculateRSI_in_range bars 14 ltac:(vm_compute; intuition discriminate) Hmax)
    as [Short Long].
  destruct (Z.lt_ge_cases (len bars) 15) as [S|L].
  - exists 50.0. split; [apply Short; lia|]. split; [lra | reflexivity].
  - destruct (Long ltac:(lia)) as (r & E & _ & _ & B).
    exists r. repeat split; try assumption; try apply B. lia.
Qed.

Lemma position_clamped (current high low : Q) :
  snd (Calculate52WeekPosition current high low) = None ->
  0 <= fst (Calculate52WeekPosition current high low) <= 1.
Proof.
  unfold Calculate52WeekPosition.
  destruct (eqb_spec high low); simpl; [intros _; lra|].
  destruct (ltb_spec high low); [discriminate|].
  set (x := (current - low) / (high - low)). intros _.
  destruct (ltb_spec x 0); destruct (gtb_spec 0 1); try lra;
    try destruct (gtb_spec x 1); simpl; lra.
Qed.

Lemma position_flat (price : Q) :
  Calculate52WeekPosition price price price = (0.5, None).
Proof.
  unfold Calculate52WeekPosition.
  destruct (eqb_spec price price) as [_|N]; [reflexivity | exfalso; apply N; reflexivity].
Qed.

(** What Collect returns when the three fetches succeed. *)
Lemma Collect_indicators (f : Fetcher) (symbol : string)
    (daily weekly : list OHLCV) (price : Q) :
  FetchDailyBars f symbol 300 = (daily, None) ->
  FetchWeeklyBars f symbol 60 = (weekly, None) ->
  FetchCurrentPrice f symbol = (price, None) ->
  (len daily <= int_max)%Z -> (len weekly <= int_max)%Z ->
  exists ind : MarketIndicators,
    Collect f symbol = Returns (Some ind, None) /\
    CurrentPrice ind = price /\
    (0 <= WeeklyRSI ind <= 100 /\ 0 <= DailyRSI ind <= 100 /\
     0 <= Position52w ind <= 1) /\
    (((len daily < 200)%Z -> MA200 ind = price) /\
     ((len weekly < 20)%Z -> MA20w ind = price) /\
     ((len weekly < 50)%Z -> MA50w ind = price) /\
     ((len weekly < 15)%Z -> WeeklyRSI ind = 50.0) /\
     ((len daily < 15)%Z -> DailyRSI ind = 50.0) /\
     (daily = [] ->
        High52w ind = price /\ Low52w ind = price /\
        High30d ind = price /\ Low30d ind = price /\ Position52w ind = 0.5)).
Proof.
  intros Fd Fw Fp Hd Hw. unfold Collect. rewrite Fd, Fw, Fp.
  unfold CalculateMA200, CalculateMA20w, CalculateMA50w.
  pose proof (len_extractCloses daily) as Ld.
  pose proof (len_extractCloses weekly) as Lw.
  destruct (SMA_outcome (extractCloses daily) 200) as (v1 & e1 & -> & S1 & _);
    [lia | lia |]. cbn [bind].
  destruct (SMA_outcome (extractCloses weekly) 20) as (v2 & e2 & -> & S2 & _);
    [lia | lia |]. cbn [bind].
  destruct (SMA_outcome (extractCloses weekly) 50) as (v3 & e3 & -> & S3 & _);
    [lia | lia |]. cbn [bind].
  destruct (RSI14_outcome weekly Hw) as (r1 & -> & B1 & D1). cbn [bind].
  destruct (RSI14_outcome daily Hd) as (r2 & -> & B2 & D2). cbn [bind].
  assert (M1 : (len daily < 200)%Z -> match e1 with Some _ => price | None => v1 end = price)
    by (intros H; specialize (S1 ltac:(lia)); now destruct e1).
  assert (M2 : (len weekly < 20)%Z -> match e2 with Some _ => price | None => v2 end = price)
    by (intros H; specialize (S2 ltac:(lia)); now destruct e2).
  assert (M3 : (len weekly < 50)%Z -> match e3 with Some _ => price | None => v3 end = price)
    by (intros H; specialize (S3 ltac:(lia)); now destruct e3).
  destruct daily as [|b bs] eqn:Eb.
  - change (Calculate52WeekRange [])
      with (Returns (Fin 0, Fin 0, Some "no daily bars provided"%string)).
    change (Calculate30DayRange [])
      with (Returns (Fin 0, Fin 0, Some "no daily bars provided"%string)).
    cbn [bind]. rewrite position_flat.
    eexists. split; [reflexivity|].
    cbn [CurrentPrice MA200 MA20w MA50w WeeklyRSI DailyRSI High52w Low52w High30d Low30d
         Position52w].
    repeat split; try assumption; try apply B1; try apply B2; lra.
  - destruct (range_scans_values (b :: bs) Hd ltac:(discriminate))
      as [(h52 & l52 & -> & _) (h30 & l30 & -> & _)].
    cbn [bind finite].
    pose proof (position_clamped price h52 l52) as P.
    destruct (Calculate52WeekPosition price h52 l52) as [p [er|]];
      (eexists; split; [reflexivity|]);
      cbn [CurrentPrice MA200 MA20w MA50w WeeklyRSI DailyRSI High52w Low52w High30d
           Low30d Position52w];
      (split; [reflexivity|]);
      (split; [split; [exact B1|]; split; [exact B2|]; simpl in P; try lra; now apply P|]);
      repeat split; try assumption; discriminate.
Qed.

Lemma Collect_success_inv (f : Fetcher) (symbol : string) (ind : MarketIndicators) :
  Collect f symbol = Returns (Some ind, None) ->
  exists daily weekly price,
    FetchDailyBars f symbol 300 = (daily, None) /\
    FetchWeeklyBars f symbol 60 = (weekly, None) /\
    FetchCurrentPrice f symbol = (price, None).
Proof.
  unfold Collect. intros H.
  destruct (FetchDailyBars f symbol 300) as [daily [e|]]; [discriminate|].
  destruct (FetchWeeklyBars f symbol 60) as [weekly [e|]]; [discriminate|].
  destruct (FetchCurrentPrice f symbol) as [price [e|]]; [discriminate|].
  eexists _, _, _. repeat split.
Qed.

(** X10. Collect never panics and fails exactly when one of its three
    fetches fails, with the error of the first failure under its own
    prefix; no indicator calculation can make it fail. *)
Theorem Collect_fails_only_on_fetch (f : Fetcher) (symbol : string) :
  bounded_answers f symbol ->
  let daily := FetchDailyBars f symbol 300 in
  let weekly := FetchWeeklyBars f symbol 60 in
  let price := FetchCurrentPrice f symbol in
  (forall err, snd daily = Some err ->
     Collect f symbol = Returns (None, Some ("fetch daily bars: " ++ err)%string)) /\
  (forall err, snd daily = None -> snd weekly = Some err ->
     Collect f symbol = Returns (None, Some ("fetch weekly bars: " ++ err)%string)) /\
  (forall err, snd daily = None -> snd weekly = None -> snd price = Some err ->
     Collect f symbol = Returns (None, Some ("fetch current price: " ++ err)%string)) /\
  (snd daily = None -> snd weekly = None -> snd price = None ->
     exists ind, Collect f symbol = Returns (Some ind, None)).
Proof.
  intros [Bd Bw]. cbv zeta.
  repeat split.
  - intros err E. unfold Collect.
    destruct (FetchDailyBars f symbol 300) as [d e]. simpl in E. now subst e.
  - intros err E1 E2. unfold Collect.
    destruct (FetchDailyBars f symbol 300) as [d e]. simpl in E1. subst e.
    destruct (FetchWeeklyBars f symbol 60) as [w e]. simpl in E2. now subst e.
  - intros err E1 E2 E3. unfold Collect.
    destruct (FetchDailyBars f symbol 300) as [d e]. simpl in E1. subst e.
    destruct (FetchWeeklyBars f symbol 60) as [w e]. simpl in E2. subst e.
    destruct (FetchCurrentPrice f symbol) as [p e]. simpl in E3. now subst e.
  - intros E1 E2 E3.
    destruct (FetchDailyBars f symbol 300) as [d e] eqn:Fd. simpl in E1, Bd. subst e.
    destruct (FetchWeeklyBars f symbol 60) as [w e] eqn:Fw. simpl in E2, Bw. subst e.
    destruct (FetchCurrentPrice f symbol) as [p e] eqn:Fp. simpl in E3. subst e.
    destruct (Collect_indicators f symbol d w p Fd Fw Fp Bd Bw) as (ind & E & _).
    eauto.
Qed.

Lemma Collect_fails_only_on_fetch_witness :
  exists ind, Collect short_history "SPX500" = Returns (Some ind, None).
Proof.
  apply (Collect_fails_only_on_fetch short_history "SPX500");
    try reflexivity.
  split; vm_compute; discriminate.
Defined.

(** X11. Whatever bars the data source answers with, the indicators Collect
    returns carry the fetched price, both RSI values in [0,100] and a
    52-week position in [0,1]. *)
Theorem Collect_indicators_in_range (f : Fetcher) (symbol : string)
    (ind : MarketIndicators) :
  bounded_answers f symbol ->
  Collect f symbol = Returns (Some ind, None) ->
  CurrentPrice ind = fst (FetchCurrentPrice f symbol) /\
  0 <= WeeklyRSI ind <= 100 /\ 0 <= DailyRSI ind <= 100 /\
  0 <= Position52w ind <= 1.
Proof.
  intros [Bd Bw] H.
  destruct (Collect_success_inv f symbol ind H) as (d & w & p & Fd & Fw & Fp).
  rewrite Fd in Bd. rewrite Fw in Bw. simpl in Bd, Bw.
  destruct (Collect_indicators f symbol d w p Fd Fw Fp Bd Bw) as (ind' & E & P & R & _).
  rewrite E in H. injection H as <-. rewrite Fp. simpl.
  split; [exact P | exact R].
Qed.

Lemma Collect_indicators_in_range_witness :
  0 <= Position52w short_history_indicators <= 1.
Proof.
  apply (Collect_indicators_in_range short_history "SPX500" short_history_indicators).
  - split; vm_compute; discriminate.
  - reflexivity.
Defined.

(** X12. With too little history Collect falls back instead of failing: the
    current price stands in for MA200 under 200 daily bars, for MA20w under
    20 and for MA50w under 50 weekly bars; an RSI is 50 under 15 bars; and
    with no daily bars at all both ranges collapse to the current price and
    the position is 0.5. *)
Theorem Collect_short_history (f : Fetcher) (symbol : string) (ind : MarketIndicators) :
  bounded_answers f symbol ->
  Collect f symbol = Returns (Some ind, None) ->
  let daily := fst (FetchDailyBars f symbol 300) in
  let weekly := fst (FetchWeeklyBars f symbol 60) in
  ((len daily < 200)%Z -> MA200 ind = CurrentPrice ind) /\
  ((len weekly < 20)%Z -> MA20w ind = CurrentPrice ind) /\
  ((len weekly < 50)%Z -> MA50w ind = CurrentPrice ind) /\
  ((len weekly < 15)%Z -> WeeklyRSI ind = 50.0) /\
  ((len daily < 15)%Z -> DailyRSI ind = 50.0) /\
  (daily = [] ->
     High52w ind = CurrentPrice ind /\ Low52w ind = CurrentPrice ind /\
     High30d ind = CurrentPrice ind /\ Low30d ind = CurrentPrice ind /\
     Position52w ind = 0.5).
Proof.
  intros [Bd Bw] H. cbv zeta.
  destruct (Collect_success_inv f symbol ind H) as (d & w & p & Fd & Fw & Fp).
  rewrite Fd in *. rewrite Fw in *. simpl in Bd, Bw. simpl.
  destruct (Collect_indicators f symbol d w p Fd Fw Fp Bd Bw) as (ind' & E & P & _ & D).
  rewrite E in H. injection H as <-. rewrite P. exact D.
Qed.

Lemma Collect_short_history_witness :
  MA200 short_history_indicators = CurrentPrice short_history_indicators /\
  WeeklyRSI short_history_indicators = 50.0.
Proof.
  destruct (Collect_short_history short_history "SPX500" short_history_indicators)
    as (M & _ & _ & R & _).
  - split; vm_compute; discriminate.
  - reflexivity.
  - split; [apply M | apply R]; reflexivity.
Defined.

Lemma ltb_irrefl (a : Q) : (a <? a) = false.
Proof. destruct (ltb_spec a a); [lra | reflexivity]. Qed.

(** The signal for indicators in which the current price stands in for all
    three moving averages, both RSI are 50 and the position is 0.5. *)
Lemma Evaluate_neutral (rt : GoRuntime) (p h52 l52 h30 l30 : Q) :
  let ind := mkIndicators p p p p 50.0 50.0 h52 l52 h30 l30 0.5 in
  map RawScore (Factors (Evaluate rt ind)) = [if p =? 0 then 0 else 0.5; 0; 0; 0; 0] /\
  TotalScore (Evaluate rt ind) == (if p =? 0 then 0 else 0.175) /\
  Tier (Evaluate rt ind) = mkTier "正常定投" 1.0 0 /\
  WarningMsg (Evaluate rt ind) = ""%string.
Proof.
  cbv zeta.
  set (ind := mkIndicators p p p p 50.0 50.0 h52 l52 h30 l30 0.5).
  assert (F1 : RawScore (scoreMA200Deviation rt ind) = (if p =? 0 then 0 else 0.5) /\
               Weighted (scoreMA200Deviation rt ind)
                 = (if p =? 0 then 0 else 0.5 * 0.35)).
  { unfold scoreMA200Deviation, ind. cbn [MA200 CurrentPrice].
    destruct (p =? 0); [split; reflexivity|].
    assert (D : (p - p) / p * 100 == 0) by (unfold Qdiv; ring).
    set (dev := (p - p) / p * 100) in *. clearbody dev. cbn [RawScore Weighted].
    destruct (leb_spec dev (-20)); [lra|]. destruct (leb_spec dev (-10)); [lra|].
    destruct (leb_spec dev (-5)); [lra|]. destruct (leb_spec dev 0); [|lra].
    split; reflexivity. }
  assert (F5 : scoreTrendTracker rt ind = mkFactorScore "趋势追踪" 0 0.15 (0 * 0.15) "震荡").
  { unfold scoreTrendTracker, ind. cbn [CurrentPrice MA20w MA50w High30d Low30d].
    unfold gtb. rewrite !ltb_irrefl. reflexivity. }
  destruct F1 as [R1 W1].
  unfold Evaluate. cbn [Factors TotalScore Tier WarningMsg map].
  rewrite R1, W1, F5.
  change (scoreWeeklyRSI rt ind) with (mkFactorScore "周线RSI" 0 0.25 (0 * 0.25)
    ("RSI=" ++ sprintf_round0 rt 50.0)).
  change (scoreDailyRSI rt ind) with (mkFactorScore "日线RSI" 0 0.15 (0 * 0.15)
    ("RSI=" ++ sprintf_round0 rt 50.0)).
  cbn [RawScore Weighted].
  destruct (p =? 0); repeat split; reflexivity.
Qed.

(** X13. A cold start is scored as a normal week: when the data source
    answers with a price but no bars at all, the signal Evaluate derives
    from the collected indicators has the raw scores +0.5 for MA200 (0 if
    the price is zero) and 0 for every other factor, total score 0.175
    (respectively 0), the normal tier with multiplier 1.0 and no reserve
    use, and no take-profit warning. *)
Theorem cold_start_signal (rt : GoRuntime) (f : Fetcher) (symbol : string)
    (ind : MarketIndicators) :
  Collect f symbol = Returns (Some ind, None) ->
  fst (FetchDailyBars f symbol 300) = [] ->
  fst (FetchWeeklyBars f symbol 60) = [] ->
  let p := CurrentPrice ind in
  map RawScore (Factors (Evaluate rt ind)) = [if p =? 0 then 0 else 0.5; 0; 0; 0; 0] /\
  TotalScore (Evaluate rt ind) == (if p =? 0 then 0 else 0.175) /\
  Tier (Evaluate rt ind) = mkTier "正常定投" 1.0 0 /\
  WarningMsg (Evaluate rt ind) = ""%string.
Proof.
  intros H Ed Ew.
  destruct (Collect_success_inv f symbol ind H) as (d & w & p & Fd & Fw & Fp).
  rewrite Fd in Ed. rewrite Fw in Ew. simpl in Ed, Ew. subst d w.
  destruct (Collect_indicators f symbol [] [] p Fd Fw Fp)
    as (ind' & E & P & _ & M1 & M2 & M3 & R1 & R2 & Z);
    [vm_compute; discriminate | vm_compute; discriminate |].
  rewrite E in H. injection H as <-.
  destruct (Z eq_refl) as (_ & _ & _ & _ & Pos).
  specialize (M1 ltac:(reflexivity)). specialize (M2 ltac:(reflexivity)).
  specialize (M3 ltac:(reflexivity)). specialize (R1 ltac:(reflexivity)).
  specialize (R2 ltac:(reflexivity)).
  destruct ind' as [cp m200 m20 m50 wr dr h52 l52 h30 l30 pos]. simpl in *. subst.
  apply Evaluate_neutral.
Qed.

Lemma cold_start_signal_witness :
  Tier (Evaluate quiet_runtime no_history_indicators) = mkTier "正常定投" 1.0 0.
Proof.
  destruct (cold_start_signal quiet_runtime no_history "SPX500" no_history_indicators)
    as (_ & _ & T & _); [reflexivity | reflexivity | reflexivity | exact T].
Defined.

(** * Further properties of the fund state machine *)

Import FundLedger.

Lemma alloc_elems (l : list Q) (extra : nat) :
  elems (fst (alloc [] l extra)) (snd (alloc [] l extra)) = l /\
  wf_slice (fst (alloc [] l extra)) (snd (alloc [] l extra)).
Proof.
  destruct l as [|x l]; [split; [reflexivity | unfold wf_slice, backing; simpl; lia]|].
  unfold alloc, elems, wf_slice, backing. cbn [fst snd ptr off slen scap].
  change ([] ++ [(x :: l) ++ replicate extra 0]) with [(x :: l) ++ replicate extra 0].
  change ([(x :: l) ++ replicate extra 0] !!! length (@nil (list Q)))
    with ((x :: l) ++ replicate extra 0).
  rewrite drop_0. split.
  - apply take_app_length.
  - rewrite length_app, length_replicate. lia.
Qed.

Lemma set_RecentScores_twice {W V} (doc : FundStateOf W) (s : V) :
  set_RecentScores (set_RecentScores doc s) (RecentScores doc) = doc.
Proof. now destruct doc. Qed.

(** Loading a stored state yields a well-formed slice showing the stored
    scores, and a struct that reads as the stored one. *)
Lemma LoadState_stored (slack : nat -> nat) (doc : FundStateOf (list Q)) :
  exists h st,
    LoadState slack (Stored doc) = Some (h, st) /\
    observe h st = doc /\ wf_slice h (RecentScores st).
Proof.
  unfold LoadState.
  destruct (alloc_elems (RecentScores doc) (slack (length (RecentScores doc)))) as [E W].
  destruct (alloc [] (RecentScores doc) (slack (length (RecentScores doc)))) as [h s].
  simpl in E, W. exists h, (set_RecentScores doc s). split; [reflexivity|].
  split; [|exact W].
  unfold observe. cbn [RecentScores set_RecentScores]. rewrite E.
  now destruct doc.
Qed.

(** Every call either leaves the manager as it is or ends in one save of a
    manager that does not depend on the outside world; its reply never
    depends on it. *)
Lemma step_shape (slack : nat -> nat) (m : Manager) (c : call) :
  (mutates m c = false -> forall e, fst (step slack m c e) = m) /\
  (mutates m c = true -> exists X, forall e, fst (step slack m c e) = fst (save X e)) /\
  (forall e e', snd (step slack m c e) = snd (step slack m c e')).
Proof.
  destruct c; cbn [mutates step].
  - repeat split; try discriminate; auto.
  - split; [discriminate|]. split.
    + intros _. unfold CalculateWeeklyInvestment.
      destruct (append slack _ _ _) as [h scores]. eexists. intros e. reflexivity.
    + intros e e'. unfold CalculateWeeklyInvestment.
      destruct (append slack _ _ _) as [h scores]. reflexivity.
  - unfold CalculateBottomFishInvestment.
    destruct (BottomFishUsedThisWeek (state m)); cbn [negb].
    + repeat split; try discriminate; auto.
    + split; [discriminate|]. split; [|reflexivity].
      intros _. eexists. intros e. reflexivity.
  - split; [discriminate|]. split; [|reflexivity].
    intros _. unfold MonthlyReplenish. eexists. intros e. reflexivity.
  - split; [discriminate|]. split.
    + intros _. unfold QuarterlyRebalance.
      destruct (_ >? _); [|destruct (_ && _)]; eexists; intros e; reflexivity.
    + intros e e'. unfold QuarterlyRebalance.
      destruct (_ >? _); [|destruct (_ && _)]; reflexivity.
  - split; [discriminate|]. split; [|reflexivity].
    intros _. unfold ResetWeeklyFlags. eexists. intros e. reflexivity.
Qed.

Lemma save_written (m : Manager) (e : env) :
  write e = WriteOk ->
  file (fst (save m e)) =
    Stored (observe (heap (fst (save m e))) (state (fst (save m e)))).
Proof. intros H. unfold save. rewrite H. reflexivity. Qed.

(** X15. A failed write rolls nothing back: the state in memory after an
    operation, and its reply, are the same whether the write succeeds or
    fails (given the same clock reading); and whenever the write of a
    state-changing operation succeeds, the file holds exactly the state that
    is in memory. *)
Theorem persistence_is_write_through (slack : nat -> nat) (m : Manager) (c : call) :
  (forall e e', now e = now e' ->
     state (fst (step slack m c e)) = state (fst (step slack m c e')) /\
     heap (fst (step slack m c e)) = heap (fst (step slack m c e')) /\
     snd (step slack m c e) = snd (step slack m c e')) /\
  (forall e, mutates m c = true -> write e = WriteOk ->
     let m' := fst (step slack m c e) in
     file m' = Stored (observe (heap m') (state m'))) /\
  (forall e, mutates m c = false -> fst (step slack m c e) = m).
Proof.
  destruct (step_shape slack m c) as (Same & Saved & Reply).
  split; [|split].
  - intros e e' Hn. split; [|split; [|apply Reply]].
    + destruct (mutates m c); [|now rewrite !Same].
      destruct (Saved eq_refl) as [X HX]. now rewrite !HX, !save_state, Hn.
    + destruct (mutates m c); [|now rewrite !Same].
      destruct (Saved eq_refl) as [X HX]. now rewrite !HX, !save_heap.
  - intros e Hm Hw. cbv zeta. destruct (Saved Hm) as [X HX].
    rewrite HX. now apply save_written.
  - intros e Hm. now apply Same.
Qed.

Lemma persistence_is_write_through_witness :
  state (fst (step roomy example_manager DoMonthlyReplenish example_env)) =
  state (fst (step roomy example_manager DoMonthlyReplenish
                (mkEnv (now example_env) (WriteFailed Unreadable)))).
Proof.
  apply (proj1 (persistence_is_write_through roomy example_manager DoMonthlyReplenish)
           example_env (mkEnv (now example_env) (WriteFailed Unreadable))).
  reflexivity.
Defined.

Lemma NewManager_of_stored (slack : nat -> nat) (doc : FundStateOf (list Q))
    (budget : Q) (e : env) :
  write e = WriteOk ->
  exists m,
    NewManager slack (Stored doc) budget e = Some m /\
    wf_manager m /\
    file m = Stored (observe (heap m) (state m)) /\
    (~ MonthlyBudget doc == 0 ->
       observe (heap m) (state m) = set_UpdatedAt doc (now e)) /\
    (MonthlyBudget doc == 0 ->
       observe (heap m) (state m) =
         mkFundState budget (budget * 0.70 / 4.33) (budget * 0.70) (budget * 0.30)
           (BottomFishUsedThisWeek doc) (ConsecutiveHighScoreWeeks doc)
           (RecentScores doc) (LastReplenishAt doc) (LastRebalanceAt doc) (now e)).
Proof.
  intros Hw. unfold NewManager.
  destruct (LoadState_stored slack doc) as (h & st & -> & O & W).
  unfold save. rewrite Hw. cbn [heap state file].
  eexists. split; [reflexivity|]. unfold wf_manager. cbn [heap state file].
  assert (Eb : MonthlyBudget st = MonthlyBudget doc) by (rewrite <- O; reflexivity).
  rewrite Eb.
  destruct (eqb_spec (MonthlyBudget doc) 0) as [Z0|N0].
  - split; [exact W|]. split; [reflexivity|]. split; [intros C; contradiction|].
    intros _. rewrite <- O. unfold observe. reflexivity.
  - split; [destruct st; exact W|]. split; [reflexivity|].
    split; [|intros C; contradiction].
    intros _. rewrite <- O. unfold observe. now destruct st.
Qed.

(** X16. Restarting restores the fund exactly: after any state-changing
    operation whose write succeeded, NewManager on the file written gives,
    whatever monthly budget is configured, a manager whose state reads as the
    one in memory did, with only UpdatedAt stamped anew, as long as the stored
    monthly budget is not zero. *)
Theorem restart_restores_state
    (slack : nat -> nat) (m : Manager) (c : call) (e e' : env) (budget : Q) :
  mutates m c = true -> write e = WriteOk -> write e' = WriteOk ->
  let m1 := fst (step slack m c e) in
  ~ MonthlyBudget (state m1) == 0 ->
  exists m2,
    NewManager slack (file m1) budget e' = Some m2 /\
    wf_manager m2 /\
    observe (heap m2) (state m2) =
      set_UpdatedAt (observe (heap m1) (state m1)) (now e').
Proof.
  intros Hm Hw Hw'. cbv zeta. intros Hb.
  destruct (step_shape slack m c) as (_ & Saved & _).
  destruct (Saved Hm) as [X HX]. rewrite HX in *.
  rewrite (save_written X e Hw).
  destruct (NewManager_of_stored slack
              (observe (heap (fst (save X e))) (state (fst (save X e)))) budget e' Hw')
    as (m2 & E & W & _ & Keep & _).
  exists m2. split; [exact E|]. split; [exact W|]. apply Keep. exact Hb.
Qed.

Lemma restart_restores_state_witness :
  exists m2,
    NewManager roomy
      (file (fst (step roomy example_manager (DoWeekly example_signal) example_env)))
      99999 example_env = Some m2 /\
    RegularBalance (state m2) =
      RegularBalance
        (state (fst (step roomy example_manager (DoWeekly example_signal) example_env))).
Proof.
  destruct (restart_restores_state roomy example_manager (DoWeekly example_signal)
              example_env example_env 99999) as (m2 & E & _ & O);
    try reflexivity.
  - vm_compute. discriminate.
  - exists m2. split; [exact E|].
    apply (f_equal RegularBalance) in O. exact O.
Defined.

(** ** The ledger *)

Lemma step_ledger (slack : nat -> nat) (m : Manager) (c : call) (e : env) :
  let m' := fst (step slack m c e) in
  let r := snd (step slack m c e) in
  MonthlyBudget (state m') = MonthlyBudget (state m) /\
  WeeklyBaseN (state m') = WeeklyBaseN (state m) /\
  (is_rebalance c = false ->
     total m' + paid r ==
       total m + (if is_replenish c then MonthlyBudget (state m) else 0)) /\
  (is_rebalance c = true -> total m <= total m' /\ paid r = 0).
Proof.
  cbv zeta. unfold total. destruct c; cbn [step is_rebalance is_replenish].
  - cbn [fst snd paid].
    split; [reflexivity|]. split; [reflexivity|].
    split; [intros _; ring | discriminate].
  - pose proof (weekly_balances slack m signal e) as W. cbv zeta in W.
    destruct (CalculateWeeklyInvestment slack m signal e) as [m' [fa ru]].
    cbn [fst snd paid] in *. destruct W as (E & R1 & R2 & N & B & _).
    injection E as -> ->. rewrite R1, R2, N, B.
    split; [reflexivity|]. split; [reflexivity|].
    split; [intros _; ring | discriminate].
  - unfold CalculateBottomFishInvestment.
    destruct (BottomFishUsedThisWeek (state m)); cbn [fst snd paid].
    + split; [reflexivity|]. split; [reflexivity|].
      split; [intros _; ring | discriminate].
    + rewrite save_state.
      cbn [state set_UpdatedAt set_BottomFishUsedThisWeek set_ReserveBalance
           MonthlyBudget WeeklyBaseN RegularBalance ReserveBalance].
      split; [reflexivity|]. split; [reflexivity|].
      split; [intros _; ring | discriminate].
  - unfold MonthlyReplenish. cbn [fst snd paid]. rewrite save_state.
    cbn [state set_UpdatedAt set_RegularBalance set_ReserveBalance
         MonthlyBudget WeeklyBaseN RegularBalance ReserveBalance].
    split; [reflexivity|]. split; [reflexivity|].
    split; [intros _; ring | discriminate].
  - unfold QuarterlyRebalance.
    destruct (gtb_spec (ReserveBalance (state m)) (6 * WeeklyBaseN (state m))).
    { cbn [fst snd paid]. rewrite save_state.
      cbn [state set_UpdatedAt set_RegularBalance set_ReserveBalance
           MonthlyBudget WeeklyBaseN RegularBalance ReserveBalance].
      split; [reflexivity|]. split; [reflexivity|].
      split; [discriminate|]. intros _. split; [lra | reflexivity]. }
    destruct ((ConsecutiveHighScoreWeeks (state m) >=? 4)%Z); cbn [andb];
      [destruct (ltb_spec (ReserveBalance (state m)) (3 * WeeklyBaseN (state m)))|];
      cbn [fst snd paid]; rewrite save_state;
      cbn [state set_UpdatedAt set_RegularBalance set_ReserveBalance
           MonthlyBudget WeeklyBaseN RegularBalance ReserveBalance];
      (split; [reflexivity|]); (split; [reflexivity|]);
      (split; [discriminate|]); intros _; (split; [lra | reflexivity]).
  - unfold ResetWeeklyFlags. cbn [fst snd paid]. rewrite save_state.
    cbn [state set_UpdatedAt set_BottomFishUsedThisWeek
         MonthlyBudget WeeklyBaseN RegularBalance ReserveBalance].
    split; [reflexivity|]. split; [reflexivity|].
    split; [intros _; ring | discriminate].
Qed.

Lemma run_ledger (slack : nat -> nat) (cs : list (call * env)) :
  forall m : Manager,
    let m' := fst (run slack m cs) in
    let rs := snd (run slack m cs) in
    let added := inject_Z (Z.of_nat (replenishments cs)) * MonthlyBudget (state m) in
    MonthlyBudget (state m') = MonthlyBudget (state m) /\
    WeeklyBaseN (state m') = WeeklyBaseN (state m) /\
    total m + added <= total m' + paid_out rs /\
    (forallb (fun ce => negb (is_rebalance (fst ce))) cs = true ->
       total m' + paid_out rs == total m + added).
Proof.
  induction cs as [|[c e] cs IH]; intros m; cbv zeta.
  - cbn [run fst snd].
    change (replenishments []) with 0%nat. change (paid_out []) with 0.
    change (inject_Z (Z.of_nat 0)) with 0.
    split; [reflexivity|]. split; [reflexivity|].
    split; [lra | intros _; ring].
  - rewrite run_cons. cbn [fst snd].
    destruct (step_ledger slack m c e) as (B & N & Eq & Ge).
    destruct (IH (fst (step slack m c e))) as (B' & N' & L' & E').
    rewrite B in B', L', E'. rewrite N in N'.
    split; [exact B'|]. split; [exact N'|].
    unfold paid_out in *. cbn [map Qsum fold_right].
    change (fold_right Qplus 0 (map paid (snd (run slack (fst (step slack m c e)) cs))))
      with (Qsum (map paid (snd (run slack (fst (step slack m c e)) cs)))) in *.
    unfold replenishments in *. cbn [List.filter fst].
    set (k := inject_Z (Z.of_nat (length (List.filter _ cs)))) in *.
    set (P := Qsum _) in *. set (T := total (fst (run slack _ cs))) in *.
    assert (K : inject_Z (Z.of_nat
                  (length (if is_replenish c
                           then (c, e) :: List.filter (fun ce => is_replenish (fst ce)) cs
                           else List.filter (fun ce => is_replenish (fst ce)) cs)))
                == (if is_replenish c then 1 else 0) + k).
    { subst k. destruct (is_replenish c); cbn [length]; [|ring].
      rewrite Nat2Z.inj_succ. unfold Z.succ. rewrite inject_Z_plus.
      change (inject_Z 1) with 1. ring. }
    rewrite K. clearbody k P T.
    destruct (is_rebalance c) eqn:Er.
    + destruct (Ge eq_refl) as [G ->].
      assert (is_replenish c = false) as -> by (destruct c; try discriminate; reflexivity).
      split; [lra|]. cbn [forallb fst negb andb]. rewrite Er. discriminate.
    + specialize (Eq eq_refl). split.
      * destruct (is_replenish c); nra.
      * cbn [forallb fst]. rewrite Er. cbn [negb andb]. intros A.
        specialize (E' A). destruct (is_replenish c); nra.
Qed.

(** ** The streak of high scores *)

Lemma step_streak (slack : nat -> nat) (m : Manager) (c : call) (e : env) :
  ConsecutiveHighScoreWeeks (state (fst (step slack m c e))) =
    match c with
    | DoWeekly signal =>
        if TotalScore signal >? 1.0
        then int_add (ConsecutiveHighScoreWeeks (state m)) 1
        else 0%Z
    | _ => ConsecutiveHighScoreWeeks (state m)
    end.
Proof.
  destruct c; cbn [step fst]; try reflexivity.
  - unfold CalculateWeeklyInvestment.
    destruct (append slack _ _ _) as [h scores]. cbn [fst].
    rewrite save_state. reflexivity.
  - unfold CalculateBottomFishInvestment.
    destruct (BottomFishUsedThisWeek (state m)); cbn [fst]; [reflexivity|].
    now rewrite save_state.
  - unfold MonthlyReplenish. now rewrite save_state.
  - unfold QuarterlyRebalance.
    destruct (_ >? _); [|destruct (_ && _)]; cbn [fst]; now rewrite save_state.
  - unfold ResetWeeklyFlags. now rewrite save_state.
Qed.

Lemma last_n_snoc {A} (k : nat) (l : list A) (x : A) :
  (k <= length l)%nat -> last_n (S k) (l ++ [x]) = last_n k l ++ [x].
Proof.
  intros H. unfold last_n. rewrite length_app. simpl.
  replace (length l + 1 - S k)%nat with (length l - k)%nat by lia.
  rewrite drop_app_le by lia. reflexivity.
Qed.

Lemma run_streak (slack : nat -> nat) (cs : list (call * env)) :
  forall (m : Manager) (seen : list Q),
    let k := ConsecutiveHighScoreWeeks (state m) in
    (0 <= k <= Z.of_nat (length seen))%Z ->
    Forall (fun s => 1.0 < s) (last_n (Z.to_nat k) seen) ->
    (Z.of_nat (length seen + length cs) < int_max)%Z ->
    let k' := ConsecutiveHighScoreWeeks (state (fst (run slack m cs))) in
    (0 <= k' <= Z.of_nat (length (seen ++ scores_invested cs)))%Z /\
    Forall (fun s => 1.0 < s) (last_n (Z.to_nat k') (seen ++ scores_invested cs)).
Proof.
  induction cs as [|[c e] cs IH]; intros m seen k Hk Hf Hb; cbv zeta.
  - simpl. rewrite app_nil_r. split; assumption.
  - rewrite run_cons. cbn [fst].
    pose proof (step_streak slack m c e) as Hs. fold k in Hs.
    assert (Other : ConsecutiveHighScoreWeeks (state (fst (step slack m c e))) = k ->
                    scores_invested ((c, e) :: cs) = scores_invested cs ->
                    (0 <= ConsecutiveHighScoreWeeks
                            (state (fst (run slack (fst (step slack m c e)) cs)))
                       <= Z.of_nat (length (seen ++ scores_invested ((c, e) :: cs))))%Z /\
                    Forall (fun s => 1.0 < s)
                      (last_n (Z.to_nat (ConsecutiveHighScoreWeeks
                                 (state (fst (run slack (fst (step slack m c e)) cs)))))
                         (seen ++ scores_invested ((c, e) :: cs)))).
    { intros Ek Ew. rewrite Ew. apply IH.
      - rewrite Ek. exact Hk.
      - rewrite Ek. exact Hf.
      - simpl in Hb. lia. }
    destruct c; try (apply Other; [exact Hs | reflexivity]).
    cbn [scores_invested].
    replace (seen ++ TotalScore signal :: scores_invested cs)
      with ((seen ++ [TotalScore signal]) ++ scores_invested cs)
      by now rewrite <- app_assoc.
    simpl in Hb.
    destruct (gtb_spec (TotalScore signal) 1.0) as [High|Low].
    + assert (W : int_add k 1 = (k + 1)%Z).
      { unfold int_add. apply wrap_id. unfold int_min, int_max in *. lia. }
      rewrite W in Hs. apply IH.
      * rewrite Hs, length_app. simpl. lia.
      * rewrite Hs. replace (Z.to_nat (k + 1)) with (S (Z.to_nat k)) by lia.
        rewrite last_n_snoc by lia. apply Forall_app. split; [exact Hf|].
        repeat constructor. exact High.
      * rewrite length_app. simpl. lia.
    + apply IH.
      * rewrite Hs, length_app. simpl. lia.
      * rewrite Hs. unfold last_n. simpl. rewrite Nat.sub_0_r, drop_all. constructor.
      * rewrite length_app. simpl. lia.
Qed.

(** X19. The streak counter counts what it says: starting from a streak of
    zero, after any sequence of operations the counter is the length of a
    run of weekly investments, the most recent ones, that all had a total
    score above 1.0.  So when QuarterlyRebalance then answers with the
    emergency top-up, the last four weekly investments all scored above
    1.0. *)
Theorem streak_counts_recent_high_scores
    (slack : nat -> nat) (m : Manager) (cs : list (call * env)) (e : env) :
  ConsecutiveHighScoreWeeks (state m) = 0%Z ->
  (Z.of_nat (length cs) < int_max)%Z ->
  let m' := fst (run slack m cs) in
  let k := ConsecutiveHighScoreWeeks (state m') in
  (0 <= k <= Z.of_nat (length (scores_invested cs)))%Z /\
  Forall (fun s => 1.0 < s) (last_n (Z.to_nat k) (scores_invested cs)) /\
  (snd (QuarterlyRebalance m' e) = "连续高分+储备不足，紧急补充储备池"%string ->
     (4 <= length (scores_invested cs))%nat /\
     Forall (fun s => 1.0 < s) (last_n 4 (scores_invested cs))).
Proof.
  intros H0 Hb. cbv zeta.
  destruct (run_streak slack cs m []) as [K F].
  { rewrite H0. simpl. lia. }
  { rewrite H0. constructor. }
  { simpl. exact Hb. }
  simpl in K, F. split; [exact K|]. split; [exact F|].
  intros Msg.
  set (m' := fst (run slack m cs)) in *.
  assert (G : (4 <= ConsecutiveHighScoreWeeks (state m'))%Z).
  { unfold QuarterlyRebalance in Msg.
    destruct (_ >? _); [discriminate|].
    destruct (Z.geb_spec (ConsecutiveHighScoreWeeks (state m')) 4); [assumption|].
    discriminate. }
  split; [lia|].
  rewrite Forall_forall in *. intros s Hs. apply F.
  apply (last_n_mono 4 (Z.to_nat (ConsecutiveHighScoreWeeks (state m')))); [lia | exact Hs].
Qed.

Lemma streak_counts_recent_high_scores_witness :
  (0 <= ConsecutiveHighScoreWeeks (state (fst (run roomy rich_manager busy_week)))
     <= Z.of_nat (length (scores_invested busy_week)))%Z.
Proof.
  apply (streak_counts_recent_high_scores roomy rich_manager busy_week example_env).
  - reflexivity.
  - vm_compute. reflexivity.
Defined.

(** X17. NewManager fails exactly when the state file cannot be read or
    decoded, or when its first save fails.  On a missing file, and on a
    stored state whose monthly budget is zero, it seeds the fund from the
    configured budget: the budget itself, a weekly base of budget * 0.70 /
    4.33, budget * 0.70 in the regular pool and budget * 0.30 in the
    reserve, overwriting whatever balances the stored state had and keeping
    its flag, streak, scores and dates; UpdatedAt is the time of the
    save. *)
Theorem NewManager_seeds (slack : nat -> nat) (f : file_content) (budget : Q) (e : env) :
  (NewManager slack f budget e = None <->
     f = Unreadable \/ exists leftover, write e = WriteFailed leftover) /\
  (f = Missing -> write e = WriteOk ->
     exists m,
       NewManager slack f budget e = Some m /\
       observe (heap m) (state m) =
         mkFundState budget (budget * 0.70 / 4.33) (budget * 0.70) (budget * 0.30)
           false 0%Z [] 0%Z 0%Z (now e)) /\
  (forall doc, f = Stored doc -> MonthlyBudget doc == 0 -> write e = WriteOk ->
     exists m,
       NewManager slack f budget e = Some m /\
       observe (heap m) (state m) =
         mkFundState budget (budget * 0.70 / 4.33) (budget * 0.70) (budget * 0.30)
           (BottomFishUsedThisWeek doc) (ConsecutiveHighScoreWeeks doc)
           (RecentScores doc) (LastReplenishAt doc) (LastRebalanceAt doc) (now e)).
Proof.
  split; [|split].
  - unfold NewManager. split.
    + intros H. destruct f as [| |doc]; [|now left|].
      * right. simpl in H. unfold save in H.
        destruct (write e) as [|l]; [discriminate | eauto].
      * right. destruct (LoadState_stored slack doc) as (h & st & E & _).
        rewrite E in H. unfold save in H.
        destruct (write e) as [|l]; [discriminate | eauto].
    + intros [-> | [l Hl]]; [reflexivity|].
      destruct (LoadState slack f) as [[h st]|]; [|reflexivity].
      unfold save. rewrite Hl. reflexivity.
  - intros -> Hw. unfold NewManager, save. cbn [LoadState MonthlyBudget].
    rewrite Hw. change (0 =? 0) with true. cbv iota.
    eexists. split; reflexivity.
  - intros doc -> Z0 Hw.
    destruct (NewManager_of_stored slack doc budget e Hw) as (m & E & _ & _ & _ & S).
    exists m. split; [exact E | exact (S Z0)].
Qed.

Lemma NewManager_seeds_witness :
  exists m,
    NewManager roomy Missing 3000 example_env = Some m /\
    observe (heap m) (state m) =
      mkFundState 3000 (3000 * 0.70 / 4.33) (3000 * 0.70) (3000 * 0.30)
        false 0%Z [] 0%Z 0%Z (now example_env).
Proof.
  destruct (NewManager_seeds roomy Missing 3000 example_env) as (_ & S & _).
  exact (S eq_refl eq_refl).
Defined.

(** X18. Over exact rationals the books balance over any sequence of
    operations: the monthly budget and the weekly base never change; what
    the pools hold afterwards plus what the replies paid out is never less
    than what the pools held before plus one budget per MonthlyReplenish;
    and it is exactly that when the sequence has no QuarterlyRebalance, the
    only operation that can add money from outside.  The binary64 program
    rounds at every step and balances only up to that: after one weekly
    investment the two pools and the amount paid out need not add up to
    what the pools held before. *)
Theorem ledger_balances :
  (forall (slack : nat -> nat) (m : Manager) (cs : list (call * env)),
     let m' := fst (run slack m cs) in
     let rs := snd (run slack m cs) in
     let added := inject_Z (Z.of_nat (replenishments cs)) * MonthlyBudget (state m) in
     MonthlyBudget (state m') = MonthlyBudget (state m) /\
     WeeklyBaseN (state m') = WeeklyBaseN (state m) /\
     total m + added <= total m' + paid_out rs /\
     (forallb (fun ce => negb (is_rebalance (fst ce))) cs = true ->
        total m' + paid_out rs == total m + added)) /\
  (let st' := fst (Binary64.CalculateWeeklyInvestment midmonth add_tier_signal 0) in
   let paid := fst (snd (Binary64.CalculateWeeklyInvestment midmonth add_tier_signal 0)) in
   (Binary64.RegularBalance st' + Binary64.ReserveBalance st' + paid
    =? Binary64.RegularBalance midmonth + Binary64.ReserveBalance midmonth)%float = false).
Proof.
  split.
  - intros slack m cs. exact (run_ledger slack cs m).
  - vm_compute. reflexivity.
Qed.

(** ** The state file *)

Section StateFile.

Import statefile StateFileSpec.










End StateFile.

(** * The scheduler's tasks *)

Import recorder scheduler SchedulerSpec.

(** Collect returns, with indicators or with the error of a fetch. *)
Lemma Collect_outcome (f : Fetcher) (symbol : string) :
  bounded_answers f symbol ->
  (exists err, Collect f symbol = Returns (None, Some err) /\
     (snd (FetchDailyBars f symbol 300) <> None \/
      snd (FetchWeeklyBars f symbol 60) <> None \/
      snd (FetchCurrentPrice f symbol) <> None)) \/
  (exists ind, Collect f symbol = Returns (Some ind, None) /\
     snd (FetchDailyBars f symbol 300) = None /\
     snd (FetchWeeklyBars f symbol 60) = None /\
     snd (FetchCurrentPrice f symbol) = None).
Proof.
  intros [Bd Bw].
  destruct (FetchDailyBars f symbol 300) as [d [e|]] eqn:Fd.
  { left. unfold Collect. rewrite Fd. eexists. split; [reflexivity|].
    left. discriminate. }
  destruct (FetchWeeklyBars f symbol 60) as [w [e|]] eqn:Fw.
  { left. unfold Collect. rewrite Fd, Fw. eexists. split; [reflexivity|].
    right. left. discriminate. }
  destruct (FetchCurrentPrice f symbol) as [p [e|]] eqn:Fp.
  { left. unfold Collect. rewrite Fd, Fw, Fp. eexists. split; [reflexivity|].
    right. right. discriminate. }
  right. simpl in Bd, Bw.
  destruct (Collect_indicators f symbol d w p Fd Fw Fp Bd Bw) as (ind & E & _).
  exists ind. auto.
Qed.

Lemma meanwhile_nil (slack : nat -> nat) (m : Manager) : meanwhile slack [] m = m.
Proof. reflexivity. Qed.

(** What weeklyTask does once Collect has returned indicators. *)
Lemma weeklyTask_collected (rt : GoRuntime) (slack : nat -> nat) (f : Fetcher)
    (symbol : string) (m : Manager) (e : env) (o1 o2 o3 : others)
    (ind : MarketIndicators) :
  Collect f symbol = Returns (Some ind, None) ->
  let m1 := meanwhile slack o1 m in
  let m2 := meanwhile slack o2 m1 in
  let signal0 := set_BaseAmount (set_Trigger (Evaluate rt ind) TriggerWeekly)
                   (WeeklyBaseN (state m)) in
  let r := CalculateWeeklyInvestment slack m2 signal0 e in
  let m4 := meanwhile slack o3 (fst r) in
  let signal := set_ReserveUsed (set_FinalAmount signal0 (fst (snd r))) (snd (snd r)) in
  weeklyTask rt slack f symbol m e o1 o2 o3 =
    Returns
      (m4,
       [TrySend (WeeklyReport ind signal (observe (heap m4) (state m4)));
        RecordWeekly (WeeklySnapshot.mk ind signal (state m4));
        RecordFundEvent
          (FundEvent.mk "WEEKLY" (RegularBalance (state m1)) (RegularBalance (state m4))
             (ReserveBalance (state m1)) (ReserveBalance (state m4))
             (fst (snd r) + snd (snd r)) "周定投")]).
Proof.
  intros E. cbv zeta. unfold weeklyTask. rewrite E. cbn [bind].
  destruct (CalculateWeeklyInvestment slack _ _ e) as [m3 [fa ru]].
  reflexivity.
Qed.

(** What dailyCheck does once Collect has returned indicators. *)
Lemma dailyCheck_collected (rt : GoRuntime) (slack : nat -> nat) (f : Fetcher)
    (symbol : string) (m : Manager) (e : env) (o1 o2 : others)
    (ind : MarketIndicators) :
  Collect f symbol = Returns (Some ind, None) ->
  let score := TotalScore (Evaluate rt ind) in
  let m1 := meanwhile slack o1 m in
  let r := CalculateBottomFishInvestment m1 score e in
  let m3 := meanwhile slack o2 (fst r) in
  let bottomFish :=
    [TrySend (BottomFishAlert (DailyRSI ind) score (fst (snd r)));
     RecordDailyCheck
       (DailyCheckEvent.mk (DailyRSI ind) (WeeklyRSI ind) (CurrentPrice ind)
          "BOTTOM_FISH" (fst (snd r)) score);
     RecordFundEvent
       (FundEvent.mk "BOTTOM_FISH" (RegularBalance (state m)) (RegularBalance (state m3))
          (ReserveBalance (state m)) (ReserveBalance (state m3))
          (fst (snd r)) "抄底触发")] in
  let takeProfit :=
    if (DailyRSI ind >? 85) || (WeeklyRSI ind >? 85) then
      [TrySend (TakeProfitAlert (DailyRSI ind) (WeeklyRSI ind) (CurrentPrice ind));
       RecordDailyCheck
         (DailyCheckEvent.mk (DailyRSI ind) (WeeklyRSI ind) (CurrentPrice ind)
            "TAKE_PROFIT" 0 0)]
    else [] in
  dailyCheck rt slack f symbol m e o1 o2 =
    Returns
      (if DailyRSI ind <? 30
       then if snd (snd r) then (m3, bottomFish ++ takeProfit)
            else (fst r, takeProfit)
       else (m, takeProfit)).
Proof.
  intros E. cbv zeta. unfold dailyCheck. rewrite E. cbn [bind].
  destruct (DailyRSI ind <? 30); [|reflexivity].
  destruct (CalculateBottomFishInvestment _ _ e) as [m2 [amount triggered]].
  cbn [fst snd]. destruct triggered; reflexivity.
Qed.

Lemma fund_events_app (a b : list effect) :
  fund_events (a ++ b) = fund_events a ++ fund_events b.
Proof.
  induction a as [|x a IH]; [reflexivity|].
  destruct x; cbn [app fund_events]; rewrite IH; reflexivity.
Qed.

(** X24. Run on its own, the quarterly task labels what the rebalance did:
    the action it infers from the two reserve balances agrees with the note
    QuarterlyRebalance returned, and the amount is the excess over six
    weekly bases, the top-up to three weekly bases, or 0; the fund event
    carries the same amount. *)
Theorem quarterlyTask_labels_the_rebalance (slack : nat -> nat) (m : Manager) (e : env) :
  let r := quarterlyTask slack m e [] [] in
  let N := WeeklyBaseN (state m) in
  let reserve := ReserveBalance (state m) in
  exists qev fev,
    quarterly_events (snd r) = [qev] /\ fund_events (snd r) = [fev] /\
    FundEvent.Amount fev = QuarterlyEvent.Amount qev /\
    ((QuarterlyEvent.Note qev = "储备池超额，已转回常规池"%string /\
      QuarterlyEvent.Action qev = "TRANSFER_EXCESS"%string /\
      6 * N < reserve /\ QuarterlyEvent.Amount qev == reserve - 6 * N) \/
     (QuarterlyEvent.Note qev = "连续高分+储备不足，紧急补充储备池"%string /\
      QuarterlyEvent.Action qev = "EMERGENCY_TOPUP"%string /\
      reserve < 3 * N /\ (4 <= ConsecutiveHighScoreWeeks (state m))%Z /\
      QuarterlyEvent.Amount qev == 3 * N - reserve) \/
     (QuarterlyEvent.Note qev = "季度再平衡：无需调整"%string /\
      QuarterlyEvent.Action qev = "NO_ACTION"%string /\
      QuarterlyEvent.Amount qev = 0)).
Proof.
  cbv zeta. unfold quarterlyTask. rewrite meanwhile_nil. unfold GetState.
  unfold QuarterlyRebalance.
  destruct (gtb_spec (ReserveBalance (state m)) (6 * WeeklyBaseN (state m))) as [Hi|Lo].
  - rewrite meanwhile_nil, save_state.
    cbn [state set_UpdatedAt set_RegularBalance set_ReserveBalance ReserveBalance
         RegularBalance].
    destruct (ltb_spec (ReserveBalance (state m)
                        - (ReserveBalance (state m) - 6 * WeeklyBaseN (state m)))
                (ReserveBalance (state m))) as [_|Bad]; [|lra].
    cbn [snd quarterly_events fund_events recordFundEvent].
    eexists _, _. split; [reflexivity|]. split; [reflexivity|].
    split; [reflexivity|]. left.
    cbn [QuarterlyEvent.Note QuarterlyEvent.Action QuarterlyEvent.Amount].
    split; [reflexivity|]. split; [reflexivity|]. split; [exact Hi | ring].
  - destruct (Z.geb_spec (ConsecutiveHighScoreWeeks (state m)) 4) as [Streak|Short];
      cbn [andb];
      [destruct (ltb_spec (ReserveBalance (state m)) (3 * WeeklyBaseN (state m)))
         as [Low|Enough]|].
    + rewrite meanwhile_nil, save_state.
      cbn [state set_UpdatedAt set_RegularBalance set_ReserveBalance ReserveBalance
           RegularBalance].
      destruct (ltb_spec (ReserveBalance (state m)
                          + (3 * WeeklyBaseN (state m) - ReserveBalance (state m)))
                  (ReserveBalance (state m))) as [Bad|_]; [lra|].
      destruct (gtb_spec (ReserveBalance (state m)
                          + (3 * WeeklyBaseN (state m) - ReserveBalance (state m)))
                  (ReserveBalance (state m))) as [_|Bad]; [|lra].
      cbn [snd quarterly_events fund_events recordFundEvent].
      eexists _, _. split; [reflexivity|]. split; [reflexivity|].
      split; [reflexivity|]. right. left.
      cbn [QuarterlyEvent.Note QuarterlyEvent.Action QuarterlyEvent.Amount].
      split; [reflexivity|]. split; [reflexivity|]. split; [exact Low|].
      split; [lia | ring].
    + rewrite meanwhile_nil, save_state.
      cbn [state set_UpdatedAt ReserveBalance RegularBalance].
      rewrite ltb_irrefl. unfold gtb. rewrite ltb_irrefl.
      cbn [snd quarterly_events fund_events recordFundEvent].
      eexists _, _. split; [reflexivity|]. split; [reflexivity|].
      split; [reflexivity|]. right. right.
      cbn [QuarterlyEvent.Note QuarterlyEvent.Action QuarterlyEvent.Amount].
      split; [reflexivity|]. split; reflexivity.
    + rewrite meanwhile_nil, save_state.
      cbn [state set_UpdatedAt ReserveBalance RegularBalance].
      rewrite ltb_irrefl. unfold gtb. rewrite ltb_irrefl.
      cbn [snd quarterly_events fund_events recordFundEvent].
      eexists _, _. split; [reflexivity|]. split; [reflexivity|].
      split; [reflexivity|]. right. right.
      cbn [QuarterlyEvent.Note QuarterlyEvent.Action QuarterlyEvent.Amount].
      split; [reflexivity|]. split; reflexivity.
Qed.

Lemma set_signal_amounts (s : TradeSignal) (a b : Q) :
  FinalAmount (set_ReserveUsed (set_FinalAmount s a) b) = a /\
  ReserveUsed (set_ReserveUsed (set_FinalAmount s a) b) = b.
Proof. split; reflexivity. Qed.

(** X20. The WEEKLY row weeklyTask writes to the fund history counts the
    reserve twice: the final amount CalculateWeeklyInvestment returns is
    already the regular amount plus the reserve used, and the task records
    the final amount plus the reserve used as the event's amount.  When no
    other task gets at the manager between the task's reads, the two pools
    were reduced by the regular amount and by the reserve used, once
    each. *)
Theorem weekly_event_counts_reserve_twice
    (rt : GoRuntime) (slack : nat -> nat) (f : Fetcher) (symbol : string)
    (m : Manager) (e : env) (o1 o2 o3 : others)
    (m' : Manager) (out : list effect) (evt : FundEvent.t) :
  weeklyTask rt slack f symbol m e o1 o2 o3 = Returns (m', out) ->
  evt ∈ fund_events out ->
  exists (snap : WeeklySnapshot.t) (regularAmount : Q),
    snapshots out = [snap] /\ fund_events out = [evt] /\
    let signal := WeeklySnapshot.Signal snap in
    FinalAmount signal = regularAmount + ReserveUsed signal /\
    FundEvent.Amount evt = FinalAmount signal + ReserveUsed signal /\
    (o2 = [] -> o3 = [] ->
       FundEvent.RegularAfter evt = FundEvent.RegularBefore evt - regularAmount /\
       FundEvent.ReserveAfter evt = FundEvent.ReserveBefore evt - ReserveUsed signal).
Proof.
  intros H In.
  destruct (Collect f symbol) as [[ind err]| |] eqn:E;
    try (unfold weeklyTask in H; rewrite E in H; discriminate).
  destruct err as [err|].
  { unfold weeklyTask in H. rewrite E in H. cbn [bind] in H.
    injection H as <- <-. cbn in In. now apply elem_of_nil in In. }
  destruct ind as [ind|];
    [|unfold weeklyTask in H; rewrite E in H; discriminate].
  rewrite (weeklyTask_collected rt slack f symbol m e o1 o2 o3 ind E) in H.
  injection H as <- <-. cbn [fund_events snapshots] in *.
  apply list_elem_of_singleton in In. subst evt.
  pose proof (weekly_balances slack (meanwhile slack o2 (meanwhile slack o1 m))
                (set_BaseAmount (set_Trigger (Evaluate rt ind) TriggerWeekly)
                   (WeeklyBaseN (state m))) e) as W.
  cbv zeta in W. destruct W as (R & B1 & B2 & _).
  eexists _, _. split; [reflexivity|]. split; [reflexivity|].
  cbn [WeeklySnapshot.Signal FundEvent.Amount set_ReserveUsed set_FinalAmount
       FinalAmount ReserveUsed FundEvent.RegularBefore FundEvent.RegularAfter
       FundEvent.ReserveBefore FundEvent.ReserveAfter].
  rewrite R. cbn [fst snd].
  split; [reflexivity|]. split; [reflexivity|].
  intros -> ->. rewrite !meanwhile_nil in *.
  rewrite B1, B2. split; reflexivity.
Qed.

Lemma weekly_event_counts_reserve_twice_witness :
  exists (snap : WeeklySnapshot.t) (regularAmount : Q),
    snapshots (snd crash_week) = [snap] /\ fund_events (snd crash_week) = [crash_week_event] /\
    FinalAmount (WeeklySnapshot.Signal snap)
      = regularAmount + ReserveUsed (WeeklySnapshot.Signal snap) /\
    FundEvent.Amount crash_week_event
      = FinalAmount (WeeklySnapshot.Signal snap) + ReserveUsed (WeeklySnapshot.Signal snap) /\
    (@nil (call * env) = [] -> @nil (call * env) = [] ->
       FundEvent.RegularAfter crash_week_event
         = FundEvent.RegularBefore crash_week_event - regularAmount /\
       FundEvent.ReserveAfter crash_week_event
         = FundEvent.ReserveBefore crash_week_event
           - ReserveUsed (WeeklySnapshot.Signal snap)).
Proof.
  apply (weekly_event_counts_reserve_twice quiet_runtime roomy crash "SPX500"
           rich_manager example_env [] [] [] (fst crash_week) (snd crash_week)
           crash_week_event).
  - vm_compute. reflexivity.
  - vm_compute. constructor.
Defined.

(** X21. The two data-driven tasks never panic.  When a fetch fails, the
    weekly task sends one failure notice and the daily check stays silent,
    and neither touches the fund.  When the three fetches succeed, the
    weekly task always invests on the signal Evaluate derives from the
    collected indicators: it sends its report and writes one weekly
    snapshot and one WEEKLY fund event, the snapshot carries that signal
    with the weekly base as base amount, and, run on its own, it leaves the
    manager as CalculateWeeklyInvestment on that signal does: each pool
    reduced by the tier's multiple of the weekly base or, if that is more
    than the pool holds, by the whole balance. *)
Theorem tasks_with_and_without_data
    (rt : GoRuntime) (slack : nat -> nat) (f : Fetcher) (symbol : string)
    (m : Manager) (e : env) (o1 o2 o3 : others) :
  bounded_answers f symbol ->
  let failed :=
    snd (FetchDailyBars f symbol 300) <> None \/
    snd (FetchWeeklyBars f symbol 60) <> None \/
    snd (FetchCurrentPrice f symbol) <> None in
  (failed ->
     exists err,
       weeklyTask rt slack f symbol m e o1 o2 o3
         = Returns (m, [TrySend (CollectFailed err)]) /\
       dailyCheck rt slack f symbol m e o1 o2 = Returns (m, [])) /\
  (~ failed ->
     exists ind,
       Collect f symbol = Returns (Some ind, None) /\
       (exists m2 out, dailyCheck rt slack f symbol m e o1 o2 = Returns (m2, out)) /\
       exists m1 snap evt,
         weeklyTask rt slack f symbol m e o1 o2 o3
           = Returns (m1,
                      [TrySend (WeeklyReport ind (WeeklySnapshot.Signal snap)
                                  (observe (heap m1) (state m1)));
                       RecordWeekly snap; RecordFundEvent evt]) /\
         let signal := WeeklySnapshot.Signal snap in
         let tier := Tier (Evaluate rt ind) in
         WeeklySnapshot.Indicators snap = ind /\
         WeeklySnapshot.FundState snap = state m1 /\
         Factors signal = Factors (Evaluate rt ind) /\
         TotalScore signal = TotalScore (Evaluate rt ind) /\
         Tier signal = tier /\
         Trigger signal = TriggerWeekly /\
         BaseAmount signal = WeeklyBaseN (state m) /\
         FundEvent.EventType evt = "WEEKLY"%string /\
         (o1 = [] -> o2 = [] -> o3 = [] ->
            let N := WeeklyBaseN (state m) in
            let regularAmount :=
              if N * Multiplier tier >? RegularBalance (state m)
              then RegularBalance (state m) else N * Multiplier tier in
            let reserveAmount :=
              if N * UseReserve tier >? ReserveBalance (state m)
              then ReserveBalance (state m) else N * UseReserve tier in
            m1 = fst (CalculateWeeklyInvestment slack m
                        (set_BaseAmount (set_Trigger (Evaluate rt ind) TriggerWeekly) N) e) /\
            FinalAmount signal = regularAmount + reserveAmount /\
            ReserveUsed signal = reserveAmount /\
            RegularBalance (state m1) = RegularBalance (state m) - regularAmount /\
            ReserveBalance (state m1) = ReserveBalance (state m) - reserveAmount /\
            ConsecutiveHighScoreWeeks (state m1) =
              (if TotalScore (Evaluate rt ind) >? 1.0
               then int_add (ConsecutiveHighScoreWeeks (state m)) 1 else 0%Z) /\
            UpdatedAt (state m1) = now e)).
Proof.
  intros B. cbv zeta.
  destruct (Collect_outcome f symbol B) as [(err & E & F) | (ind & E & F1 & F2 & F3)].
  - split.
    + intros _. exists err. unfold weeklyTask, dailyCheck. rewrite E. cbn [bind].
      split; reflexivity.
    + intros N. contradiction.
  - split.
    + intros [N | [N | N]]; contradiction.
    + intros _. exists ind. split; [exact E|]. split.
      * rewrite (dailyCheck_collected rt slack f symbol m e o1 o2 ind E).
        cbv zeta.
        match goal with
        | |- exists m2 out, Returns ?r = _ => exists (fst r), (snd r); now destruct r
        end.
      * rewrite (weeklyTask_collected rt slack f symbol m e o1 o2 o3 ind E).
        cbv zeta.
        match goal with
        | |- exists m1 snap evt,
               Returns (?M, [_; RecordWeekly ?S; RecordFundEvent ?V]) = _ /\ _ =>
            exists M, S, V
        end.
        split; [reflexivity|].
        cbn [WeeklySnapshot.Signal WeeklySnapshot.Indicators WeeklySnapshot.FundState
             FundEvent.EventType set_ReserveUsed set_FinalAmount set_BaseAmount
             set_Trigger Factors TotalScore Tier Trigger BaseAmount FinalAmount
             ReserveUsed].
        do 8 (split; [reflexivity|]).
        intros -> -> ->. rewrite !meanwhile_nil.
        pose proof (weekly_balances slack m
                      (set_BaseAmount (set_Trigger (Evaluate rt ind) TriggerWeekly)
                         (WeeklyBaseN (state m))) e) as W.
        cbv zeta in W. destruct W as (R & B1 & B2 & _).
        cbn [Tier set_BaseAmount set_Trigger] in R, B1, B2.
        split; [reflexivity|]. rewrite R. cbn [fst snd].
        split; [reflexivity|]. split; [reflexivity|].
        split; [exact B1|]. split; [exact B2|].
        pose proof (step_streak slack m
                      (DoWeekly (set_BaseAmount (set_Trigger (Evaluate rt ind) TriggerWeekly)
                                   (WeeklyBaseN (state m)))) e) as S4.
        rewrite step_weekly in S4. cbn [TotalScore set_BaseAmount set_Trigger] in S4.
        split; [exact S4|].
        unfold CalculateWeeklyInvestment.
        destruct (append slack _ _ _) as [h scores]. cbn [fst].
        rewrite save_state. reflexivity.
Qed.

Lemma tasks_with_and_without_data_witness :
  exists ind m1 snap evt,
    Collect crash "SPX500" = Returns (Some ind, None) /\
    weeklyTask quiet_runtime roomy crash "SPX500" rich_manager example_env [] [] []
      = Returns (m1,
                 [TrySend (WeeklyReport ind (WeeklySnapshot.Signal snap)
                             (observe (heap m1) (state m1)));
                  RecordWeekly snap; RecordFundEvent evt]) /\
    Tier (WeeklySnapshot.Signal snap) = Tier (Evaluate quiet_runtime ind) /\
    ReserveBalance (state m1)
      = ReserveBalance (state rich_manager) - ReserveUsed (WeeklySnapshot.Signal snap).
Proof.
  destruct (tasks_with_and_without_data quiet_runtime roomy crash "SPX500"
              rich_manager example_env [] [] []) as [_ S].
  - split; vm_compute; discriminate.
  - destruct S as (ind & E & _ & m1 & snap & evt & W & _ & _ & _ & _ & T & _ & _ & _ & Own).
    + intros [H | [H | H]]; apply H; reflexivity.
    + destruct (Own eq_refl eq_refl eq_refl) as (_ & _ & U & _ & R & _).
      exists ind, m1, snap, evt. split; [exact E|]. split; [exact W|].
      split; [exact T|]. rewrite U. exact R.
Defined.

(** X22. The daily check, run on its own, spends only on a daily RSI below
    30 in a week that has had no bottom-fishing yet: otherwise it leaves the
    manager as it is and writes no fund event.  When it spends, its one
    fund event is consistent: the reserve after is the reserve before less
    the recorded amount, the regular pool is untouched, and the week's flag
    is set. *)
Theorem dailyCheck_spends_only_on_low_rsi
    (rt : GoRuntime) (slack : nat -> nat) (f : Fetcher) (symbol : string)
    (m : Manager) (e : env) (ind : MarketIndicators) :
  Collect f symbol = Returns (Some ind, None) ->
  exists m' out,
    dailyCheck rt slack f symbol m e [] [] = Returns (m', out) /\
    let fires := (DailyRSI ind <? 30) && negb (BottomFishUsedThisWeek (state m)) in
    (fires = false -> m' = m /\ fund_events out = []) /\
    (fires = true ->
       exists evt,
         fund_events out = [evt] /\
         FundEvent.EventType evt = "BOTTOM_FISH"%string /\
         FundEvent.RegularBefore evt = RegularBalance (state m) /\
         FundEvent.ReserveBefore evt = ReserveBalance (state m) /\
         FundEvent.RegularAfter evt = FundEvent.RegularBefore evt /\
         FundEvent.ReserveAfter evt = FundEvent.ReserveBefore evt - FundEvent.Amount evt /\
         FundEvent.RegularAfter evt = RegularBalance (state m') /\
         FundEvent.ReserveAfter evt = ReserveBalance (state m') /\
         BottomFishUsedThisWeek (state m') = true).
Proof.
  intros E. rewrite (dailyCheck_collected rt slack f symbol m e [] [] ind E).
  cbv zeta. rewrite !meanwhile_nil.
  set (tp := if (DailyRSI ind >? 85) || (WeeklyRSI ind >? 85) then _ else _).
  assert (T : fund_events tp = []).
  { subst tp. destruct ((DailyRSI ind >? 85) || (WeeklyRSI ind >? 85)); reflexivity. }
  unfold CalculateBottomFishInvestment.
  destruct (DailyRSI ind <? 30); cbn [andb].
  - destruct (BottomFishUsedThisWeek (state m)) eqn:Used; cbn [fst snd negb].
    + eexists _, _. split; [reflexivity|]. split; [auto | discriminate].
    + eexists _, _. split; [reflexivity|].
      split; [discriminate|]. intros _.
      rewrite fund_events_app, T. cbn [fund_events app].
      eexists. split; [reflexivity|].
      rewrite save_state.
      cbn [FundEvent.EventType FundEvent.RegularBefore FundEvent.RegularAfter
           FundEvent.ReserveBefore FundEvent.ReserveAfter FundEvent.Amount
           state set_UpdatedAt set_BottomFishUsedThisWeek set_ReserveBalance
           RegularBalance ReserveBalance BottomFishUsedThisWeek].
      do 7 (split; [reflexivity|]). reflexivity.
  - eexists _, _. split; [reflexivity|]. split; [auto | discriminate].
Qed.

Lemma dailyCheck_spends_only_on_low_rsi_witness :
  exists m' out,
    dailyCheck quiet_runtime roomy crash "SPX500" rich_manager example_env [] []
      = Returns (m', out) /\
    (true = false -> m' = rich_manager /\ fund_events out = []) /\
    (true = true ->
       exists evt,
         fund_events out = [evt] /\
         FundEvent.EventType evt = "BOTTOM_FISH"%string /\
         FundEvent.RegularBefore evt = RegularBalance (state rich_manager) /\
         FundEvent.ReserveBefore evt = ReserveBalance (state rich_manager) /\
         FundEvent.RegularAfter evt = FundEvent.RegularBefore evt /\
         FundEvent.ReserveAfter evt = FundEvent.ReserveBefore evt - FundEvent.Amount evt /\
         FundEvent.RegularAfter evt = RegularBalance (state m') /\
         FundEvent.ReserveAfter evt = ReserveBalance (state m') /\
         BottomFishUsedThisWeek (state m') = true).
Proof.
  apply (dailyCheck_spends_only_on_low_rsi quiet_runtime roomy crash "SPX500"
           rich_manager example_env crash_indicators).
  vm_compute. reflexivity.
Defined.

(** X23. What the monthly task records as added is what was added: the
    monthly event's two added amounts are 0.7 and 0.3 of the monthly budget
    and the fund event's amount is the budget, as it stood when the task
    began, whatever other tasks do in between; run on its own, each balance
    after is the balance before plus the amount recorded as added.  The
    average score it records is the mean of the recent-scores window,
    summed from the oldest score on, and 0 for an empty window. *)
Theorem monthlyTask_records_what_was_added
    (slack : nat -> nat) (m : Manager) (e : env) (o1 o2 : others) :
  let r := monthlyTask slack m e o1 o2 in
  let budget := MonthlyBudget (state m) in
  exists mev fev,
    monthly_events (snd r) = [mev] /\ fund_events (snd r) = [fev] /\
    MonthlyEvent.RegularAdded mev = budget * 0.7 /\
    MonthlyEvent.ReserveAdded mev = budget * 0.3 /\
    FundEvent.Amount fev = budget /\
    MonthlyEvent.RegularAfter mev = RegularBalance (state (fst r)) /\
    MonthlyEvent.ReserveAfter mev = ReserveBalance (state (fst r)) /\
    (o1 = [] -> o2 = [] ->
       FundEvent.RegularBefore fev = RegularBalance (state m) /\
       FundEvent.ReserveBefore fev = ReserveBalance (state m) /\
       FundEvent.RegularAfter fev == FundEvent.RegularBefore fev + MonthlyEvent.RegularAdded mev /\
       FundEvent.ReserveAfter fev == FundEvent.ReserveBefore fev + MonthlyEvent.ReserveAdded mev) /\
    (wf_manager (fst r) -> MonthlyEvent.AvgScore mev == mean (window (fst r))).
Proof.
  cbv zeta. unfold monthlyTask. cbn [fst snd monthly_events fund_events recordFundEvent].
  eexists _, _. split; [reflexivity|]. split; [reflexivity|].
  cbn [MonthlyEvent.RegularAdded MonthlyEvent.ReserveAdded MonthlyEvent.AvgScore
       MonthlyEvent.RegularAfter MonthlyEvent.ReserveAfter
       FundEvent.Amount FundEvent.RegularAfter FundEvent.RegularBefore
       FundEvent.ReserveAfter FundEvent.ReserveBefore].
  unfold GetState.
  assert (Bud : MonthlyBudget (state (meanwhile slack o2
                  (MonthlyReplenish (meanwhile slack o1 m) e)))
                = MonthlyBudget (state m)).
  { unfold meanwhile.
    destruct (run_ledger slack o2 (MonthlyReplenish (fst (run slack m o1)) e)) as (-> & _).
    destruct (step_ledger slack (fst (run slack m o1)) DoMonthlyReplenish e) as (B & _).
    cbn [step fst] in B. rewrite B.
    destruct (run_ledger slack o1 m) as (-> & _). reflexivity. }
  rewrite Bud.
  do 5 (split; [reflexivity|]). split.
  - intros -> ->. rewrite !meanwhile_nil. unfold MonthlyReplenish. rewrite save_state.
    cbn [state set_UpdatedAt set_RegularBalance set_ReserveBalance
         MonthlyBudget RegularBalance ReserveBalance].
    split; [reflexivity|]. split; [reflexivity|]. split; ring.
  - set (m' := meanwhile slack o2 _). intros Wf. unfold mean, window.
    pose proof (elems_length (heap m') (RecentScores (state m')) Wf) as L.
    destruct (elems (heap m') (RecentScores (state m'))) as [|x l] eqn:El.
    + simpl in L. rewrite <- L. reflexivity.
    + simpl in L. rewrite <- L. cbn [Nat.ltb Nat.leb]. reflexivity.
Qed.

(** X25. The quarterly task infers its label from two reads of the reserve
    balance, so a monthly replenishment that gets the manager between the
    first read and the rebalance is taken for a top-up: when the rebalance
    itself has nothing to adjust, the task still records EMERGENCY_TOPUP,
    with the reserve after the replenishment less the reserve before it as
    the amount, beside the note that nothing needed adjusting.  (The
    default monthly schedule and the quarterly schedule fire at the same
    second, each in its own goroutine.) *)
Theorem quarterlyTask_mistakes_replenish_for_topup
    (slack : nat -> nat) (m : Manager) (e e' : env) :
  let N := WeeklyBaseN (state m) in
  let reserve := ReserveBalance (state m) in
  let budget := MonthlyBudget (state m) in
  reserve < reserve + budget * 0.30 ->
  reserve + budget * 0.30 <= 6 * N ->
  ((ConsecutiveHighScoreWeeks (state m) < 4)%Z \/ 3 * N <= reserve + budget * 0.30) ->
  exists qev,
    quarterly_events (snd (quarterlyTask slack m e [(DoMonthlyReplenish, e')] [])) = [qev] /\
    QuarterlyEvent.Action qev = "EMERGENCY_TOPUP"%string /\
    QuarterlyEvent.Note qev = "季度再平衡：无需调整"%string /\
    QuarterlyEvent.Amount qev = reserve + budget * 0.30 - reserve /\
    QuarterlyEvent.ReserveAfter qev = reserve + budget * 0.30.
Proof.
  cbv zeta. intros Pos Room Calm.
  unfold quarterlyTask, GetState, meanwhile. cbn [run step fst snd].
  unfold QuarterlyRebalance, MonthlyReplenish. rewrite !save_state.
  cbn [state set_UpdatedAt set_RegularBalance set_ReserveBalance ReserveBalance
       RegularBalance WeeklyBaseN MonthlyBudget ConsecutiveHighScoreWeeks heap file].
  destruct (gtb_spec (ReserveBalance (state m) + MonthlyBudget (state m) * 0.30)
              (6 * WeeklyBaseN (state m))) as [Bad|_]; [lra|].
  assert (No : (ConsecutiveHighScoreWeeks (state m) >=? 4)%Z
               && (ReserveBalance (state m) + MonthlyBudget (state m) * 0.30
                   <? 3 * WeeklyBaseN (state m)) = false).
  { destruct Calm as [Short|Enough].
    - destruct (Z.geb_spec (ConsecutiveHighScoreWeeks (state m)) 4); [lia | reflexivity].
    - destruct (ltb_spec (ReserveBalance (state m) + MonthlyBudget (state m) * 0.30)
                  (3 * WeeklyBaseN (state m))); [lra|]. apply andb_false_r. }
  rewrite No. rewrite save_state.
  cbn [state set_UpdatedAt set_RegularBalance set_ReserveBalance ReserveBalance
       RegularBalance].
  destruct (ltb_spec (ReserveBalance (state m) + MonthlyBudget (state m) * 0.30)
              (ReserveBalance (state m))) as [Bad|_]; [lra|].
  destruct (gtb_spec (ReserveBalance (state m) + MonthlyBudget (state m) * 0.30)
              (ReserveBalance (state m))) as [_|Bad]; [|lra].
  cbn [snd quarterly_events].
  eexists. split; [reflexivity|].
  cbn [QuarterlyEvent.Note QuarterlyEvent.Action QuarterlyEvent.Amount
       QuarterlyEvent.ReserveAfter].
  split; [reflexivity|]. split; [reflexivity|]. split; reflexivity.
Qed.

Lemma quarterlyTask_mistakes_replenish_for_topup_witness :
  exists qev,
    quarterly_events
      (snd (quarterlyTask roomy example_manager example_env
              [(DoMonthlyReplenish, example_env)] [])) = [qev] /\
    QuarterlyEvent.Action qev = "EMERGENCY_TOPUP"%string /\
    QuarterlyEvent.Note qev = "季度再平衡：无需调整"%string /\
    QuarterlyEvent.Amount qev
      = ReserveBalance (state example_manager)
        + MonthlyBudget (state example_manager) * 0.30
        - ReserveBalance (state example_manager) /\
    QuarterlyEvent.ReserveAfter qev
      = ReserveBalance (state example_manager)
        + MonthlyBudget (state example_manager) * 0.30.
Proof.
  apply (quarterlyTask_mistakes_replenish_for_topup roomy example_manager
           example_env example_env).
  - vm_compute. reflexivity.
  - vm_compute. discriminate.
  - left. vm_compute. reflexivity.
Defined.

(** X26. The command that asks to see this week's advice is not a view: it
    runs the weekly task, so with data at hand it invests and answers with
    an empty reply: each pool is reduced by its part of the final amount,
    the total score joins the recent-scores window, the state is stamped
    with the time of the call, and the state file is rewritten when the
    write succeeds.  Every other command leaves the manager as it is and
    has no effect besides its reply. *)
Theorem weekly_command_invests
    (rt : GoRuntime) (slack : nat -> nat) (f : Fetcher) (symbol : string)
    (m : Manager) (e : env) (ind : MarketIndicators) (command : string) :
  Collect f symbol = Returns (Some ind, None) ->
  (command = "查看本周建议"%string \/ command = "/weekly"%string ->
     exists m' out snap regularAmount,
       HandleCommand rt slack command f symbol m e [] [] []
         = Returns (m', out, EmptyReply) /\
       snapshots out = [snap] /\
       let signal := WeeklySnapshot.Signal snap in
       FinalAmount signal = regularAmount + ReserveUsed signal /\
       RegularBalance (state m') = RegularBalance (state m) - regularAmount /\
       ReserveBalance (state m') = ReserveBalance (state m) - ReserveUsed signal /\
       UpdatedAt (state m') = now e /\
       (wf_manager m ->
          window m' = last_n 12 (window m ++ [TotalScore (Evaluate rt ind)])) /\
       (write e = WriteOk -> file m' = Stored (observe (heap m') (state m')))) /\
  (command <> "查看本周建议"%string -> command <> "/weekly"%string ->
     exists r, HandleCommand rt slack command f symbol m e [] [] [] = Returns (m, [], r)).
Proof.
  intros E. split.
  - intros C. unfold HandleCommand.
    assert (String.eqb command "查看本周建议" || String.eqb command "/weekly" = true)%bool
      as ->.
    { apply orb_true_iff. destruct C as [-> | ->]; [left | right]; apply String.eqb_refl. }
    rewrite (weeklyTask_collected rt slack f symbol m e [] [] [] ind E).
    cbv zeta. cbn [bind]. rewrite !meanwhile_nil.
    set (signal0 := set_BaseAmount (set_Trigger (Evaluate rt ind) TriggerWeekly)
                      (WeeklyBaseN (state m))).
    pose proof (weekly_balances slack m signal0 e) as W.
    cbv zeta in W. destruct W as (R & B1 & B2 & _).
    eexists _, _, _, _. split; [reflexivity|].
    cbn [snapshots]. split; [reflexivity|].
    cbn [WeeklySnapshot.Signal set_ReserveUsed set_FinalAmount FinalAmount ReserveUsed].
    rewrite R. cbn [fst snd].
    split; [reflexivity|]. split; [exact B1|]. split; [exact B2|].
    split; [|split].
    + unfold CalculateWeeklyInvestment.
      destruct (append slack _ _ _) as [h scores]. cbn [fst].
      rewrite save_state. reflexivity.
    + intros Wf. destruct (weekly_window slack m signal0 e Wf) as (_ & Win & _).
      exact Win.
    + intros Hw. unfold CalculateWeeklyInvestment.
      destruct (append slack _ _ _) as [h scores]. cbn [fst].
      unfold save. rewrite Hw. reflexivity.
  - intros N1 N2. unfold HandleCommand.
    apply String.eqb_neq in N1. apply String.eqb_neq in N2. rewrite N1, N2. cbn [orb].
    destruct (String.eqb command "查看资金状态" || String.eqb command "/fund")%bool;
      [eexists; reflexivity|].
    destruct (String.eqb command "查看月报" || String.eqb command "/monthly")%bool;
      eexists; reflexivity.
Qed.

Lemma weekly_command_invests_witness :
  exists m' out snap regularAmount,
    HandleCommand quiet_runtime roomy "/weekly" crash "SPX500" rich_manager example_env
      [] [] [] = Returns (m', out, EmptyReply) /\
    snapshots out = [snap] /\
    FinalAmount (WeeklySnapshot.Signal snap)
      = regularAmount + ReserveUsed (WeeklySnapshot.Signal snap) /\
    RegularBalance (state m') = RegularBalance (state rich_manager) - regularAmount /\
    ReserveBalance (state m')
      = ReserveBalance (state rich_manager) - ReserveUsed (WeeklySnapshot.Signal snap) /\
    UpdatedAt (state m') = now example_env /\
    (wf_manager rich_manager ->
       window m' = last_n 12 (window rich_manager
                                ++ [TotalScore (Evaluate quiet_runtime crash_indicators)])) /\
    (write example_env = WriteOk -> file m' = Stored (observe (heap m') (state m'))).
Proof.
  apply (weekly_command_invests quiet_runtime roomy crash "SPX500" rich_manager
           example_env crash_indicators "/weekly").
  - vm_compute. reflexivity.
  - right. reflexivity.
Defined.

(** * Sending with retries *)

Import notifier NotifierSpec.

Lemma retry_loop_spec (world : Z -> attempt) (maxRetries : Z) (fuel : nat) :
  (maxRetries < int_max)%Z ->
  forall (i : Z) (lastErr : error) (sent : nat),
    (0 <= i)%Z -> (maxRetries + 1 - i <= Z.of_nat fuel)%Z ->
    exists r n,
      retry_loop fuel world maxRetries i lastErr sent = Returns (r, n) /\
      (sent <= n)%nat /\ (Z.of_nat (n - sent) <= Z.max 0 (maxRetries + 1 - i))%Z /\
      (r = None <->
         exists k, (i <= k <= maxRetries)%Z /\ world k = Delivered /\ retried world i k) /\
      (r = Some ContextDone <->
         exists k err, (i <= k <= maxRetries)%Z /\ world k = Failed err true /\
                       retried world i k) /\
      (r = None -> exists k, (i <= k)%Z /\ world k = Delivered /\ retried world i k /\
                             Z.of_nat (n - sent) = (k - i + 1)%Z).
Proof.
  intros Hmax. induction fuel as [|fuel IH]; intros i lastErr sent Hi Hf.
  - cbn [retry_loop]. destruct (Z.leb_spec i maxRetries) as [Le|Gt]; [lia|].
    eexists _, _. split; [reflexivity|]. split; [lia|]. split; [lia|].
    split; [|split].
    + split; [discriminate|]. intros (k & K & _). lia.
    + split; [discriminate|]. intros (k & err & K & _). lia.
    + discriminate.
  - cbn [retry_loop]. destruct (Z.leb_spec i maxRetries) as [Le|Gt].
    2:{ eexists _, _. split; [reflexivity|]. split; [lia|]. split; [lia|].
        split; [|split].
        + split; [discriminate|]. intros (k & K & _). lia.
        + split; [discriminate|]. intros (k & err & K & _). lia.
        + discriminate. }
    destruct (world i) as [|err cancelled] eqn:W.
    + eexists _, _. split; [reflexivity|]. split; [lia|]. split; [lia|].
      split; [|split].
      * split; [|reflexivity]. intros _. exists i. split; [lia|]. split; [exact W|].
        intros j Hj. lia.
      * split; [discriminate|]. intros (k & err & K & Wk & R).
        destruct (Z.eq_dec k i) as [->|Ne]; [congruence|].
        destruct (R i ltac:(lia)) as [err' E]. congruence.
      * intros _. exists i. split; [lia|]. split; [exact W|].
        split; [intros j Hj; lia | lia].
    + destruct cancelled.
      * eexists _, _. split; [reflexivity|]. split; [lia|]. split; [lia|].
        split; [|split].
        -- split; [discriminate|]. intros (k & K & Wk & R).
           destruct (Z.eq_dec k i) as [->|Ne]; [congruence|].
           destruct (R i ltac:(lia)) as [err' E]. congruence.
        -- split; [|reflexivity]. intros _. exists i, err. split; [lia|].
           split; [exact W|]. intros j Hj. lia.
        -- discriminate.
      * assert (A : int_add i 1 = (i + 1)%Z).
        { unfold int_add. apply wrap_id. unfold int_min, int_max in *. lia. }
        rewrite A.
        destruct (IH (i + 1)%Z (Some err) (S sent) ltac:(lia) ltac:(lia))
          as (r & n & E & B1 & B2 & N & C & L).
        exists r, n. split; [exact E|]. split; [lia|]. split; [lia|].
        assert (Shift : forall k, (i + 1 <= k)%Z ->
                  (retried world (i + 1) k <-> retried world i k)).
        { intros k Hk. split; intros R j Hj.
          - destruct (Z.eq_dec j i) as [->|Ne]; [eauto|]. apply R. lia.
          - apply R. lia. }
        split; [|split].
        -- rewrite N. split.
           ++ intros (k & K & Wk & R). exists k. split; [lia|]. split; [exact Wk|].
              apply Shift; [lia | exact R].
           ++ intros (k & K & Wk & R).
              destruct (Z.eq_dec k i) as [->|Ne]; [congruence|].
              exists k. split; [lia|]. split; [exact Wk|]. apply Shift; [lia | exact R].
        -- rewrite C. split.
           ++ intros (k & err' & K & Wk & R). exists k, err'. split; [lia|].
              split; [exact Wk|]. apply Shift; [lia | exact R].
           ++ intros (k & err' & K & Wk & R).
              destruct (Z.eq_dec k i) as [->|Ne]; [congruence|].
              exists k, err'. split; [lia|]. split; [exact Wk|].
              apply Shift; [lia | exact R].
        -- intros Rn. destruct (L Rn) as (k & K & Wk & R & Cnt).
           exists k. split; [lia|]. split; [exact Wk|].
           split; [apply Shift; [lia | exact R] | lia].
Qed.

(** X27. SendWithRetry with [maxRetries] below the largest int returns, and
    it calls Send at most [maxRetries+1] times.  It returns no error exactly
    when some attempt among the first [maxRetries+1] succeeds after attempts
    that all failed and were waited out, and then that attempt was the last
    call of Send; it returns the context's error exactly when the context
    is done first after a failed attempt.  With a negative [maxRetries] it
    sends nothing and reports exhaustion with no error inside. *)
Theorem SendWithRetry_stops_at_first_success
    (world : Z -> attempt) (maxRetries : Z) (fuel : nat) :
  (maxRetries < int_max)%Z ->
  (maxRetries + 1 <= Z.of_nat fuel)%Z ->
  exists r n,
    SendWithRetry fuel world maxRetries = Returns (r, n) /\
    (Z.of_nat n <= Z.max 0 (maxRetries + 1))%Z /\
    (r = None <->
       exists k, (0 <= k <= maxRetries)%Z /\ world k = Delivered /\ retried world 0 k) /\
    (r = Some ContextDone <->
       exists k err, (0 <= k <= maxRetries)%Z /\ world k = Failed err true /\
                     retried world 0 k) /\
    (r = None -> exists k, world k = Delivered /\ retried world 0 k /\
                           Z.of_nat n = (k + 1)%Z) /\
    ((maxRetries < 0)%Z -> r = Some (Exhausted (int_add maxRetries 1) None) /\ n = 0%nat).
Proof.
  intros Hmax Hf. unfold SendWithRetry.
  destruct (retry_loop_spec world maxRetries fuel Hmax 0 None 0%nat ltac:(lia) ltac:(lia))
    as (r & n & E & B1 & B2 & N & C & L).
  exists r, n. split; [exact E|]. split; [lia|]. split; [exact N|]. split; [exact C|].
  split.
  - intros Rn. destruct (L Rn) as (k & K & Wk & R & Cnt).
    exists k. split; [exact Wk|]. split; [exact R | lia].
  - intros Neg.
    destruct fuel as [|fuel]; cbn [retry_loop] in E;
      (destruct (Z.leb_spec 0 maxRetries); [lia|]); injection E as <- <-;
      split; reflexivity.
Qed.

Lemma SendWithRetry_stops_at_first_success_witness :
  exists r n,
    SendWithRetry 4%nat (flaky 2%Z) 3%Z = Returns (r, n) /\
    (Z.of_nat n <= Z.max 0 (3 + 1))%Z /\
    (r = None <->
       exists k, (0 <= k <= 3)%Z /\ flaky 2%Z k = Delivered /\ retried (flaky 2%Z) 0 k) /\
    (r = Some ContextDone <->
       exists k err, (0 <= k <= 3)%Z /\ flaky 2%Z k = Failed err true /\
                     retried (flaky 2%Z) 0 k) /\
    (r = None -> exists k, flaky 2%Z k = Delivered /\ retried (flaky 2%Z) 0 k /\
                           Z.of_nat n = (k + 1)%Z) /\
    ((3 < 0)%Z -> r = Some (Exhausted (int_add 3%Z 1%Z) None) /\ n = 0%nat).
Proof.
  apply (SendWithRetry_stops_at_first_success (flaky 2%Z) 3%Z 4%nat).
  - reflexivity.
  - vm_compute. discriminate.
Defined.

(** * Configuration *)

Lemma default_nonempty (field value : string) :
  value <> ""%string -> config.default field value <> ""%string.
Proof.
  intros V. unfold config.default.
  destruct (String.eqb_spec field ""); [exact V | assumption].
Qed.

(** What Load guarantees of the Config it returns. *)
Lemma Load_defaults_hold
    (Getenv : string -> string) (Sscanf_f : string -> option config.float64)
    (file : config.config_file) (cfg : config.Config) :
  fst (config.Load Getenv Sscanf_f file) = Some cfg ->
  (config.Symbol cfg <> "" /\ config.WeeklyCron cfg <> "" /\
   config.DailyCron cfg <> "" /\ config.MonthlyCron cfg <> "" /\
   config.StateFile cfg <> "" /\ config.SQLitePath cfg <> "")%string /\
  config.is_zero (config.MonthlyBudget cfg) = false /\
  (Getenv "TELEGRAM_BOT_TOKEN"%string <> ""%string ->
     config.BotToken cfg = Getenv "TELEGRAM_BOT_TOKEN"%string) /\
  (Getenv "TELEGRAM_CHAT_ID"%string <> ""%string ->
     config.ChatID cfg = Getenv "TELEGRAM_CHAT_ID"%string) /\
  (Getenv "VSTRADER_BASE_URL"%string <> ""%string ->
     config.BaseURL cfg = Getenv "VSTRADER_BASE_URL"%string) /\
  (Getenv "VSTRADER_API_KEY"%string <> ""%string ->
     config.APIKey cfg = Getenv "VSTRADER_API_KEY"%string) /\
  (Getenv "HTTPS_PROXY"%string <> ""%string ->
     config.Proxy cfg = Getenv "HTTPS_PROXY"%string).
Proof.
  assert (Over : forall name field, Getenv name <> ""%string ->
                   config.override Getenv name field = Getenv name).
  { intros name field H. unfold config.override.
    destruct (String.eqb_spec (Getenv name) ""); [contradiction | reflexivity]. }
  assert (Budget : forall b, config.is_zero (if config.is_zero b then config.Finite 10000 else b)
                             = false).
  { intros b. destruct (config.is_zero b) eqn:Z; [reflexivity | exact Z]. }
  intros H.
  destruct file as [err| |err|c]; cbn [config.Load fst] in H; try discriminate;
    injection H as <-;
    cbn [config.Symbol config.WeeklyCron config.DailyCron config.MonthlyCron
         config.StateFile config.SQLitePath config.MonthlyBudget config.BotToken
         config.ChatID config.BaseURL config.APIKey config.Proxy];
    (split; [repeat split; apply default_nonempty; discriminate|]);
    (split; [apply Budget|]);
    repeat split; apply Over.
Qed.

(** X28. Load fails exactly on a read error or on YAML that does not
    decode; a missing or empty file is not an error.  The Config it returns
    has a symbol, the three schedules, a state file and a database path that
    are never empty, and a monthly budget that is never equal to zero; a
    non-empty environment variable takes precedence over the file for the
    bot token, the chat id, the base URL, the API key and the proxy. *)
Theorem Load_fills_defaults
    (Getenv : string -> string) (Sscanf_f : string -> option config.float64)
    (file : config.config_file) :
  (fst (config.Load Getenv Sscanf_f file) = None <->
     (exists err, file = config.ReadFails err) \/ (exists err, file = config.BadYaml err)) /\
  (snd (config.Load Getenv Sscanf_f file) = None <->
     fst (config.Load Getenv Sscanf_f file) <> None) /\
  forall cfg, fst (config.Load Getenv Sscanf_f file) = Some cfg ->
    (config.Symbol cfg <> "" /\ config.WeeklyCron cfg <> "" /\
     config.DailyCron cfg <> "" /\ config.MonthlyCron cfg <> "" /\
     config.StateFile cfg <> "" /\ config.SQLitePath cfg <> "")%string /\
    config.is_zero (config.MonthlyBudget cfg) = false /\
    (Getenv "TELEGRAM_BOT_TOKEN"%string <> ""%string ->
       config.BotToken cfg = Getenv "TELEGRAM_BOT_TOKEN"%string) /\
    (Getenv "TELEGRAM_CHAT_ID"%string <> ""%string ->
       config.ChatID cfg = Getenv "TELEGRAM_CHAT_ID"%string) /\
    (Getenv "VSTRADER_BASE_URL"%string <> ""%string ->
       config.BaseURL cfg = Getenv "VSTRADER_BASE_URL"%string) /\
    (Getenv "VSTRADER_API_KEY"%string <> ""%string ->
       config.APIKey cfg = Getenv "VSTRADER_API_KEY"%string) /\
    (Getenv "HTTPS_PROXY"%string <> ""%string ->
       config.Proxy cfg = Getenv "HTTPS_PROXY"%string).
Proof.
  split; [|split].
  - destruct file; cbn [config.Load fst]; split;
      try discriminate; try (intros _; eauto; fail);
      intros [[err E] | [err E]]; discriminate.
  - destruct file; cbn [config.Load fst snd]; split;
      try discriminate; try congruence; intros H; exfalso; now apply H.
  - apply Load_defaults_hold.
Qed.

(** ** What main sets up *)

Section Startup.

Import app AppSpec.

(** X29. A Config that Load returned and Validate accepted has a bot token,
    a chat id and a base URL, and a budget that is a positive number, plus
    infinity, or NaN: NaN passes the check for a positive budget.  main
    then either stops at the fund manager or gets past the recorder, and
    when it does it has taken the vstrader fetcher, never the Yahoo one,
    and the SQLite recorder (the no-op one only as its fallback), with the
    symbol of the Config.  With a budget that is not a finite number and a
    state to seed (no state file, or one with a zero budget) main stops at
    the fund manager. *)
Theorem validated_config
    (Getenv : string -> string) (Sscanf_f : string -> option config.float64)
    (slack : nat -> nat) (configFiles : string -> config.config_file)
    (stateFiles : string -> file_content) (e : env) (cfg : config.Config) :
  let cfgPath :=
    if String.eqb (Getenv "CONFIG_PATH"%string) "" then "configs/config.yaml"%string
    else Getenv "CONFIG_PATH"%string in
  let run := main Getenv Sscanf_f slack configFiles stateFiles e in
  fst (config.Load Getenv Sscanf_f (configFiles cfgPath)) = Some cfg ->
  config.Validate cfg = None ->
  (config.BotToken cfg <> "" /\ config.ChatID cfg <> "" /\ config.BaseURL cfg <> "")%string /\
  ((exists q, config.MonthlyBudget cfg = config.Finite q /\ 0 < q) \/
   config.MonthlyBudget cfg = config.Inf false \/
   config.MonthlyBudget cfg = config.NaN) /\
  (run = Fatal "init fund manager" \/
   exists fm,
     run = SetUp (VsTrader (config.BaseURL cfg) (config.APIKey cfg) (config.Proxy cfg))
                 (config.Symbol cfg) fm (SQLiteOrNoop (config.SQLitePath cfg))) /\
  ((forall q, config.MonthlyBudget cfg <> config.Finite q) ->
   (forall h st, LoadState slack (stateFiles (config.StateFile cfg)) = Some (h, st) ->
                 MonthlyBudget st == 0) ->
   run = Fatal "init fund manager").
Proof.
  cbv zeta. intros L V.
  destruct (Load_defaults_hold Getenv Sscanf_f _ cfg L)
    as ((_ & _ & _ & _ & _ & Db) & _).
  pose proof V as V'. unfold config.Validate in V.
  destruct (String.eqb_spec (config.BotToken cfg) "") as [|T]; [discriminate|].
  destruct (String.eqb_spec (config.ChatID cfg) "") as [|C]; [discriminate|].
  destruct (String.eqb_spec (config.BaseURL cfg) "") as [|U]; [discriminate|].
  destruct (config.le_zero (config.MonthlyBudget cfg)) eqn:B; [discriminate|].
  split; [auto|]. split.
  { destruct (config.MonthlyBudget cfg) as [|[|]|q]; cbn [config.le_zero] in B;
      try discriminate; auto.
    left. exists q. split; [reflexivity|].
    destruct (leb_spec q 0); [discriminate | assumption]. }
  assert (R : main Getenv Sscanf_f slack configFiles stateFiles e =
              match NewManager slack stateFiles (config.StateFile cfg)
                      (config.MonthlyBudget cfg) e with
              | None => Fatal "init fund manager"
              | Some fm =>
                  SetUp (VsTrader (config.BaseURL cfg) (config.APIKey cfg) (config.Proxy cfg))
                    (config.Symbol cfg) fm (SQLiteOrNoop (config.SQLitePath cfg))
              end).
  { unfold main.
    destruct (config.Load Getenv Sscanf_f _) as [[c|] [err|]] eqn:EL;
      cbn [fst] in L; try discriminate.
    - exfalso. destruct (configFiles _); cbn [config.Load] in EL; discriminate.
    - injection L as ->. rewrite V'.
      destruct (String.eqb_spec (config.BaseURL cfg) ""); [contradiction|].
      destruct (String.eqb_spec (config.SQLitePath cfg) ""); [contradiction|].
      reflexivity. }
  rewrite R. split.
  - destruct (NewManager slack stateFiles _ _ e) as [fm|]; [right; eauto | now left].
  - intros NotFinite Seed. unfold NewManager.
    destruct (config.MonthlyBudget cfg) as [|neg|q]; [| |now contradiction (NotFinite q)];
      (destruct (LoadState slack (stateFiles (config.StateFile cfg))) as [[h st]|] eqn:EL;
       [|reflexivity]);
      specialize (Seed h st eq_refl);
      (destruct (eqb_spec (MonthlyBudget st) 0); [reflexivity | contradiction]).
Qed.

Lemma validated_config_witness :
  main ConfigSpec.example_env_vars ConfigSpec.example_scan roomy no_config no_state
    example_env = Fatal "init fund manager".
Proof.
  apply (validated_config ConfigSpec.example_env_vars ConfigSpec.example_scan roomy
           no_config no_state example_env nan_config).
  - reflexivity.
  - reflexivity.
  - intros q. discriminate.
  - intros h st H. injection H as <- <-. reflexivity.
Defined.

End Startup.

(** * The Yahoo fetcher *)

Import yahoo YahooSpec.

Lemma trim_keeps_latest (bars : list OHLCV) (n : Z) :
  (len bars <= int_max)%Z ->
  ((0 <= n)%Z -> trim bars n = Returns (last_n (Z.to_nat n) bars)) /\
  ((int_min <= n < 0)%Z -> trim bars n = Panics).
Proof.
  intros Hl. unfold trim, len in *. split.
  - intros Hn. destruct (Z.gtb_spec (Z.of_nat (length bars)) n) as [Gt|Le].
    + assert (A : int_sub (Z.of_nat (length bars)) n = (Z.of_nat (length bars) - n)%Z).
      { unfold int_sub. apply wrap_id. unfold int_min, int_max in *. lia. }
      rewrite A.
      destruct (Z.leb_spec 0 (Z.of_nat (length bars) - n)); [|lia].
      destruct (Z.leb_spec (Z.of_nat (length bars) - n) (Z.of_nat (length bars))); [|lia].
      cbn [andb]. unfold last_n. do 2 f_equal. lia.
    + unfold last_n. replace (length bars - Z.to_nat n)%nat with 0%nat by lia.
      reflexivity.
  - intros Hn. destruct (Z.gtb_spec (Z.of_nat (length bars)) n) as [Gt|Le]; [|lia].
    pose proof (wrap_range (Z.of_nat (length bars) - n)) as R.
    unfold int_sub.
    destruct (Z.leb_spec 0 (wrap (Z.of_nat (length bars) - n))) as [Pos|Neg];
      [|reflexivity].
    destruct (Z.leb_spec (wrap (Z.of_nat (length bars) - n)) (Z.of_nat (length bars)))
      as [Small|Big]; [|reflexivity].
    exfalso. unfold wrap, int_min, int_max in *.
    destruct (Z.le_gt_cases (Z.of_nat (length bars) - n) (2 ^ 63 - 1)) as [In|Out].
    + rewrite Z.mod_small in Small by lia. lia.
    + replace (Z.of_nat (length bars) - n + 2 ^ 63)%Z
        with ((Z.of_nat (length bars) - n - 2 ^ 63) + 1 * 2 ^ 64)%Z in Pos by lia.
      rewrite Z.mod_add in Pos by lia. rewrite Z.mod_small in Pos by lia. lia.
Qed.

(** X30. The Yahoo fetcher's bar methods keep the latest bars: asked for a
    count that is not negative, FetchDailyBars and FetchWeeklyBars pass on
    an error of the chart request and otherwise return the last [count]
    bars of the chart (all of them when there are fewer); asked for a
    negative count they panic on the slice expression whenever the chart
    request succeeds. *)
Theorem yahoo_bars_keep_latest
    (fetchChart : string -> string -> string -> list OHLCV * error)
    (symbol : string) (count : Z) :
  let daily := fetchChart symbol "1d"%string (daily_range count) in
  let weekly := fetchChart symbol "1wk"%string (weekly_range count) in
  (len (fst daily) <= int_max)%Z -> (len (fst weekly) <= int_max)%Z ->
  (int_min <= count)%Z ->
  (snd daily = None -> (0 <= count)%Z ->
     FetchDailyBars fetchChart symbol count
       = Returns (last_n (Z.to_nat count) (fst daily), None)) /\
  (snd weekly = None -> (0 <= count)%Z ->
     FetchWeeklyBars fetchChart symbol count
       = Returns (last_n (Z.to_nat count) (fst weekly), None)) /\
  (snd daily = None -> (count < 0)%Z -> FetchDailyBars fetchChart symbol count = Panics) /\
  (snd weekly = None -> (count < 0)%Z ->
     FetchWeeklyBars fetchChart symbol count = Panics) /\
  (forall err, snd daily = Some err ->
     FetchDailyBars fetchChart symbol count = Returns ([], Some err)) /\
  (forall err, snd weekly = Some err ->
     FetchWeeklyBars fetchChart symbol count = Returns ([], Some err)).
Proof.
  cbv zeta. intros Ld Lw Hc. unfold FetchDailyBars, FetchWeeklyBars.
  destruct (fetchChart symbol "1d"%string (daily_range count)) as [d ed].
  destruct (fetchChart symbol "1wk"%string (weekly_range count)) as [w ew].
  cbn [fst snd] in *.
  destruct (trim_keeps_latest d count Ld) as [Dk Dp].
  destruct (trim_keeps_latest w count Lw) as [Wk Wp].
  split; [|split; [|split; [|split; [|split]]]].
  - intros -> Hn. rewrite (Dk Hn). reflexivity.
  - intros -> Hn. rewrite (Wk Hn). reflexivity.
  - intros -> Hn. rewrite Dp by lia. reflexivity.
  - intros -> Hn. rewrite Wp by lia. reflexivity.
  - intros err ->. reflexivity.
  - intros err ->. reflexivity.
Qed.

Lemma yahoo_bars_keep_latest_witness :
  FetchDailyBars four_bars "SPX500" 3 = Returns (bars_of [12; 11; 13], None).
Proof.
  apply (yahoo_bars_keep_latest four_bars "SPX500" 3).
  - vm_compute. discriminate.
  - vm_compute. discriminate.
  - vm_compute. discriminate.
  - reflexivity.
  - lia.
Defined.
